(** * Streaming chat consumer and typing renderer of the chat front ends

    A shallow embedding of the message path of the two browser clients:

    - [FaramexChat] (ai-server-main/frontend/script.js): [sendMessage] and
      [sendToAPI], the reader loop over the streamed response body;
    - [PromaDashboard] (ai-proma/frontend/dashboard-script.js and
      dashboard-script-new.js): [sendMessage], [callAI] and the word-by-word
      [typeAIResponse].

    Conventions of the embedding.

    - A JavaScript string is represented by the UTF-8 encoding of its text, as
      a [string] of bytes.  Every string operation the clients use ([split] on
      a one-character ASCII separator, [startsWith] and [slice] on an ASCII
      prefix, [===], [+=], [trim]) commutes with that encoding.
    - The page is assumed to provide every element that [initializeElements]
      looks up; the document is a record holding what the methods read and
      write.  A message node stores the text handed to [formatMessage]; the
      time stamp, the layout (scroll position, textarea height) and the
      console output are left out.
    - The network is an input: the outcome of the one [fetch] and, for the
      streamed body, the sequence of outcomes of [reader.read()], each chunk
      given as the text [decoder.decode(value)] returns for it.
    - An [async] method is a function from the state and those inputs to the
      state it leaves and the way its promise settles. *)

From Stdlib Require Import String Ascii List ZArith NArith Lia Bool Arith.
From Stdlib Require Import DecimalString.
Import ListNotations.
Open Scope string_scope.
Open Scope list_scope.

(** ** The fragment of JavaScript the clients rely on *)

Module JS.

(** [s.startsWith(p)] *)
Definition startsWith (s p : string) : bool := String.prefix p s.

(** [s.slice(n)] for [0 <= n]: the string without its first [n] units. *)
Fixpoint slice (n : nat) (s : string) : string :=
  match n, s with
  | O, _ => s
  | S _, EmptyString => EmptyString
  | S n', String _ s' => slice n' s'
  end.

(** [s.split(sep)] for a separator of one character: never empty, the pieces
    between the separators, in order. *)
Fixpoint split (sep : ascii) (s : string) : list string :=
  match s with
  | EmptyString => [EmptyString]
  | String c s' =>
      if Ascii.eqb c sep then EmptyString :: split sep s'
      else match split sep s' with
           | [] => [String c EmptyString]
           | w :: ws => String c w :: ws
           end
  end.

(** [words.join(sep)] *)
Definition join (sep : string) (words : list string) : string :=
  String.concat sep words.

(** White space and line terminators, as [trim] strips them, in UTF-8:
    U+0009..U+000D, U+0020, U+00A0, U+1680, U+2000..U+200A, U+2028, U+2029,
    U+202F, U+205F, U+3000 and U+FEFF. *)
Definition byte (n : nat) : ascii := ascii_of_nat n.

Definition bytes (l : list nat) : string :=
  fold_right (fun n s => String (byte n) s) EmptyString l.

Definition white_space : list string :=
  map bytes
    ([[9]; [10]; [11]; [12]; [13]; [32]; [194; 160]; [225; 154; 128]]
     ++ map (fun k => [226; 128; 128 + k]) (seq 0 11)
     ++ [[226; 128; 168]; [226; 128; 169]; [226; 128; 175];
         [226; 129; 159]; [227; 128; 128]; [239; 187; 191]]).

Definition rev_string (s : string) : string :=
  string_of_list_ascii (rev (list_ascii_of_string s)).

(** One white-space character removed from the front, if there is one. *)
Definition strip_one (ws : list string) (s : string) : option string :=
  match find (fun w => String.prefix w s) ws with
  | Some w => Some (slice (String.length w) s)
  | None => None
  end.

Fixpoint strip (fuel : nat) (ws : list string) (s : string) : string :=
  match fuel with
  | O => s
  | S fuel' =>
      match strip_one ws s with
      | Some s' => strip fuel' ws s'
      | None => s
      end
  end.

Definition trimStart (s : string) : string :=
  strip (String.length s) white_space s.

(** [s.trim()] *)
Definition trim (s : string) : string :=
  rev_string
    (strip (String.length s) (map rev_string white_space)
       (rev_string (trimStart s))).

Set Warnings "-register-all".

(** Values: what [JSON.parse] builds, and [undefined].  A number keeps the
    literal it was written as; an object keeps its members in source order. *)
Inductive Value : Type :=
  | Undefined
  | Null
  | Boolean (b : bool)
  | Number (literal : string)
  | Str (s : string)
  | Array (elements : list Value)
  | Object (members : list (string * Value)).

(** JavaScript numbers are IEEE doubles.  The two conversions the clients
    apply to a parsed number are taken from the engine. *)
Record Engine : Type := {
  Number_toString : string -> string;
  Number_toBoolean : string -> bool
}.

(** The member an object literal leaves under [key]: the last one written. *)
Fixpoint lookup (key : string) (members : list (string * Value)) : option Value :=
  match members with
  | [] => None
  | (k, v) :: rest =>
      match lookup key rest with
      | Some v' => Some v'
      | None => if String.eqb k key then Some v else None
      end
  end.

(** [v.key] for a name that no built-in prototype defines ([content],
    [response], [message]): [None] is the TypeError of reading a property of
    [null] or [undefined]. *)
Definition Get (v : Value) (key : string) : option Value :=
  match v with
  | Undefined | Null => None
  | Object members =>
      Some (match lookup key members with Some x => x | None => Undefined end)
  | _ => Some Undefined
  end.

Definition ToBoolean (e : Engine) (v : Value) : bool :=
  match v with
  | Undefined | Null => false
  | Boolean b => b
  | Number n => Number_toBoolean e n
  | Str s => negb (String.eqb s EmptyString)
  | Array _ | Object _ => true
  end.

Definition sequence {A : Type} (l : list (option A)) : option (list A) :=
  fold_right
    (fun x acc =>
       match x, acc with
       | Some a, Some r => Some (a :: r)
       | _, _ => None
       end)
    (Some []) l.

(** The string a value turns into under [+] with a string.  An array joins its
    elements with commas, [null] and [undefined] elements as empty strings.
    An object prints as [[object Object]] through the inherited [toString]; a
    parsed member named [toString] shadows it with something that cannot be
    called, and the conversion throws a TypeError ([None]). *)
Fixpoint ToString (e : Engine) (v : Value) : option string :=
  match v with
  | Undefined => Some "undefined"
  | Null => Some "null"
  | Boolean true => Some "true"
  | Boolean false => Some "false"
  | Number n => Some (Number_toString e n)
  | Str s => Some s
  | Array elements =>
      option_map (join ",")
        (sequence
           (map (fun x =>
                   match x with
                   | Undefined | Null => Some EmptyString
                   | _ => ToString e x
                   end)
              elements))
  | Object members =>
      match lookup "toString" members with
      | Some _ => None
      | None => Some "[object Object]"
      end
  end.

End JS.

(** ** [JSON.parse]

    The JSON grammar of ECMA-404, over the characters of the text.  Bytes above
    127 may only occur inside strings, where they stand for themselves. *)

Module JSON.

Import JS.

Inductive Parse (A : Type) : Type :=
  | Parsed (a : A) (rest : list ascii)
  | SyntaxError
  | OutOfFuel.

Arguments Parsed {A} a rest.
Arguments SyntaxError {A}.
Arguments OutOfFuel {A}.

Definition dquote : ascii := byte 34.
Definition backslash : ascii := byte 92.

Definition is_ws (c : ascii) : bool :=
  existsb (Ascii.eqb c) [byte 32; byte 9; byte 10; byte 13].

Fixpoint skip_ws (s : list ascii) : list ascii :=
  match s with
  | c :: r => if is_ws c then skip_ws r else s
  | [] => []
  end.

Definition is_digit (c : ascii) : bool :=
  let n := nat_of_ascii c in ((48 <=? n) && (n <=? 57))%nat.

(** The longest run of digits at the front, and what follows it. *)
Fixpoint digits (s : list ascii) : list ascii * list ascii :=
  match s with
  | c :: r =>
      if is_digit c then let (ds, r') := digits r in (c :: ds, r') else ([], s)
  | [] => ([], [])
  end.

(** [s] without the prefix [p], when it starts with it. *)
Fixpoint expect (p s : list ascii) : option (list ascii) :=
  match p, s with
  | [], _ => Some s
  | a :: p', b :: s' => if Ascii.eqb a b then expect p' s' else None
  | _ :: _, [] => None
  end.

Definition chars : string -> list ascii := list_ascii_of_string.
Definition text : list ascii -> string := string_of_list_ascii.

(** number = [ minus ] int [ frac ] [ exp ]; the literal is kept as written. *)
Definition parse_exp (acc s : list ascii) : Parse string :=
  match s with
  | c :: r =>
      if Ascii.eqb c "e" || Ascii.eqb c "E" then
        let (sign, r1) :=
          match r with
          | d :: r' =>
              if Ascii.eqb d "+" || Ascii.eqb d "-" then ([d], r') else ([], r)
          | [] => ([], r)
          end in
        match digits r1 with
        | ([], _) => SyntaxError
        | (ds, r2) => Parsed (text (acc ++ c :: sign ++ ds)) r2
        end
      else Parsed (text acc) s
  | [] => Parsed (text acc) s
  end.

Definition parse_frac (acc s : list ascii) : Parse string :=
  match s with
  | c :: r =>
      if Ascii.eqb c "." then
        match digits r with
        | ([], _) => SyntaxError
        | (ds, r1) => parse_exp (acc ++ c :: ds) r1
        end
      else parse_exp acc s
  | [] => parse_exp acc s
  end.

Definition parse_number (s : list ascii) : Parse string :=
  let (sign, s1) :=
    match s with
    | c :: r => if Ascii.eqb c "-" then ([c], r) else ([], s)
    | [] => ([], s)
    end in
  match s1 with
  | c :: r =>
      if Ascii.eqb c "0" then parse_frac (sign ++ [c]) r
      else if is_digit c then
        let (ds, r1) := digits s1 in parse_frac (sign ++ ds) r1
      else SyntaxError
  | [] => SyntaxError
  end.

(** A string is read into its units: a character written as itself, or the
    UTF-16 code unit an escape denotes. *)
Inductive StringUnit : Type :=
  | Raw (c : ascii)
  | Escaped (unit : N).

Definition hex_digit (c : ascii) : option N :=
  let n := N_of_ascii c in
  (if (48 <=? n) && (n <=? 57) then Some (n - 48)
   else if (65 <=? n) && (n <=? 70) then Some (n - 55)
   else if (97 <=? n) && (n <=? 102) then Some (n - 87)
   else None)%N.

Definition hex4 (a b c d : ascii) : option N :=
  match hex_digit a, hex_digit b, hex_digit c, hex_digit d with
  | Some x, Some y, Some z, Some w =>
      Some (((x * 16 + y) * 16 + z) * 16 + w)%N
  | _, _, _, _ => None
  end.

Definition simple_escape (c : ascii) : option N :=
  (if Ascii.eqb c dquote then Some 34
   else if Ascii.eqb c backslash then Some 92
   else if Ascii.eqb c "/" then Some 47
   else if Ascii.eqb c "b" then Some 8
   else if Ascii.eqb c "f" then Some 12
   else if Ascii.eqb c "n" then Some 10
   else if Ascii.eqb c "r" then Some 13
   else if Ascii.eqb c "t" then Some 9
   else None)%N.

(** The units of a string up to its closing quote; the opening quote has been
    read.  Control characters must be escaped. *)
Fixpoint parse_units (s : list ascii) : Parse (list StringUnit) :=
  match s with
  | [] => SyntaxError
  | c :: r =>
      if Ascii.eqb c dquote then Parsed [] r
      else if Ascii.eqb c backslash then
        match r with
        | e :: r1 =>
            if Ascii.eqb e "u" then
              match r1 with
              | h1 :: h2 :: h3 :: h4 :: r2 =>
                  match hex4 h1 h2 h3 h4, parse_units r2 with
                  | Some u, Parsed us r3 => Parsed (Escaped u :: us) r3
                  | _, _ => SyntaxError
                  end
              | _ => SyntaxError
              end
            else
              match simple_escape e, parse_units r1 with
              | Some u, Parsed us r2 => Parsed (Escaped u :: us) r2
              | _, _ => SyntaxError
              end
        | [] => SyntaxError
        end
      else if (N_of_ascii c <? 32)%N then SyntaxError
      else
        match parse_units r with
        | Parsed us r1 => Parsed (Raw c :: us) r1
        | _ => SyntaxError
        end
  end.

Definition utf8 (cp : N) : list ascii :=
  map ascii_of_N
    (if cp <? 128 then [cp]
     else if cp <? 2048 then [192 + cp / 64; 128 + cp mod 64]
     else if cp <? 65536 then
       [224 + cp / 4096; 128 + (cp / 64) mod 64; 128 + cp mod 64]
     else
       [240 + cp / 262144; 128 + (cp / 4096) mod 64;
        128 + (cp / 64) mod 64; 128 + cp mod 64])%N.

Definition is_high (u : N) : bool := ((55296 <=? u) && (u <=? 56319))%N.
Definition is_low (u : N) : bool := ((56320 <=? u) && (u <=? 57343))%N.

(** The text of a string: an escaped high surrogate followed by an escaped low
    surrogate is one character. *)
Fixpoint encode (us : list StringUnit) : list ascii :=
  match us with
  | [] => []
  | Raw c :: rest => c :: encode rest
  | Escaped u :: rest =>
      match rest with
      | Escaped v :: rest' =>
          if is_high u && is_low v then
            utf8 (65536 + (u - 55296) * 1024 + (v - 56320))%N ++ encode rest'
          else utf8 u ++ encode rest
      | _ => utf8 u ++ encode rest
      end
  end.

Definition parse_string (s : list ascii) : Parse string :=
  match parse_units s with
  | Parsed us r => Parsed (text (encode us)) r
  | SyntaxError => SyntaxError
  | OutOfFuel => OutOfFuel
  end.

(** value, the elements of an array after its bracket, and the members of an
    object after its brace.  Every call on the way down spends one unit of
    [fuel]. *)
Fixpoint parse_value (fuel : nat) (s : list ascii) : Parse Value :=
  match fuel with
  | O => OutOfFuel
  | S f =>
      match skip_ws s with
      | [] => SyntaxError
      | c :: r =>
          if Ascii.eqb c "{" then
            match skip_ws r with
            | c' :: r' =>
                if Ascii.eqb c' "}" then Parsed (Object []) r'
                else parse_members f r []
            | [] => SyntaxError
            end
          else if Ascii.eqb c "[" then
            match skip_ws r with
            | c' :: r' =>
                if Ascii.eqb c' "]" then Parsed (Array []) r'
                else parse_elements f r []
            | [] => SyntaxError
            end
          else if Ascii.eqb c dquote then
            match parse_string r with
            | Parsed str r' => Parsed (Str str) r'
            | SyntaxError => SyntaxError
            | OutOfFuel => OutOfFuel
            end
          else if Ascii.eqb c "-" || is_digit c then
            match parse_number (c :: r) with
            | Parsed lit r' => Parsed (Number lit) r'
            | SyntaxError => SyntaxError
            | OutOfFuel => OutOfFuel
            end
          else
            match expect (chars "true") (c :: r) with
            | Some r' => Parsed (Boolean true) r'
            | None =>
                match expect (chars "false") (c :: r) with
                | Some r' => Parsed (Boolean false) r'
                | None =>
                    match expect (chars "null") (c :: r) with
                    | Some r' => Parsed Null r'
                    | None => SyntaxError
                    end
                end
            end
      end
  end

with parse_elements (fuel : nat) (s : list ascii) (acc : list Value)
  : Parse Value :=
  match fuel with
  | O => OutOfFuel
  | S f =>
      match parse_value f s with
      | Parsed v r =>
          match skip_ws r with
          | c :: r' =>
              if Ascii.eqb c "," then parse_elements f r' (v :: acc)
              else if Ascii.eqb c "]" then Parsed (Array (rev (v :: acc))) r'
              else SyntaxError
          | [] => SyntaxError
          end
      | SyntaxError => SyntaxError
      | OutOfFuel => OutOfFuel
      end
  end

with parse_members (fuel : nat) (s : list ascii) (acc : list (string * Value))
  : Parse Value :=
  match fuel with
  | O => OutOfFuel
  | S f =>
      match skip_ws s with
      | q :: r =>
          if Ascii.eqb q dquote then
            match parse_string r with
            | Parsed key r1 =>
                match skip_ws r1 with
                | c :: r2 =>
                    if Ascii.eqb c ":" then
                      match parse_value f r2 with
                      | Parsed v r3 =>
                          match skip_ws r3 with
                          | d :: r4 =>
                              if Ascii.eqb d "," then
                                parse_members f r4 ((key, v) :: acc)
                              else if Ascii.eqb d "}" then
                                Parsed (Object (rev ((key, v) :: acc))) r4
                              else SyntaxError
                          | [] => SyntaxError
                          end
                      | SyntaxError => SyntaxError
                      | OutOfFuel => OutOfFuel
                      end
                    else SyntaxError
                | [] => SyntaxError
                end
            | SyntaxError => SyntaxError
            | OutOfFuel => OutOfFuel
            end
          else SyntaxError
      | [] => SyntaxError
      end
  end.

(** [JSON.parse(text)]: one value between optional white space; [None] is the
    SyntaxError it throws on anything else. *)
Definition parse (s : string) : option Value :=
  match parse_value (2 * String.length s + 1) (chars s) with
  | Parsed v r =>
      match skip_ws r with
      | [] => Some v
      | _ :: _ => None
      end
  | _ => None
  end.

(** A result that is not a failure of the model, and that has consumed at
    least [k] characters of [s] when it is a value. *)
Definition consumes {A : Type} (k : nat) (s : list ascii) (p : Parse A) : Prop :=
  match p with
  | Parsed _ rest => List.length rest + k <= List.length s
  | SyntaxError => True
  | OutOfFuel => False
  end.

End JSON.

(** ** What both clients share *)

(** [s.length]: UTF-16 code units.  A character of four bytes takes two units,
    every other one unit. *)
Definition utf16_length (s : string) : nat :=
  List.length
    (filter (fun c => let n := nat_of_ascii c in
                      ((n <? 128) || (192 <=? n))%nat)
       (list_ascii_of_string s))
  + List.length
      (filter (fun c => (240 <=? nat_of_ascii c)%nat) (list_ascii_of_string s)).

Inductive Sender : Type := user | agent.

(** How the promise of an [async] call ends: with a value, with an exception,
    or never, when something it awaits never settles. *)
Inductive Promise (A : Type) : Type :=
  | Fulfilled (a : A)
  | Rejected
  | Pending.

Arguments Fulfilled {A} a.
Arguments Rejected {A}.
Arguments Pending {A}.

(** A node of the page is referred to by its position among the children of
    its container; [update_nth n f l] rewrites the node at position [n] in
    place. *)
Fixpoint update_nth {A : Type} (n : nat) (f : A -> A) (l : list A) : list A :=
  match l, n with
  | [], _ => []
  | x :: r, O => f x :: r
  | x :: r, S n' => x :: update_nth n' f r
  end.

(** A logged call of [fetch]. *)
Record Request : Type := {
  req_url : string;
  req_bearer : option string;
  req_message : string;
  req_images : list string
}.

(** ** FaramexChat (ai-server-main/frontend/script.js) *)

Module FaramexChat.

Import JS.

Record Message : Type := {
  sender : Sender;
  content : string;
  images : list string
}.

Record Image : Type := { url : string }.

Inductive Display : Type := flex | none.

Record Settings : Type := {
  autoScroll : bool;
  soundNotifications : bool
}.

(** The instance and the part of the document it writes to.  [chatMessages] is
    the children of the chat container in document order; [charCount] is the
    number shown before [/4000]; [requests] logs the calls of [fetch] and
    [sounds] counts the notification sounds played. *)
Record Chat : Type := {
  apiUrl : string;
  token : option string;
  settings : Settings;
  attachedImages : list Image;
  messageInput_value : string;
  charCount : nat;
  sendBtn_disabled : bool;
  attachedImagesContainer : list string;
  chatMessages : list Message;
  typingIndicator_display : Display;
  requests : list Request;
  sounds : nat
}.

Definition set_attachedImages (v : list Image) (c : Chat) : Chat :=
  {| apiUrl := apiUrl c; token := token c; settings := settings c;
     attachedImages := v; messageInput_value := messageInput_value c;
     charCount := charCount c; sendBtn_disabled := sendBtn_disabled c;
     attachedImagesContainer := attachedImagesContainer c;
     chatMessages := chatMessages c;
     typingIndicator_display := typingIndicator_display c;
     requests := requests c; sounds := sounds c |}.

Definition set_messageInput_value (v : string) (c : Chat) : Chat :=
  {| apiUrl := apiUrl c; token := token c; settings := settings c;
     attachedImages := attachedImages c; messageInput_value := v;
     charCount := charCount c; sendBtn_disabled := sendBtn_disabled c;
     attachedImagesContainer := attachedImagesContainer c;
     chatMessages := chatMessages c;
     typingIndicator_display := typingIndicator_display c;
     requests := requests c; sounds := sounds c |}.

Definition set_input_state (n : nat) (disabled : bool) (c : Chat) : Chat :=
  {| apiUrl := apiUrl c; token := token c; settings := settings c;
     attachedImages := attachedImages c;
     messageInput_value := messageInput_value c;
     charCount := n; sendBtn_disabled := disabled;
     attachedImagesContainer := attachedImagesContainer c;
     chatMessages := chatMessages c;
     typingIndicator_display := typingIndicator_display c;
     requests := requests c; sounds := sounds c |}.

Definition set_attachedImagesContainer (v : list string) (c : Chat) : Chat :=
  {| apiUrl := apiUrl c; token := token c; settings := settings c;
     attachedImages := attachedImages c;
     messageInput_value := messageInput_value c;
     charCount := charCount c; sendBtn_disabled := sendBtn_disabled c;
     attachedImagesContainer := v;
     chatMessages := chatMessages c;
     typingIndicator_display := typingIndicator_display c;
     requests := requests c; sounds := sounds c |}.

Definition set_chatMessages (v : list Message) (c : Chat) : Chat :=
  {| apiUrl := apiUrl c; token := token c; settings := settings c;
     attachedImages := attachedImages c;
     messageInput_value := messageInput_value c;
     charCount := charCount c; sendBtn_disabled := sendBtn_disabled c;
     attachedImagesContainer := attachedImagesContainer c;
     chatMessages := v;
     typingIndicator_display := typingIndicator_display c;
     requests := requests c; sounds := sounds c |}.

Definition set_typingIndicator_display (v : Display) (c : Chat) : Chat :=
  {| apiUrl := apiUrl c; token := token c; settings := settings c;
     attachedImages := attachedImages c;
     messageInput_value := messageInput_value c;
     charCount := charCount c; sendBtn_disabled := sendBtn_disabled c;
     attachedImagesContainer := attachedImagesContainer c;
     chatMessages := chatMessages c;
     typingIndicator_display := v;
     requests := requests c; sounds := sounds c |}.

Definition set_requests (v : list Request) (c : Chat) : Chat :=
  {| apiUrl := apiUrl c; token := token c; settings := settings c;
     attachedImages := attachedImages c;
     messageInput_value := messageInput_value c;
     charCount := charCount c; sendBtn_disabled := sendBtn_disabled c;
     attachedImagesContainer := attachedImagesContainer c;
     chatMessages := chatMessages c;
     typingIndicator_display := typingIndicator_display c;
     requests := v; sounds := sounds c |}.

Definition set_sounds (v : nat) (c : Chat) : Chat :=
  {| apiUrl := apiUrl c; token := token c; settings := settings c;
     attachedImages := attachedImages c;
     messageInput_value := messageInput_value c;
     charCount := charCount c; sendBtn_disabled := sendBtn_disabled c;
     attachedImagesContainer := attachedImagesContainer c;
     chatMessages := chatMessages c;
     typingIndicator_display := typingIndicator_display c;
     requests := requests c; sounds := v |}.

(** [handleInputChange] (script.js, lines 82-92): the counter and the send
    button follow the input. *)
Definition handleInputChange (c : Chat) : Chat :=
  let length := utf16_length (messageInput_value c) in
  set_input_state length
    (Nat.eqb length 0 && Nat.eqb (List.length (attachedImages c)) 0) c.

(** [renderAttachedImages] (lines 135-148): one preview per attached image. *)
Definition renderAttachedImages (c : Chat) : Chat :=
  set_attachedImagesContainer (map url (attachedImages c)) c.

(** [uploadImages] (lines 150-177), the demo upload: the data URL of every
    attached image. *)
Definition uploadImages (c : Chat) : list string :=
  map url (attachedImages c).

(** [addMessage] (lines 284-318) appends a node to the chat container and
    returns it; a node is referred to by its position among the children. *)
Definition addMessage (c : Chat) (who : Sender) (text : string)
    (imgs : list string) : Chat * nat :=
  (set_chatMessages
     (chatMessages c ++ [{| sender := who; content := text; images := imgs |}])
     c,
   List.length (chatMessages c)).

(** [updateMessage] (lines 320-325) rewrites the paragraph of the node in
    place. *)
Definition updateMessage (c : Chat) (messageElement : nat) (text : string)
  : Chat :=
  set_chatMessages
    (update_nth messageElement
       (fun m => {| sender := sender m; content := text; images := images m |})
       (chatMessages c))
    c.

(** [showTypingIndicator] and [hideTypingIndicator] (lines 336-343) set the
    [display] style of the indicator. *)
Definition showTypingIndicator (c : Chat) : Chat :=
  set_typingIndicator_display flex c.

Definition hideTypingIndicator (c : Chat) : Chat :=
  set_typingIndicator_display none c.

Definition playNotificationSound (c : Chat) : Chat :=
  set_sounds (S (sounds c)) c.

(** One outcome of [reader.read()].  [Silence ms] is a stretch of [ms]
    milliseconds during which the pending read receives nothing. *)
Inductive Read : Type :=
  | Chunk (text : string)
  | Done
  | ReadError
  | Silence (ms : N).

(** The outcome of [fetch]: no answer at all, a network error, or a response
    with its status and body; a body is the outcomes of its successive reads,
    and a read past the end of that list stays pending. *)
Inductive Fetch : Type :=
  | FetchPending
  | FetchRejected
  | Response (ok : bool) (status : nat) (body : option (list Read)).

(** The locals of the reader loop, with the instance. *)
Record Loop : Type := {
  this : Chat;
  agentMessage : string;
  messageElement : option nat
}.

Section Consumer.

Variable engine : Engine.

(** Create or update message element (lines 257-261 and 269-273). *)
Definition render (c : Chat) (element : option nat) (text : string) : Loop :=
  match element with
  | None =>
      let (c', node) := addMessage c agent text [] in
      {| this := c'; agentMessage := text; messageElement := Some node |}
  | Some node =>
      {| this := updateMessage c node text; agentMessage := text;
         messageElement := element |}
  end.

(** The [try] block for one payload (lines 249-254), up to the last statement
    that can throw:
    the accumulator it leaves, or [None] when [JSON.parse], the read of
    [content] or the conversion of [content] to a string throws. *)
Definition try_append (acc data : string) : option string :=
  match JSON.parse data with
  | None => None
  | Some jsonData =>
      match Get jsonData "content" with
      | None => None
      | Some content =>
          if ToBoolean engine content then
            match ToString engine content with
            | Some s => Some (acc ++ s)%string
            | None => None
            end
          else Some acc
      end
  end.

(** The body of [for (const line of lines)] (lines 244-276). *)
Definition process_line (st : Loop) (line : string) : Loop :=
  if startsWith line "data: " then
    let data := slice 6 line in
    if String.eqb data "[DONE]" then st
    else
      match try_append (agentMessage st) data with
      | Some acc => render (this st) (messageElement st) acc
      | None =>
          render (this st) (messageElement st) (agentMessage st ++ data)%string
      end
  else st.

Definition newline : ascii := byte 10.

(** One chunk (lines 241-244): split on newlines, every piece processed in
    order. *)
Definition process_chunk (st : Loop) (chunk : string) : Loop :=
  fold_left process_line (split newline chunk) st.

(** [while (true)] over the outcomes of the reads (lines 236-277). *)
Fixpoint read_loop (st : Loop) (reads : list Read) : Loop * Promise unit :=
  match reads with
  | [] => (st, Pending)
  | Silence _ :: rest => read_loop st rest
  | Done :: _ => (st, Fulfilled tt)
  | ReadError :: _ => (st, Rejected)
  | Chunk text :: rest => read_loop (process_chunk st text) rest
  end.

Definition chat_request (c : Chat) (message : string) (imgs : list string)
  : Request :=
  {| req_url := (apiUrl c ++ "/api/v1/chat")%string;
     req_bearer := token c; req_message := message; req_images := imgs |}.

(** [sendToAPI] (lines 207-282), with the locals it ends with: the request
    is sent; an error status or a missing body throws; the typing indicator is
    hidden; the body is read to its end; the notification sound is played if
    the setting asks for it. *)
Definition sendToAPI_loop (c : Chat) (message : string) (imgs : list string)
    (response : Fetch) : Loop * Promise unit :=
  let c1 := set_requests (requests c ++ [chat_request c message imgs]) c in
  let start c' :=
    {| this := c'; agentMessage := EmptyString; messageElement := None |} in
  match response with
  | FetchPending => (start c1, Pending)
  | FetchRejected => (start c1, Rejected)
  | Response false _ _ => (start c1, Rejected)
  | Response true _ None => (start c1, Rejected)
  | Response true _ (Some reads) =>
      match read_loop (start (hideTypingIndicator c1)) reads with
      | (st, Fulfilled _) =>
          ({| this := if soundNotifications (settings (this st))
                      then playNotificationSound (this st) else this st;
              agentMessage := agentMessage st;
              messageElement := messageElement st |},
           Fulfilled tt)
      | other => other
      end
  end.

Definition sendToAPI (c : Chat) (message : string) (imgs : list string)
    (response : Fetch) : Chat * Promise unit :=
  let (st, p) := sendToAPI_loop c message imgs response in (this st, p).

Definition apology : string :=
  "Xin lỗi, đã có lỗi xảy ra khi xử lý tin nhắn của bạn. Vui lòng thử lại.".

(** [sendMessage] (lines 179-205). *)
Definition sendMessage (c : Chat) (response : Fetch) : Chat * Promise unit :=
  let message := trim (messageInput_value c) in
  if String.eqb message EmptyString
     && Nat.eqb (List.length (attachedImages c)) 0
  then (c, Fulfilled tt)
  else
    let imageUrls := uploadImages c in
    let c1 := fst (addMessage c user message imageUrls) in
    let c2 := set_attachedImages [] (set_messageInput_value EmptyString c1) in
    let c3 := handleInputChange (renderAttachedImages c2) in
    let c4 := showTypingIndicator c3 in
    match sendToAPI c4 message imageUrls response with
    | (c5, Rejected) =>
        (fst (addMessage (hideTypingIndicator c5) agent apology []),
         Fulfilled tt)
    | settled => settled
    end.

End Consumer.

(** *** What a run of the reader loop shows *)

Section Observations.

Variable engine : Engine.

(** The text one line adds to the accumulator. *)
Definition appended (line : string) : string :=
  if startsWith line "data: " then
    let data := slice 6 line in
    if String.eqb data "[DONE]" then EmptyString
    else
      match try_append engine EmptyString data with
      | Some s => s
      | None => data
      end
  else EmptyString.

End Observations.

(** The lines the loop processes, in order: those of every chunk read before
    the stream ends or fails. *)
Fixpoint lines_read (reads : list Read) : list string :=
  match reads with
  | [] => []
  | Silence _ :: rest => lines_read rest
  | Done :: _ => []
  | ReadError :: _ => []
  | Chunk text :: rest => split newline text ++ lines_read rest
  end.

(** The agent message on the page shows the accumulated text; before the
    first frame there is none and the accumulator is empty. *)
Definition displayed (st : Loop) : Prop :=
  match messageElement st with
  | None => agentMessage st = EmptyString
  | Some node =>
      nth_error (chatMessages (this st)) node
      = Some {| sender := agent; content := agentMessage st; images := [] |}
  end.

(** The loop touches nothing of the page but the chat container. *)
Definition same_frame (c c' : Chat) : Prop :=
  typingIndicator_display c' = typingIndicator_display c
  /\ requests c' = requests c
  /\ messageInput_value c' = messageInput_value c
  /\ attachedImages c' = attachedImages c
  /\ settings c' = settings c.

Fixpoint ends_with (c : ascii) (s : string) : bool :=
  match s with
  | EmptyString => false
  | String x EmptyString => Ascii.eqb x c
  | String _ rest => ends_with c rest
  end.

(** A read that leaves the stream open: data, or time without data. *)
Definition still_open (r : Read) : bool :=
  match r with Chunk _ | Silence _ => true | Done | ReadError => false end.

Definition is_silence (r : Read) : bool :=
  match r with Silence _ => true | _ => false end.

(** A chat at rest, used to evaluate the methods. *)
Definition idle : Chat :=
  {| apiUrl := "http://localhost:8000"; token := None;
     settings := {| autoScroll := true; soundNotifications := false |};
     attachedImages := []; messageInput_value := "hello"; charCount := 5;
     sendBtn_disabled := false; attachedImagesContainer := [];
     chatMessages := []; typingIndicator_display := none;
     requests := []; sounds := 0 |}.

(** The same chat with only blanks typed. *)
Definition blank : Chat := set_messageInput_value "   " idle.

(** Frames of the stream: a quoted JSON string, an object of one member, and
    the line whose payload is the object with the member [content]. *)
Definition quoted (s : string) : string :=
  String JSON.dquote (s ++ String JSON.dquote EmptyString).

Definition member (key value : string) : string :=
  ("{" ++ quoted key ++ ":" ++ value ++ "}")%string.

Definition content_frame (text : string) : string :=
  ("data: " ++ member "content" (quoted text))%string.

Definition lf : string := String newline EmptyString.

(** The line whose payload has the content [hi], cut in the middle of the
    key, after the letters [cont]; the second half ends with the newline. *)
Definition first_half : string :=
  ("data: {" ++ String JSON.dquote "cont")%string.

Definition second_half : string :=
  ("ent" ++ String JSON.dquote (":" ++ quoted "hi" ++ "}" ++ lf))%string.

(** The stream of the round trip: two deltas, then the sentinel. *)
Definition round_trip : list Read :=
  [Chunk (content_frame "A" ++ lf); Chunk (content_frame "B" ++ lf);
   Chunk ("data: [DONE]" ++ lf); Done].

(** The same three lines in one read, and in three reads without the
    newlines. *)
Definition round_trip_one_read : list Read :=
  [Chunk (content_frame "A" ++ lf ++ content_frame "B" ++ lf
          ++ "data: [DONE]" ++ lf); Done].

Definition round_trip_bare : list Read :=
  [Chunk (content_frame "A"); Chunk (content_frame "B");
   Chunk "data: [DONE]"; Done].

(** Text that a JSON string holds as written: no control character, no
    quote and no backslash. *)
Definition plain_char (c : ascii) : bool :=
  negb (N_of_ascii c <? 32)%N
  && negb (Ascii.eqb c JSON.dquote) && negb (Ascii.eqb c JSON.backslash).

Definition plain (t : string) : bool :=
  forallb plain_char (list_ascii_of_string t).

(** A stream of deltas: one content frame per read, each with its newline,
    then the sentinel, then the end of the stream. *)
Definition delta_stream (deltas : list string) : list Read :=
  map (fun t => Chunk (content_frame t ++ lf)) deltas
  ++ [Chunk ("data: [DONE]" ++ lf); Done].

Definition no_newline (l : list ascii) : bool :=
  forallb (fun c => negb (Ascii.eqb c newline)) l.

(** The guard of [sendMessage]: nothing typed and nothing attached. *)
Definition nothing_to_send (c : Chat) : bool :=
  String.eqb (trim (messageInput_value c)) EmptyString
  && Nat.eqb (List.length (attachedImages c)) 0.

(** The locals of [sendToAPI] when the response has arrived. *)
Definition started (c : Chat) (message : string) (imgs : list string) : Loop :=
  {| this := hideTypingIndicator
               (set_requests (requests c ++ [chat_request c message imgs]) c);
     agentMessage := EmptyString; messageElement := None |}.

End FaramexChat.

(** ** PromaDashboard (ai-proma/frontend/dashboard-script.js,
       dashboard-script-new.js) *)

Module PromaDashboard.

Import JS.

(** The three copies of the class differ in the endpoint [callAI] posts to, in
    the pause [typeAIResponse] starts with, and in the pause after each word,
    [Math.random() * delay_span + delay_base] milliseconds. *)
Record Variant : Type := {
  endpoint : string;
  settle : option nat;
  delay_base : nat;
  delay_span : nat
}.

(** dashboard-script.js, the first class. *)
Definition dashboard_script : Variant :=
  {| endpoint := "/api/v1/chat-stream"; settle := None;
     delay_base := 50; delay_span := 100 |}.

(** dashboard-script.js, the second class, and dashboard-script-new.js. *)
Definition dashboard_script_new : Variant :=
  {| endpoint := "/api/v1/chat"; settle := Some 100;
     delay_base := 30; delay_span := 50 |}.

(** A child of the chat container: a message bubble with the text handed to
    [formatMessage], or the typing indicator. *)
Inductive Node : Type :=
  | MessageNode (who : Sender) (content : string)
  | TypingNode.

(** What the typing renderer does, in order: an assignment to the [innerHTML]
    of the bubble, and a timer awaited. *)
Inductive Event : Type :=
  | Rendered (currentText : string)
  | Waited (base span : nat).

(** The instance and the part of the document it writes to.  [aiStatus_hidden]
    and [aiThinking_hidden] tell whether the element carries the class
    [hidden]. *)
Record Dashboard : Type := {
  apiUrl : string;
  token : option string;
  sessionId : option string;
  workspaceId : option string;
  agentId : string;
  attachedImages : list string;
  messageInput_value : string;
  charCount : nat;
  sendBtn_disabled : bool;
  chatMessages : list Node;
  aiStatus_hidden : bool;
  aiThinking_hidden : bool;
  requests : list Request;
  events : list Event
}.

Definition set_messageInput_value (v : string) (d : Dashboard) : Dashboard :=
  {| apiUrl := apiUrl d; token := token d; sessionId := sessionId d;
     workspaceId := workspaceId d; agentId := agentId d;
     attachedImages := attachedImages d; messageInput_value := v;
     charCount := charCount d; sendBtn_disabled := sendBtn_disabled d;
     chatMessages := chatMessages d; aiStatus_hidden := aiStatus_hidden d;
     aiThinking_hidden := aiThinking_hidden d; requests := requests d;
     events := events d |}.

Definition set_input_state (n : nat) (disabled : bool) (d : Dashboard)
  : Dashboard :=
  {| apiUrl := apiUrl d; token := token d; sessionId := sessionId d;
     workspaceId := workspaceId d; agentId := agentId d;
     attachedImages := attachedImages d;
     messageInput_value := messageInput_value d;
     charCount := n; sendBtn_disabled := disabled;
     chatMessages := chatMessages d; aiStatus_hidden := aiStatus_hidden d;
     aiThinking_hidden := aiThinking_hidden d; requests := requests d;
     events := events d |}.

Definition set_chatMessages (v : list Node) (d : Dashboard) : Dashboard :=
  {| apiUrl := apiUrl d; token := token d; sessionId := sessionId d;
     workspaceId := workspaceId d; agentId := agentId d;
     attachedImages := attachedImages d;
     messageInput_value := messageInput_value d;
     charCount := charCount d; sendBtn_disabled := sendBtn_disabled d;
     chatMessages := v; aiStatus_hidden := aiStatus_hidden d;
     aiThinking_hidden := aiThinking_hidden d; requests := requests d;
     events := events d |}.

Definition set_status (status thinking : bool) (d : Dashboard) : Dashboard :=
  {| apiUrl := apiUrl d; token := token d; sessionId := sessionId d;
     workspaceId := workspaceId d; agentId := agentId d;
     attachedImages := attachedImages d;
     messageInput_value := messageInput_value d;
     charCount := charCount d; sendBtn_disabled := sendBtn_disabled d;
     chatMessages := chatMessages d; aiStatus_hidden := status;
     aiThinking_hidden := thinking; requests := requests d;
     events := events d |}.

Definition set_requests (v : list Request) (d : Dashboard) : Dashboard :=
  {| apiUrl := apiUrl d; token := token d; sessionId := sessionId d;
     workspaceId := workspaceId d; agentId := agentId d;
     attachedImages := attachedImages d;
     messageInput_value := messageInput_value d;
     charCount := charCount d; sendBtn_disabled := sendBtn_disabled d;
     chatMessages := chatMessages d; aiStatus_hidden := aiStatus_hidden d;
     aiThinking_hidden := aiThinking_hidden d; requests := v;
     events := events d |}.

Definition set_events (v : list Event) (d : Dashboard) : Dashboard :=
  {| apiUrl := apiUrl d; token := token d; sessionId := sessionId d;
     workspaceId := workspaceId d; agentId := agentId d;
     attachedImages := attachedImages d;
     messageInput_value := messageInput_value d;
     charCount := charCount d; sendBtn_disabled := sendBtn_disabled d;
     chatMessages := chatMessages d; aiStatus_hidden := aiStatus_hidden d;
     aiThinking_hidden := aiThinking_hidden d; requests := requests d;
     events := v |}.

(** [handleInputChange] (dashboard-script.js, lines 152-169). *)
Definition handleInputChange (d : Dashboard) : Dashboard :=
  let message := trim (messageInput_value d) in
  let length := utf16_length (messageInput_value d) in
  set_input_state length
    (String.eqb message EmptyString
     && Nat.eqb (List.length (attachedImages d)) 0) d.

(** [addMessage] (lines 252-278) appends a bubble and returns it. *)
Definition addMessage (d : Dashboard) (who : Sender) (text : string)
  : Dashboard * nat :=
  (set_chatMessages (chatMessages d ++ [MessageNode who text]) d,
   List.length (chatMessages d)).

Definition is_typing (n : Node) : bool :=
  match n with TypingNode => true | MessageNode _ _ => false end.

(** [hideTypingIndicator] (lines 310-315): the first element with the id
    [typing-indicator] is removed. *)
Fixpoint remove_typing (l : list Node) : list Node :=
  match l with
  | [] => []
  | n :: r => if is_typing n then r else n :: remove_typing r
  end.

Definition hideTypingIndicator (d : Dashboard) : Dashboard :=
  set_chatMessages (remove_typing (chatMessages d)) d.

(** [showTypingIndicator] (lines 280-308): any indicator found is removed,
    then a new one is appended to the chat container. *)
Definition showTypingIndicator (d : Dashboard) : Dashboard :=
  let d' := hideTypingIndicator d in
  set_chatMessages (chatMessages d' ++ [TypingNode]) d'.

(** [showAIThinking] and [hideAIThinking] (lines 317-325) swap the ready
    status and the thinking status. *)
Definition showAIThinking (d : Dashboard) : Dashboard := set_status true false d.

Definition hideAIThinking (d : Dashboard) : Dashboard := set_status false true d.

(** [response.json()]: the whole body as text, a failed read, or a body that
    never ends. *)
Inductive Body : Type :=
  | BodyText (text : string)
  | BodyError
  | BodyStalls.

Inductive Fetch : Type :=
  | FetchPending
  | FetchRejected
  | Response (ok : bool) (status : nat) (body : Body).

Definition log (e : Event) (d : Dashboard) : Dashboard :=
  set_events (events d ++ [e]) d.

Definition set_content (node : nat) (text : string) (d : Dashboard)
  : Dashboard :=
  set_chatMessages
    (update_nth node
       (fun n => match n with
                 | MessageNode who _ => MessageNode who text
                 | TypingNode => TypingNode
                 end)
       (chatMessages d))
    d.

Definition space : ascii := byte 32.

Section Renderer.

Variable engine : Engine.
Variable variant : Variant.

Definition fallback : string := "Tôi không thể trả lời câu hỏi này.".

Definition or_else (a b : Value) : Value :=
  if ToBoolean engine a then a else b.

Definition chat_request (d : Dashboard) (message : string) : Request :=
  {| req_url := (apiUrl d ++ endpoint variant)%string;
     req_bearer := token d; req_message := message; req_images := [] |}.

(** [callAI] (lines 212-233): the request is sent, an error status throws,
    the body is parsed, and the answer is
    [data.response || data.message || fallback]. *)
Definition callAI (d : Dashboard) (message : string) (response : Fetch)
  : Dashboard * Promise Value :=
  let d1 := set_requests (requests d ++ [chat_request d message]) d in
  match response with
  | FetchPending => (d1, Pending)
  | FetchRejected => (d1, Rejected)
  | Response false _ _ => (d1, Rejected)
  | Response true _ BodyStalls => (d1, Pending)
  | Response true _ BodyError => (d1, Rejected)
  | Response true _ (BodyText text) =>
      match JSON.parse text with
      | None => (d1, Rejected)
      | Some data =>
          match Get data "response", Get data "message" with
          | Some r, Some m => (d1, Fulfilled (or_else r (or_else m (Str fallback))))
          | _, _ => (d1, Rejected)
          end
      end
  end.

(** The loop of [typeAIResponse] (lines 242-249) from word [i] on: [first]
    tells whether [i] is 0. *)
Fixpoint type_words (d : Dashboard) (node : nat) (currentText : string)
    (first : bool) (words : list string) : Dashboard :=
  match words with
  | [] => d
  | w :: rest =>
      let currentText' :=
        (currentText ++ (if first then EmptyString else String space EmptyString)
           ++ w)%string in
      let d1 := log (Rendered currentText') (set_content node currentText' d) in
      let d2 := log (Waited (delay_base variant) (delay_span variant)) d1 in
      type_words d2 node currentText' false rest
  end.

(** [typeAIResponse(text)] (lines 235-250; 887-905 and
    dashboard-script-new.js, lines 287-305, with the opening pause): anything
    but a string has no [split] to call. *)
Definition typeAIResponse (d : Dashboard) (text : Value)
  : Dashboard * Promise unit :=
  let d0 :=
    match settle variant with
    | Some ms => log (Waited ms 0) d
    | None => d
    end in
  let (d1, messageElement) := addMessage d0 agent EmptyString in
  match text with
  | Str s =>
      (type_words d1 messageElement EmptyString true (split space s),
       Fulfilled tt)
  | _ => (d1, Rejected)
  end.

Definition apology : string :=
  "Xin lỗi, tôi gặp sự cố khi xử lý tin nhắn của bạn. Vui lòng thử lại.".

(** The [catch] block of [sendMessage]. *)
Definition on_error (d : Dashboard) : Dashboard * Promise unit :=
  (fst (addMessage (hideTypingIndicator (hideAIThinking d)) agent apology),
   Fulfilled tt).

(** [sendMessage] (lines 171-210; 823-862 and dashboard-script-new.js, lines
    223-262). *)
Definition sendMessage (d : Dashboard) (response : Fetch)
  : Dashboard * Promise unit :=
  let message := trim (messageInput_value d) in
  if String.eqb message EmptyString
     && Nat.eqb (List.length (attachedImages d)) 0
  then (d, Fulfilled tt)
  else
    let d1 := fst (addMessage d user message) in
    let d2 := handleInputChange (set_messageInput_value EmptyString d1) in
    let d3 := showTypingIndicator (showAIThinking d2) in
    match callAI d3 message response with
    | (d4, Fulfilled answer) =>
        match typeAIResponse (hideTypingIndicator (hideAIThinking d4)) answer with
        | (d5, Rejected) => on_error d5
        | settled => settled
        end
    | (d4, Rejected) => on_error d4
    | (d4, Pending) => (d4, Pending)
    end.

End Renderer.

(** *** What a run of the renderer shows *)

(** The partial renders among the events, in order. *)
Definition rendered (es : list Event) : list string :=
  flat_map (fun e => match e with Rendered t => [t] | Waited _ _ => [] end) es.

(** The timers awaited among the events, in order. *)
Definition waited (es : list Event) : list (nat * nat) :=
  flat_map (fun e => match e with Waited b s => [(b, s)] | Rendered _ => [] end)
    es.

(** The words joined with single spaces, one more word each time. *)
Definition cumulative (words : list string) : list string :=
  map (fun n => join (String space EmptyString) (firstn n words)) (seq 1 (List.length words)).



(** A dashboard at rest, used to evaluate the methods. *)
Definition idle : Dashboard :=
  {| apiUrl := "http://localhost:8000"; token := None; sessionId := None;
     workspaceId := None; agentId := "project_manager_agent";
     attachedImages := []; messageInput_value := "hello"; charCount := 5;
     sendBtn_disabled := false; chatMessages := [];
     aiStatus_hidden := false; aiThinking_hidden := true;
     requests := []; events := [] |}.

(** The same dashboard with only blanks typed. *)
Definition blank : Dashboard := set_messageInput_value "   " idle.

(** The number of typing indicators in the chat container. *)
Definition count_typing (l : list Node) : nat :=
  List.length (filter is_typing l).

(** The guard of [sendMessage]: nothing typed and nothing attached. *)
Definition nothing_to_send (d : Dashboard) : bool :=
  String.eqb (trim (messageInput_value d)) EmptyString
  && Nat.eqb (List.length (attachedImages d)) 0.



End PromaDashboard.

(** ** An engine to evaluate with

    [Number.prototype.toString] returns the shortest literal that reads back as
    the same double, so it maps a literal of that form to itself; such a
    literal denotes zero only when it is [0].  On those literals this engine
    is the JavaScript one. *)
Definition canonical_numbers : JS.Engine :=
  {| JS.Number_toString := fun literal => literal;
     JS.Number_toBoolean := fun literal => negb (String.eqb literal "0") |}.

(** ** [formatMessage]

    The four replacements of [formatMessage] (script.js, lines 327-334;
    dashboard-script.js, lines 327-333 and 982-988; dashboard-script-new.js,
    lines 382-388), each a global regular-expression replace: the matches are
    found from left to right, the search resuming where the last match
    ended. *)

Module Formatting.

Import JS.

Definition star : ascii := "*"%char.

Definition backtick : ascii := "`"%char.

(** [s.replace(/c/g, by)] for one character [c]. *)
Fixpoint replace_char (c : ascii) (by_ : string) (s : string) : string :=
  match s with
  | EmptyString => EmptyString
  | String x r =>
      if Ascii.eqb x c then (by_ ++ replace_char c by_ r)%string
      else String x (replace_char c by_ r)
  end.

(** What the dot of a regular expression does not match: U+000A, U+000D,
    U+2028 and U+2029, in UTF-8. *)
Definition line_terminators : list string :=
  map bytes [[10]; [13]; [226; 128; 168]; [226; 128; 169]].

Definition at_line_terminator (s : string) : bool :=
  existsb (fun t => String.prefix t s) line_terminators.

(** The lazy group followed by the closing delimiter, matched at the start of
    [s]: the shortest run of characters the dot matches that the delimiter
    follows, with what is left after the delimiter. *)
Fixpoint lazy_until (close : string) (s : string) : option (string * string) :=
  if String.prefix close s then
    Some (EmptyString, slice (String.length close) s)
  else
    match s with
    | EmptyString => None
    | String c r =>
        if at_line_terminator s then None
        else
          match lazy_until close r with
          | Some (inner, after) => Some (String c inner, after)
          | None => None
          end
    end.

(** [s.replace(/open(.*?)close/g, pre + $1 + post)]: at each position the
    match is tried; a match is replaced and the search resumes after it,
    otherwise the character is kept.  The fuel bounds the number of positions
    tried. *)
Fixpoint replace_delimited (fuel : nat) (open close pre post : string)
    (s : string) : string :=
  match fuel with
  | O => s
  | S f =>
      match s with
      | EmptyString => EmptyString
      | String c r =>
          if String.prefix open s then
            match lazy_until close (slice (String.length open) s) with
            | Some (inner, after) =>
                (pre ++ inner ++ post
                 ++ replace_delimited f open close pre post after)%string
            | None => String c (replace_delimited f open close pre post r)
            end
          else String c (replace_delimited f open close pre post r)
      end
  end.

Definition replace_pairs (delim pre post : string) (s : string) : string :=
  replace_delimited (String.length s) delim delim pre post s.

(** The body the copies share; they differ in the opening tag of the last
    replacement. *)
Definition formatMessage_with (code : string) (text : string) : string :=
  replace_pairs (String backtick EmptyString) code "</code>"
    (replace_pairs "*" "<em>" "</em>"
       (replace_pairs "**" "<strong>" "</strong>"
          (replace_char (byte 10) "<br>" text))).

(** script.js *)
Module Faramex.

Definition formatMessage (text : string) : string :=
  formatMessage_with "<code>" text.

End Faramex.

(** dashboard-script.js and dashboard-script-new.js *)
Module Proma.

Definition code_tag : string :=
  ("<code class=" ++ String JSON.dquote "bg-gray-200 px-1 rounded"
   ++ String JSON.dquote ">")%string.

Definition formatMessage (text : string) : string :=
  formatMessage_with code_tag text.

End Proma.

(** Text without the character [x]. *)
Definition without (x : ascii) (s : string) : bool :=
  forallb (fun c => negb (Ascii.eqb c x)) (list_ascii_of_string s).

(** Text none of the replacements reacts to: no newline, no star and no
    backtick. *)
Definition markup_free (s : string) : bool :=
  without (byte 10) s && without star s && without backtick s.

(** Text the dot matches throughout: no line terminator starts in it. *)
Fixpoint inline (s : string) : bool :=
  match s with
  | EmptyString => true
  | String _ r => negb (at_line_terminator s) && inline r
  end.

End Formatting.

(** ** FaramexChat: the keyboard, and what a run of [sendMessage] shows *)

Module FaramexSession.

Import JS FaramexChat.

Section Keys.

Variable engine : Engine.

(** [handleKeyDown] (script.js, lines 94-101): the state it leaves, and
    whether [preventDefault] was called.  [response] is what the request of
    the [sendMessage] it may start meets. *)
Definition handleKeyDown (c : Chat) (key : string) (shiftKey : bool)
    (response : Fetch) : Chat * bool :=
  if String.eqb key "Enter" && negb shiftKey then
    (if sendBtn_disabled c then c else fst (sendMessage engine c response),
     true)
  else (c, false).

End Keys.

(** A line that creates or updates the agent message: a data line other than
    the sentinel. *)
Definition renders (line : string) : bool :=
  startsWith line "data: " && negb (String.eqb (slice 6 line) "[DONE]").

Definition has_element (st : Loop) : bool :=
  match messageElement st with Some _ => true | None => false end.

(** The reads reach a failed read before the end of the stream. *)
Fixpoint read_fails (reads : list Read) : bool :=
  match reads with
  | [] => false
  | Silence _ :: rest => read_fails rest
  | Chunk _ :: rest => read_fails rest
  | Done :: _ => false
  | ReadError :: _ => true
  end.

(** The reads reach the end of the stream. *)
Fixpoint read_ends (reads : list Read) : bool :=
  match reads with
  | [] => false
  | Silence _ :: rest => read_ends rest
  | Chunk _ :: rest => read_ends rest
  | Done :: _ => true
  | ReadError :: _ => false
  end.

(** The request makes [sendToAPI] throw: no connection, an error status, no
    body, or a failed read. *)
Definition request_fails (response : Fetch) : bool :=
  match response with
  | FetchPending => false
  | FetchRejected => true
  | Response false _ _ => true
  | Response true _ None => true
  | Response true _ (Some reads) => read_fails reads
  end.

Definition request_ends (response : Fetch) : bool :=
  match response with
  | Response true _ (Some reads) => read_ends reads
  | _ => false
  end.

(** The agent message a response leaves in the chat: none unless one of its
    lines renders, and then the text its lines append. *)
Definition reply (engine : Engine) (response : Fetch) : list Message :=
  match response with
  | Response true _ (Some reads) =>
      if existsb renders (lines_read reads) then
        [{| sender := agent;
            content := String.concat "" (map (appended engine) (lines_read reads));
            images := [] |}]
      else []
  | _ => []
  end.

(** The agent message of the loop is the last node of the chat, after
    [base]. *)
Definition last_node (base : list Message) (st : Loop) : Prop :=
  match messageElement st with
  | None => chatMessages (this st) = base
  | Some node =>
      node = List.length base
      /\ chatMessages (this st)
         = base ++ [{| sender := agent; content := agentMessage st;
                       images := [] |}]
  end.

(** The input area: the text, the attachments and their previews, the
    counter and the send button. *)
Definition same_composer (c c' : Chat) : Prop :=
  messageInput_value c' = messageInput_value c
  /\ attachedImages c' = attachedImages c
  /\ attachedImagesContainer c' = attachedImagesContainer c
  /\ charCount c' = charCount c
  /\ sendBtn_disabled c' = sendBtn_disabled c.

(** A chat at rest that asks for the notification sound. *)
Definition with_sound : Chat :=
  {| apiUrl := apiUrl idle; token := token idle;
     settings := {| autoScroll := true; soundNotifications := true |};
     attachedImages := []; messageInput_value := "hello"; charCount := 5;
     sendBtn_disabled := false; attachedImagesContainer := [];
     chatMessages := []; typingIndicator_display := none;
     requests := []; sounds := 0 |}.

Definition cr : string := String (byte 13) EmptyString.

(** A stream of deltas whose lines end with a carriage return and a
    newline. *)
Definition crlf_stream (deltas : list string) : list Read :=
  map (fun t => Chunk (content_frame t ++ cr ++ lf)) deltas
  ++ [Chunk ("data: [DONE]" ++ cr ++ lf); Done].

End FaramexSession.

(** ** PromaDashboard: what a run of [sendMessage] shows *)

Module PromaSession.

Import JS PromaDashboard.

(** The number of times [c] occurs in [s]. *)
Fixpoint occurrences (c : ascii) (s : string) : nat :=
  match s with
  | EmptyString => 0
  | String x r => (if Ascii.eqb x c then 1 else 0) + occurrences c r
  end.

(** The pause [typeAIResponse] starts with, in the copies that have one. *)
Definition opening (variant : Variant) : list Event :=
  match settle variant with
  | Some ms => [Waited ms 0]
  | None => []
  end.

(** A render of the text so far, then the pause after the word. *)
Definition word_step (variant : Variant) (currentText : string) : list Event :=
  [Rendered currentText; Waited (delay_base variant) (delay_span variant)].

(** The input area: the text, the attachments, the counter and the send
    button. *)
Definition same_composer (d d' : Dashboard) : Prop :=
  messageInput_value d' = messageInput_value d
  /\ attachedImages d' = attachedImages d
  /\ charCount d' = charCount d
  /\ sendBtn_disabled d' = sendBtn_disabled d
  /\ requests d' = requests d.

(** The state in which [sendMessage] calls [callAI]. *)
Definition submitted (d : Dashboard) : Dashboard :=
  showTypingIndicator
    (showAIThinking
       (handleInputChange
          (set_messageInput_value EmptyString
             (fst (addMessage d user (trim (messageInput_value d))))))).

End PromaSession.

(** ** The panels of the sign-in dialog of the dashboard

    [showAuthLoading], [hideAuthLoading], [showLoginForm], [showRegisterForm],
    [showAuthError] and [hideAuthError] (dashboard-script.js, lines 518-554;
    dashboard-script-new.js, lines 735-815).  Each panel is shown or hidden
    through its class [hidden]; the copy of dashboard-script-new.js sets the
    [display] style along with it, and leaves the message in place when it
    shows the login form. *)

Module AuthDialog.

Record Dialog : Type := {
  authLoading_hidden : bool;
  loginFormContainer_hidden : bool;
  registerFormContainer_hidden : bool;
  authError_hidden : bool;
  authError_textContent : string
}.

Inductive Copy : Type := dashboard_script | dashboard_script_new.

Definition hideAuthError (u : Dialog) : Dialog :=
  {| authLoading_hidden := authLoading_hidden u;
     loginFormContainer_hidden := loginFormContainer_hidden u;
     registerFormContainer_hidden := registerFormContainer_hidden u;
     authError_hidden := true;
     authError_textContent := authError_textContent u |}.

Definition showAuthError (message : string) (u : Dialog) : Dialog :=
  {| authLoading_hidden := authLoading_hidden u;
     loginFormContainer_hidden := loginFormContainer_hidden u;
     registerFormContainer_hidden := registerFormContainer_hidden u;
     authError_hidden := false;
     authError_textContent := message |}.

Definition hideAuthLoading (u : Dialog) : Dialog :=
  {| authLoading_hidden := true;
     loginFormContainer_hidden := loginFormContainer_hidden u;
     registerFormContainer_hidden := registerFormContainer_hidden u;
     authError_hidden := authError_hidden u;
     authError_textContent := authError_textContent u |}.

Definition set_forms (login register : bool) (u : Dialog) : Dialog :=
  {| authLoading_hidden := authLoading_hidden u;
     loginFormContainer_hidden := login;
     registerFormContainer_hidden := register;
     authError_hidden := authError_hidden u;
     authError_textContent := authError_textContent u |}.

Definition showAuthLoading (u : Dialog) : Dialog :=
  hideAuthError
    (set_forms true true
       {| authLoading_hidden := false;
          loginFormContainer_hidden := loginFormContainer_hidden u;
          registerFormContainer_hidden := registerFormContainer_hidden u;
          authError_hidden := authError_hidden u;
          authError_textContent := authError_textContent u |}).

Definition showLoginForm (copy : Copy) (u : Dialog) : Dialog :=
  let u' := set_forms false true (hideAuthLoading u) in
  match copy with
  | dashboard_script => hideAuthError u'
  | dashboard_script_new => u'
  end.

Definition showRegisterForm (u : Dialog) : Dialog :=
  hideAuthError (set_forms true false (hideAuthLoading u)).

(** The number of panels that show, among the loading panel and the two
    forms. *)
Definition shown (u : Dialog) : nat :=
  List.length
    (filter negb
       [authLoading_hidden u; loginFormContainer_hidden u;
        registerFormContainer_hidden u]).

End AuthDialog.

(** ** [JSON.stringify]

    [JSON.stringify(value)] without replacer and indentation, on the values of
    [JS.Value].  A lone surrogate of a string is held as the three bytes of
    its generalized UTF-8 form, a surrogate pair as the four bytes of its
    character. *)

Module Stringify.

Import JS.

Definition hex_char (n : N) : ascii :=
  ascii_of_N (if n <? 10 then 48 + n else 87 + n)%N.

(** The escape of a code unit: a backslash, the letter u and four hexadecimal
    digits, in lower case. *)
Definition unicode_escape (u : N) : list ascii :=
  [JSON.backslash; "u"%char; hex_char (u / 4096)%N;
   hex_char ((u / 256) mod 16)%N; hex_char ((u / 16) mod 16)%N;
   hex_char (u mod 16)%N].

Definition short_escape (n : N) : option ascii :=
  (if n =? 8 then Some "b"%char
   else if n =? 9 then Some "t"%char
   else if n =? 10 then Some "n"%char
   else if n =? 12 then Some "f"%char
   else if n =? 13 then Some "r"%char
   else if n =? 34 then Some JSON.dquote
   else if n =? 92 then Some JSON.backslash
   else None)%N.

(** QuoteJSONString, between the quotes: the short escapes, the other control
    characters and the lone surrogates as unicode escapes, every other
    character as itself. *)
Fixpoint quote_chars (s : list ascii) : list ascii :=
  match s with
  | [] => []
  | c :: r =>
      let n := N_of_ascii c in
      match short_escape n with
      | Some e => JSON.backslash :: e :: quote_chars r
      | None =>
          if (n <? 32)%N then unicode_escape n ++ quote_chars r
          else
            match r with
            | a :: b :: r' =>
                if ((n =? 237) && (160 <=? N_of_ascii a))%N then
                  unicode_escape
                    (53248 + (N_of_ascii a - 128) * 64 + (N_of_ascii b - 128))%N
                  ++ quote_chars r'
                else c :: quote_chars r
            | _ => c :: quote_chars r
            end
      end
  end.

Definition quote (s : string) : string :=
  String JSON.dquote
    (JSON.text (quote_chars (JSON.chars s)) ++ String JSON.dquote EmptyString).

(** A number that is not finite is written [null]. *)
Definition number_text (e : Engine) (literal : string) : string :=
  let t := Number_toString e literal in
  if existsb (String.eqb t) ["Infinity"; "-Infinity"; "NaN"] then "null" else t.

Definition decimal (n : N) : string := NilEmpty.string_of_uint (N.to_uint n).

(** An array index: the canonical decimal form of an integer below
    2^32 - 1. *)
Definition array_index (key : string) : option N :=
  match NilEmpty.uint_of_string key with
  | Some u =>
      let n := N.of_uint u in
      if String.eqb (decimal n) key && (n <? 4294967295)%N then Some n else None
  | None => None
  end.

(** The own properties a list of members leaves: a key written again keeps
    its place and takes the new value. *)
Fixpoint upsert {A : Type} (key : string) (v : A) (l : list (string * A))
  : list (string * A) :=
  match l with
  | [] => [(key, v)]
  | (k, x) :: r =>
      if String.eqb k key then (k, v) :: r else (k, x) :: upsert key v r
  end.

Definition own {A : Type} (members : list (string * A)) : list (string * A) :=
  fold_left (fun acc kv => upsert (fst kv) (snd kv) acc) members [].

Fixpoint insert_index {A : Type} (n : N) (kv : string * A)
    (l : list (N * (string * A))) : list (N * (string * A)) :=
  match l with
  | [] => [(n, kv)]
  | (m, x) :: r =>
      if (n <? m)%N then (n, kv) :: l else (m, x) :: insert_index n kv r
  end.

(** The order in which the properties of an object are visited: the array
    indices in ascending order, then the other keys in the order in which
    they were first written. *)
Definition properties {A : Type} (members : list (string * A))
  : list (string * A) :=
  let o := own members in
  map snd
    (fold_right
       (fun kv acc =>
          match array_index (fst kv) with
          | Some n => insert_index n kv acc
          | None => acc
          end)
       [] o)
  ++ filter
       (fun kv => match array_index (fst kv) with
                  | Some _ => false
                  | None => true
                  end)
       o.

(** [None] is [undefined]: what [JSON.stringify] returns for [undefined]. *)
Fixpoint stringify (e : Engine) (v : Value) : option string :=
  match v with
  | Undefined => None
  | Null => Some "null"
  | Boolean true => Some "true"
  | Boolean false => Some "false"
  | Number n => Some (number_text e n)
  | Str s => Some (quote s)
  | Array elements =>
      Some ("[" ++ join ","
                     (map (fun x => match stringify e x with
                                    | Some t => t
                                    | None => "null"
                                    end)
                        elements)
            ++ "]")%string
  | Object members =>
      Some ("{" ++ join ","
                     (flat_map
                        (fun kt => match snd kt with
                                   | Some t => [(quote (fst kt) ++ ":" ++ t)%string]
                                   | None => []
                                   end)
                        (properties
                           (map (fun kv => match kv with
                                           | (k, x) => (k, stringify e x)
                                           end)
                              members)))
            ++ "}")%string
  end.

(** Text free of lone surrogates. *)
Fixpoint well_formed (s : list ascii) : bool :=
  match s with
  | [] => true
  | c :: r =>
      negb ((N_of_ascii c =? 237)%N
            && match r with
               | a :: _ => (160 <=? N_of_ascii a)%N
               | [] => false
               end)
      && well_formed r
  end.

(** What [quote_chars] writes for one character, and the unit [parse_units]
    reads it back as. *)
Definition quote_one (c : ascii) : list ascii :=
  let n := N_of_ascii c in
  match short_escape n with
  | Some e => [JSON.backslash; e]
  | None => if (n <? 32)%N then unicode_escape n else [c]
  end.

Definition unit_of (c : ascii) : JSON.StringUnit :=
  let n := N_of_ascii c in
  match short_escape n with
  | Some _ => JSON.Escaped n
  | None => if (n <? 32)%N then JSON.Escaped n else JSON.Raw c
  end.

End Stringify.

(** ** [localStorage] *)

Module Storage.

(** The items, most recently written first; a key occurs once. *)
Definition Store : Type := list (string * string).

(** [localStorage.getItem(key)]: [None] is [null]. *)
Fixpoint getItem (key : string) (s : Store) : option string :=
  match s with
  | [] => None
  | (k, v) :: r => if String.eqb k key then Some v else getItem key r
  end.

Definition removeItem (key : string) (s : Store) : Store :=
  filter (fun kv => negb (String.eqb (fst kv) key)) s.

Definition setItem (key value : string) (s : Store) : Store :=
  (key, value) :: removeItem key s.

(** [if (item)]: an item that is there and is not the empty string. *)
Definition truthy (item : option string) : bool :=
  match item with
  | Some v => negb (String.eqb v EmptyString)
  | None => false
  end.

End Storage.

(** ** FaramexChat: the account and the settings
       (ai-server-main/frontend/script.js, lines 7-24 and 368-511) *)

Module FaramexAccount.

Import JS Storage Stringify.

(** The instance, the part of the document these methods write to, and the
    storage of the browser.  [token] is [null] or a string; [apiUrl],
    [sessionId], [workspaceId] and [currentUser] hold what the responses and
    the storage give.  [agentStatus_online] tells whether [updateUI] has set
    the status, [chatMessages_welcome] whether [clearChat] has put the chat
    back to its welcome message.  The requests of [createSession] are not
    logged. *)
Record App : Type := {
  apiUrl : Value;
  token : option string;
  sessionId : Value;
  workspaceId : Value;
  agentId : string;
  currentUser : Value;
  settings : list (string * Value);
  loginModal_show : bool;
  settingsModal_show : bool;
  agentStatus_online : bool;
  apiUrlInput_value : string;
  autoScrollCheckbox_checked : bool;
  soundNotificationsCheckbox_checked : bool;
  chatMessages_welcome : bool;
  localStorage : Store
}.

Definition set_apiUrl (v : Value) (a : App) : App :=
  {| apiUrl := v; token := token a; sessionId := sessionId a;
     workspaceId := workspaceId a; agentId := agentId a;
     currentUser := currentUser a; settings := settings a;
     loginModal_show := loginModal_show a;
     settingsModal_show := settingsModal_show a;
     agentStatus_online := agentStatus_online a;
     apiUrlInput_value := apiUrlInput_value a;
     autoScrollCheckbox_checked := autoScrollCheckbox_checked a;
     soundNotificationsCheckbox_checked := soundNotificationsCheckbox_checked a;
     chatMessages_welcome := chatMessages_welcome a;
     localStorage := localStorage a |}.

Definition set_token (v : option string) (a : App) : App :=
  {| apiUrl := apiUrl a; token := v; sessionId := sessionId a;
     workspaceId := workspaceId a; agentId := agentId a;
     currentUser := currentUser a; settings := settings a;
     loginModal_show := loginModal_show a;
     settingsModal_show := settingsModal_show a;
     agentStatus_online := agentStatus_online a;
     apiUrlInput_value := apiUrlInput_value a;
     autoScrollCheckbox_checked := autoScrollCheckbox_checked a;
     soundNotificationsCheckbox_checked := soundNotificationsCheckbox_checked a;
     chatMessages_welcome := chatMessages_welcome a;
     localStorage := localStorage a |}.

Definition set_sessionId (v : Value) (a : App) : App :=
  {| apiUrl := apiUrl a; token := token a; sessionId := v;
     workspaceId := workspaceId a; agentId := agentId a;
     currentUser := currentUser a; settings := settings a;
     loginModal_show := loginModal_show a;
     settingsModal_show := settingsModal_show a;
     agentStatus_online := agentStatus_online a;
     apiUrlInput_value := apiUrlInput_value a;
     autoScrollCheckbox_checked := autoScrollCheckbox_checked a;
     soundNotificationsCheckbox_checked := soundNotificationsCheckbox_checked a;
     chatMessages_welcome := chatMessages_welcome a;
     localStorage := localStorage a |}.

Definition set_workspaceId (v : Value) (a : App) : App :=
  {| apiUrl := apiUrl a; token := token a; sessionId := sessionId a;
     workspaceId := v; agentId := agentId a;
     currentUser := currentUser a; settings := settings a;
     loginModal_show := loginModal_show a;
     settingsModal_show := settingsModal_show a;
     agentStatus_online := agentStatus_online a;
     apiUrlInput_value := apiUrlInput_value a;
     autoScrollCheckbox_checked := autoScrollCheckbox_checked a;
     soundNotificationsCheckbox_checked := soundNotificationsCheckbox_checked a;
     chatMessages_welcome := chatMessages_welcome a;
     localStorage := localStorage a |}.

Definition set_agentId (v : string) (a : App) : App :=
  {| apiUrl := apiUrl a; token := token a; sessionId := sessionId a;
     workspaceId := workspaceId a; agentId := v;
     currentUser := currentUser a; settings := settings a;
     loginModal_show := loginModal_show a;
     settingsModal_show := settingsModal_show a;
     agentStatus_online := agentStatus_online a;
     apiUrlInput_value := apiUrlInput_value a;
     autoScrollCheckbox_checked := autoScrollCheckbox_checked a;
     soundNotificationsCheckbox_checked := soundNotificationsCheckbox_checked a;
     chatMessages_welcome := chatMessages_welcome a;
     localStorage := localStorage a |}.

Definition set_currentUser (v : Value) (a : App) : App :=
  {| apiUrl := apiUrl a; token := token a; sessionId := sessionId a;
     workspaceId := workspaceId a; agentId := agentId a;
     currentUser := v; settings := settings a;
     loginModal_show := loginModal_show a;
     settingsModal_show := settingsModal_show a;
     agentStatus_online := agentStatus_online a;
     apiUrlInput_value := apiUrlInput_value a;
     autoScrollCheckbox_checked := autoScrollCheckbox_checked a;
     soundNotificationsCheckbox_checked := soundNotificationsCheckbox_checked a;
     chatMessages_welcome := chatMessages_welcome a;
     localStorage := localStorage a |}.

Definition set_settings (v : list (string * Value)) (a : App) : App :=
  {| apiUrl := apiUrl a; token := token a; sessionId := sessionId a;
     workspaceId := workspaceId a; agentId := agentId a;
     currentUser := currentUser a; settings := v;
     loginModal_show := loginModal_show a;
     settingsModal_show := settingsModal_show a;
     agentStatus_online := agentStatus_online a;
     apiUrlInput_value := apiUrlInput_value a;
     autoScrollCheckbox_checked := autoScrollCheckbox_checked a;
     soundNotificationsCheckbox_checked := soundNotificationsCheckbox_checked a;
     chatMessages_welcome := chatMessages_welcome a;
     localStorage := localStorage a |}.

Definition set_loginModal_show (v : bool) (a : App) : App :=
  {| apiUrl := apiUrl a; token := token a; sessionId := sessionId a;
     workspaceId := workspaceId a; agentId := agentId a;
     currentUser := currentUser a; settings := settings a;
     loginModal_show := v;
     settingsModal_show := settingsModal_show a;
     agentStatus_online := agentStatus_online a;
     apiUrlInput_value := apiUrlInput_value a;
     autoScrollCheckbox_checked := autoScrollCheckbox_checked a;
     soundNotificationsCheckbox_checked := soundNotificationsCheckbox_checked a;
     chatMessages_welcome := chatMessages_welcome a;
     localStorage := localStorage a |}.

Definition set_settingsModal_show (v : bool) (a : App) : App :=
  {| apiUrl := apiUrl a; token := token a; sessionId := sessionId a;
     workspaceId := workspaceId a; agentId := agentId a;
     currentUser := currentUser a; settings := settings a;
     loginModal_show := loginModal_show a;
     settingsModal_show := v;
     agentStatus_online := agentStatus_online a;
     apiUrlInput_value := apiUrlInput_value a;
     autoScrollCheckbox_checked := autoScrollCheckbox_checked a;
     soundNotificationsCheckbox_checked := soundNotificationsCheckbox_checked a;
     chatMessages_welcome := chatMessages_welcome a;
     localStorage := localStorage a |}.

Definition set_agentStatus_online (v : bool) (a : App) : App :=
  {| apiUrl := apiUrl a; token := token a; sessionId := sessionId a;
     workspaceId := workspaceId a; agentId := agentId a;
     currentUser := currentUser a; settings := settings a;
     loginModal_show := loginModal_show a;
     settingsModal_show := settingsModal_show a;
     agentStatus_online := v;
     apiUrlInput_value := apiUrlInput_value a;
     autoScrollCheckbox_checked := autoScrollCheckbox_checked a;
     soundNotificationsCheckbox_checked := soundNotificationsCheckbox_checked a;
     chatMessages_welcome := chatMessages_welcome a;
     localStorage := localStorage a |}.

(** The three controls of the settings dialog. *)
Definition set_controls (url : string) (auto sound : bool) (a : App) : App :=
  {| apiUrl := apiUrl a; token := token a; sessionId := sessionId a;
     workspaceId := workspaceId a; agentId := agentId a;
     currentUser := currentUser a; settings := settings a;
     loginModal_show := loginModal_show a;
     settingsModal_show := settingsModal_show a;
     agentStatus_online := agentStatus_online a;
     apiUrlInput_value := url;
     autoScrollCheckbox_checked := auto;
     soundNotificationsCheckbox_checked := sound;
     chatMessages_welcome := chatMessages_welcome a;
     localStorage := localStorage a |}.

Definition set_chatMessages_welcome (v : bool) (a : App) : App :=
  {| apiUrl := apiUrl a; token := token a; sessionId := sessionId a;
     workspaceId := workspaceId a; agentId := agentId a;
     currentUser := currentUser a; settings := settings a;
     loginModal_show := loginModal_show a;
     settingsModal_show := settingsModal_show a;
     agentStatus_online := agentStatus_online a;
     apiUrlInput_value := apiUrlInput_value a;
     autoScrollCheckbox_checked := autoScrollCheckbox_checked a;
     soundNotificationsCheckbox_checked := soundNotificationsCheckbox_checked a;
     chatMessages_welcome := v;
     localStorage := localStorage a |}.

Definition set_localStorage (v : Store) (a : App) : App :=
  {| apiUrl := apiUrl a; token := token a; sessionId := sessionId a;
     workspaceId := workspaceId a; agentId := agentId a;
     currentUser := currentUser a; settings := settings a;
     loginModal_show := loginModal_show a;
     settingsModal_show := settingsModal_show a;
     agentStatus_online := agentStatus_online a;
     apiUrlInput_value := apiUrlInput_value a;
     autoScrollCheckbox_checked := autoScrollCheckbox_checked a;
     soundNotificationsCheckbox_checked := soundNotificationsCheckbox_checked a;
     chatMessages_welcome := chatMessages_welcome a;
     localStorage := v |}.

(** The UTF-16 code units of a string, each as a string: a character of four
    bytes gives its two surrogates. *)
Fixpoint code_units (s : list ascii) : list string :=
  match s with
  | [] => []
  | c :: r =>
      let n := N_of_ascii c in
      if ((192 <=? n) && (n <? 224))%N then
        match r with
        | a :: r1 => JSON.text [c; a] :: code_units r1
        | [] => [JSON.text [c]]
        end
      else if ((224 <=? n) && (n <? 240))%N then
        match r with
        | a :: b :: r2 => JSON.text [c; a; b] :: code_units r2
        | _ => [JSON.text (c :: r)]
        end
      else if (240 <=? n)%N then
        match r with
        | a :: b :: d :: r3 =>
            let cp := ((n - 240) * 262144 + (N_of_ascii a - 128) * 4096
                       + (N_of_ascii b - 128) * 64 + (N_of_ascii d - 128)
                       - 65536)%N in
            JSON.text (JSON.utf8 (55296 + cp / 1024)%N)
            :: JSON.text (JSON.utf8 (56320 + cp mod 1024)%N)
            :: code_units r3
        | _ => [JSON.text (c :: r)]
        end
      else JSON.text [c] :: code_units r
  end.

Definition indexed {A : Type} (l : list A) : list (string * A) :=
  combine (map (fun i => decimal (N.of_nat i)) (seq 0 (List.length l))) l.

(** The own enumerable properties an object spread copies from a value. *)
Definition own_enumerable (v : Value) : list (string * Value) :=
  match v with
  | Object members => members
  | Array elements => indexed elements
  | Str s => indexed (map Str (code_units (JSON.chars s)))
  | _ => []
  end.

Definition member (key : string) (o : list (string * Value)) : Value :=
  match lookup key o with
  | Some x => x
  | None => Undefined
  end.

Inductive Target : Type := on_loginModal | on_settingsModal | elsewhere.

Section Methods.

Variable engine : Engine.

(** The assignments of the constructor (lines 7-18), on the page it finds. *)
Definition initialize (page : App) : App :=
  {| apiUrl := Str "http://localhost:8000"; token := None; sessionId := Null;
     workspaceId := Null; agentId := "facebook_marketing_agent";
     currentUser := Null;
     settings := [("autoScroll", Boolean true);
                  ("soundNotifications", Boolean false)];
     loginModal_show := loginModal_show page;
     settingsModal_show := settingsModal_show page;
     agentStatus_online := agentStatus_online page;
     apiUrlInput_value := apiUrlInput_value page;
     autoScrollCheckbox_checked := autoScrollCheckbox_checked page;
     soundNotificationsCheckbox_checked :=
       soundNotificationsCheckbox_checked page;
     chatMessages_welcome := chatMessages_welcome page;
     localStorage := localStorage page |}.

(** [createSession] (lines 393-421): the session the server names, or a mock
    session whenever the request fails in any way. *)
Definition createSession (a : App) (response : PromaDashboard.Fetch) (now : N)
  : App * Promise unit :=
  let mock :=
    (set_sessionId (Str ("demo-session-" ++ decimal now)) a, Fulfilled tt) in
  match response with
  | PromaDashboard.FetchPending => (a, Pending)
  | PromaDashboard.FetchRejected => mock
  | PromaDashboard.Response false _ _ => mock
  | PromaDashboard.Response true _ PromaDashboard.BodyStalls => (a, Pending)
  | PromaDashboard.Response true _ PromaDashboard.BodyError => mock
  | PromaDashboard.Response true _ (PromaDashboard.BodyText text) =>
      match JSON.parse text with
      | None => mock
      | Some result =>
          match Get result "session_id" with
          | None => mock
          | Some session => (set_sessionId session a, Fulfilled tt)
          end
      end
  end.

Definition showLogin (a : App) : App := set_loginModal_show true a.

(** [hideLogin] (lines 442-447): the token and the user are written to the
    storage as they are, [null] included. *)
Definition hideLogin (a : App) : App :=
  let stored_token :=
    match token a with Some t => t | None => "null" end in
  let stored_user :=
    match stringify engine (currentUser a) with
    | Some t => t
    | None => "undefined"
    end in
  set_localStorage
    (setItem "faramex_user" stored_user
       (setItem "faramex_token" stored_token (localStorage a)))
    (set_loginModal_show false a).

(** [updateUI] (lines 472-477) *)
Definition updateUI (a : App) : App :=
  if ToBoolean engine (currentUser a) then set_agentStatus_online true a else a.

(** [clearChat] (lines 459-470) *)
Definition clearChat (a : App) : App := set_chatMessages_welcome true a.

(** [logout] (lines 449-457) *)
Definition logout (a : App) : App :=
  clearChat
    (showLogin
       (set_localStorage
          (removeItem "faramex_user"
             (removeItem "faramex_token" (localStorage a)))
          (set_sessionId Null (set_currentUser Null (set_token None a))))).

(** [handleLogin] (lines 368-391) with the values of the form, the time and
    what the request of [createSession] meets.  The password is read and not
    used.  Nothing in the [try] block throws. *)
Definition handleLogin (a : App) (username workspace agent : string) (now : N)
    (response : PromaDashboard.Fetch) (now' : N) : App * Promise unit :=
  let a1 := set_agentId agent (set_workspaceId (Str workspace) a) in
  let a2 :=
    set_currentUser
      (Object [("username", Str username); ("workspaceId", Str workspace)])
      (set_token (Some ("demo-token-" ++ decimal now)%string) a1) in
  match createSession a2 response now' with
  | (a3, Fulfilled _) => (updateUI (hideLogin a3), Fulfilled tt)
  | other => other
  end.

(** [checkAuthentication] (lines 423-436); [None] is the exception of
    [JSON.parse] or of the read of [workspaceId].  The session is created
    without being awaited. *)
Definition checkAuthentication (a : App) (response : PromaDashboard.Fetch)
    (now : N) : option App :=
  let savedToken := getItem "faramex_token" (localStorage a) in
  let savedUser := getItem "faramex_user" (localStorage a) in
  if truthy savedToken && truthy savedUser then
    match savedUser with
    | Some text =>
        match JSON.parse text with
        | None => None
        | Some parsed =>
            match Get parsed "workspaceId" with
            | None => None
            | Some workspace =>
                Some (fst (createSession
                             (updateUI
                                (set_workspaceId workspace
                                   (set_currentUser parsed
                                      (set_token savedToken a))))
                             response now))
            end
        end
    | None => Some (showLogin a)
    end
  else Some (showLogin a).

(** [hideSettings] (lines 487-489) *)
Definition hideSettings (a : App) : App := set_settingsModal_show false a.

(** [saveSettings] (lines 491-502) *)
Definition saveSettings (a : App) : App :=
  let url := Str (apiUrlInput_value a) in
  let settings' :=
    settings a
    ++ [("autoScroll", Boolean (autoScrollCheckbox_checked a));
        ("soundNotifications", Boolean (soundNotificationsCheckbox_checked a))] in
  let saved :=
    match stringify engine (Object (("apiUrl", url) :: settings')) with
    | Some t => t
    | None => "undefined"
    end in
  hideSettings
    (set_localStorage (setItem "faramex_settings" saved (localStorage a))
       (set_settings settings' (set_apiUrl url a))).

(** [loadSettings] (lines 504-511); [None] is the exception of [JSON.parse]
    or of the read of [apiUrl]. *)
Definition loadSettings (a : App) : option App :=
  let savedSettings := getItem "faramex_settings" (localStorage a) in
  if truthy savedSettings then
    match savedSettings with
    | Some text =>
        match JSON.parse text with
        | None => None
        | Some saved =>
            match Get saved "apiUrl" with
            | None => None
            | Some url =>
                Some (set_settings (settings a ++ own_enumerable saved)
                        (set_apiUrl
                           (if ToBoolean engine url then url else apiUrl a) a))
            end
        end
    | None => Some a
    end
  else Some a.

(** The constructor (lines 7-24): an exception of [loadSettings] or of
    [checkAuthentication] leaves it. *)
Definition construct (page : App) (response : PromaDashboard.Fetch) (now : N)
  : option App :=
  match loadSettings (initialize page) with
  | Some a => checkAuthentication a response now
  | None => None
  end.

(** The listener of clicks on the window (lines 76-79). *)
Definition click (target : Target) (a : App) : App :=
  match target with
  | on_loginModal => hideLogin a
  | on_settingsModal => hideSettings a
  | elsewhere => a
  end.

End Methods.

(** A page as it is loaded, with a storage. *)
Definition page (storage : Store) : App :=
  {| apiUrl := Undefined; token := None; sessionId := Undefined;
     workspaceId := Undefined; agentId := EmptyString;
     currentUser := Undefined; settings := [];
     loginModal_show := false; settingsModal_show := false;
     agentStatus_online := false; apiUrlInput_value := EmptyString;
     autoScrollCheckbox_checked := false;
     soundNotificationsCheckbox_checked := false;
     chatMessages_welcome := true;
     localStorage := storage |}.

Definition default_url : Value := Str "http://localhost:8000".

(** The page found at the next load: a new document on the storage that
    [a] leaves. *)
Definition reload (a : App) : App := page (localStorage a).

(** The instance of a first visit, before [checkAuthentication], and the
    instance after a login. *)
Definition visitor : App := initialize (page []).

Definition logged_in : App :=
  fst (handleLogin canonical_numbers visitor "bob" "ws1" "agentX"
         1700000000000 PromaDashboard.FetchRejected 1700000000001).

(** The settings of the constructor. *)
Definition default_settings : list (string * Value) :=
  [("autoScroll", Boolean true); ("soundNotifications", Boolean false)].

(** The text of an object with the three settings. *)
Definition settings_text (url : string) (auto sound : bool) : string :=
  ("{" ++ join ","
            [(quote "apiUrl" ++ ":" ++ quote url)%string;
             (quote "autoScroll" ++ ":" ++ (if auto then "true" else "false"))%string;
             (quote "soundNotifications" ++ ":"
              ++ (if sound then "true" else "false"))%string]
   ++ "}")%string.


End FaramexAccount.

(** ** PromaDashboard: signing in, registering and signing out
       (ai-proma/frontend/dashboard-script-new.js, lines 3-24, 390-732
       and 799-822) *)

Module DashboardAccount.

Import JS Storage Stringify.

(** A request as [fetch] is given it: the address, the [Authorization]
    header and the body, where there is one. *)
Record Request : Type := {
  url : string;
  authorization : option string;
  body : option string
}.

(** An element of the chat container: a welcome message, with the name it
    greets, or anything else, which holds no welcome message. *)
Inductive Item : Type :=
  | Welcome (name : string)
  | Message.

(** The instance, the storage of the browser and the part of the document
    these methods write to; the page holds every element they look up.
    [authModal_display] and [authError_className] are the [display] style of
    the dialog and the classes of its message as last assigned, [dialog] the
    panels of the dialog.  [registerForm_reset] tells whether the register
    form has been reset, [timers] holds the delays of the calls of
    [addWelcomeMessage] that wait.  The fields of the forms are given to each
    handler as it finds them; the colours of the user name and the chevron of
    the menu are left out. *)
Record Account : Type := {
  apiUrl : string;
  token : Value;
  sessionId : Value;
  workspaceId : Value;
  agentId : string;
  currentUser : Value;
  settings : list (string * Value);
  localStorage : Store;
  requests : list Request;
  authModal_display : string;
  dialog : AuthDialog.Dialog;
  authError_className : string;
  currentUserEl_textContent : string;
  headerCurrentUser_textContent : string;
  onlineStatus_textContent : string;
  userDropdown_hidden : bool;
  headerDropdown_hidden : bool;
  registerForm_reset : bool;
  loginUsernameInput_value : string;
  chatMessages : list Item;
  timers : list nat
}.

Definition set_token (v : Value) (a : Account) : Account :=
  {| apiUrl := apiUrl a; token := v; sessionId := sessionId a;
     workspaceId := workspaceId a; agentId := agentId a;
     currentUser := currentUser a; settings := settings a;
     localStorage := localStorage a; requests := requests a;
     authModal_display := authModal_display a; dialog := dialog a;
     authError_className := authError_className a;
     currentUserEl_textContent := currentUserEl_textContent a;
     headerCurrentUser_textContent := headerCurrentUser_textContent a;
     onlineStatus_textContent := onlineStatus_textContent a;
     userDropdown_hidden := userDropdown_hidden a;
     headerDropdown_hidden := headerDropdown_hidden a;
     registerForm_reset := registerForm_reset a;
     loginUsernameInput_value := loginUsernameInput_value a;
     chatMessages := chatMessages a; timers := timers a |}.

Definition set_workspaceId (v : Value) (a : Account) : Account :=
  {| apiUrl := apiUrl a; token := token a; sessionId := sessionId a;
     workspaceId := v; agentId := agentId a; currentUser := currentUser a;
     settings := settings a; localStorage := localStorage a;
     requests := requests a; authModal_display := authModal_display a;
     dialog := dialog a; authError_className := authError_className a;
     currentUserEl_textContent := currentUserEl_textContent a;
     headerCurrentUser_textContent := headerCurrentUser_textContent a;
     onlineStatus_textContent := onlineStatus_textContent a;
     userDropdown_hidden := userDropdown_hidden a;
     headerDropdown_hidden := headerDropdown_hidden a;
     registerForm_reset := registerForm_reset a;
     loginUsernameInput_value := loginUsernameInput_value a;
     chatMessages := chatMessages a; timers := timers a |}.

Definition set_agentId (v : string) (a : Account) : Account :=
  {| apiUrl := apiUrl a; token := token a; sessionId := sessionId a;
     workspaceId := workspaceId a; agentId := v; currentUser := currentUser a;
     settings := settings a; localStorage := localStorage a;
     requests := requests a; authModal_display := authModal_display a;
     dialog := dialog a; authError_className := authError_className a;
     currentUserEl_textContent := currentUserEl_textContent a;
     headerCurrentUser_textContent := headerCurrentUser_textContent a;
     onlineStatus_textContent := onlineStatus_textContent a;
     userDropdown_hidden := userDropdown_hidden a;
     headerDropdown_hidden := headerDropdown_hidden a;
     registerForm_reset := registerForm_reset a;
     loginUsernameInput_value := loginUsernameInput_value a;
     chatMessages := chatMessages a; timers := timers a |}.

Definition set_currentUser (v : Value) (a : Account) : Account :=
  {| apiUrl := apiUrl a; token := token a; sessionId := sessionId a;
     workspaceId := workspaceId a; agentId := agentId a; currentUser := v;
     settings := settings a; localStorage := localStorage a;
     requests := requests a; authModal_display := authModal_display a;
     dialog := dialog a; authError_className := authError_className a;
     currentUserEl_textContent := currentUserEl_textContent a;
     headerCurrentUser_textContent := headerCurrentUser_textContent a;
     onlineStatus_textContent := onlineStatus_textContent a;
     userDropdown_hidden := userDropdown_hidden a;
     headerDropdown_hidden := headerDropdown_hidden a;
     registerForm_reset := registerForm_reset a;
     loginUsernameInput_value := loginUsernameInput_value a;
     chatMessages := chatMessages a; timers := timers a |}.

Definition set_settings (v : list (string * Value)) (a : Account) : Account :=
  {| apiUrl := apiUrl a; token := token a; sessionId := sessionId a;
     workspaceId := workspaceId a; agentId := agentId a;
     currentUser := currentUser a; settings := v;
     localStorage := localStorage a; requests := requests a;
     authModal_display := authModal_display a; dialog := dialog a;
     authError_className := authError_className a;
     currentUserEl_textContent := currentUserEl_textContent a;
     headerCurrentUser_textContent := headerCurrentUser_textContent a;
     onlineStatus_textContent := onlineStatus_textContent a;
     userDropdown_hidden := userDropdown_hidden a;
     headerDropdown_hidden := headerDropdown_hidden a;
     registerForm_reset := registerForm_reset a;
     loginUsernameInput_value := loginUsernameInput_value a;
     chatMessages := chatMessages a; timers := timers a |}.

Definition set_localStorage (v : Store) (a : Account) : Account :=
  {| apiUrl := apiUrl a; token := token a; sessionId := sessionId a;
     workspaceId := workspaceId a; agentId := agentId a;
     currentUser := currentUser a; settings := settings a; localStorage := v;
     requests := requests a; authModal_display := authModal_display a;
     dialog := dialog a; authError_className := authError_className a;
     currentUserEl_textContent := currentUserEl_textContent a;
     headerCurrentUser_textContent := headerCurrentUser_textContent a;
     onlineStatus_textContent := onlineStatus_textContent a;
     userDropdown_hidden := userDropdown_hidden a;
     headerDropdown_hidden := headerDropdown_hidden a;
     registerForm_reset := registerForm_reset a;
     loginUsernameInput_value := loginUsernameInput_value a;
     chatMessages := chatMessages a; timers := timers a |}.

Definition set_requests (v : list Request) (a : Account) : Account :=
  {| apiUrl := apiUrl a; token := token a; sessionId := sessionId a;
     workspaceId := workspaceId a; agentId := agentId a;
     currentUser := currentUser a; settings := settings a;
     localStorage := localStorage a; requests := v;
     authModal_display := authModal_display a; dialog := dialog a;
     authError_className := authError_className a;
     currentUserEl_textContent := currentUserEl_textContent a;
     headerCurrentUser_textContent := headerCurrentUser_textContent a;
     onlineStatus_textContent := onlineStatus_textContent a;
     userDropdown_hidden := userDropdown_hidden a;
     headerDropdown_hidden := headerDropdown_hidden a;
     registerForm_reset := registerForm_reset a;
     loginUsernameInput_value := loginUsernameInput_value a;
     chatMessages := chatMessages a; timers := timers a |}.

Definition set_authModal_display (v : string) (a : Account) : Account :=
  {| apiUrl := apiUrl a; token := token a; sessionId := sessionId a;
     workspaceId := workspaceId a; agentId := agentId a;
     currentUser := currentUser a; settings := settings a;
     localStorage := localStorage a; requests := requests a;
     authModal_display := v; dialog := dialog a;
     authError_className := authError_className a;
     currentUserEl_textContent := currentUserEl_textContent a;
     headerCurrentUser_textContent := headerCurrentUser_textContent a;
     onlineStatus_textContent := onlineStatus_textContent a;
     userDropdown_hidden := userDropdown_hidden a;
     headerDropdown_hidden := headerDropdown_hidden a;
     registerForm_reset := registerForm_reset a;
     loginUsernameInput_value := loginUsernameInput_value a;
     chatMessages := chatMessages a; timers := timers a |}.

Definition set_dialog (v : AuthDialog.Dialog) (a : Account) : Account :=
  {| apiUrl := apiUrl a; token := token a; sessionId := sessionId a;
     workspaceId := workspaceId a; agentId := agentId a;
     currentUser := currentUser a; settings := settings a;
     localStorage := localStorage a; requests := requests a;
     authModal_display := authModal_display a; dialog := v;
     authError_className := authError_className a;
     currentUserEl_textContent := currentUserEl_textContent a;
     headerCurrentUser_textContent := headerCurrentUser_textContent a;
     onlineStatus_textContent := onlineStatus_textContent a;
     userDropdown_hidden := userDropdown_hidden a;
     headerDropdown_hidden := headerDropdown_hidden a;
     registerForm_reset := registerForm_reset a;
     loginUsernameInput_value := loginUsernameInput_value a;
     chatMessages := chatMessages a; timers := timers a |}.

Definition set_authError_className (v : string) (a : Account) : Account :=
  {| apiUrl := apiUrl a; token := token a; sessionId := sessionId a;
     workspaceId := workspaceId a; agentId := agentId a;
     currentUser := currentUser a; settings := settings a;
     localStorage := localStorage a; requests := requests a;
     authModal_display := authModal_display a; dialog := dialog a;
     authError_className := v;
     currentUserEl_textContent := currentUserEl_textContent a;
     headerCurrentUser_textContent := headerCurrentUser_textContent a;
     onlineStatus_textContent := onlineStatus_textContent a;
     userDropdown_hidden := userDropdown_hidden a;
     headerDropdown_hidden := headerDropdown_hidden a;
     registerForm_reset := registerForm_reset a;
     loginUsernameInput_value := loginUsernameInput_value a;
     chatMessages := chatMessages a; timers := timers a |}.

Definition set_userDropdown_hidden (v : bool) (a : Account) : Account :=
  {| apiUrl := apiUrl a; token := token a; sessionId := sessionId a;
     workspaceId := workspaceId a; agentId := agentId a;
     currentUser := currentUser a; settings := settings a;
     localStorage := localStorage a; requests := requests a;
     authModal_display := authModal_display a; dialog := dialog a;
     authError_className := authError_className a;
     currentUserEl_textContent := currentUserEl_textContent a;
     headerCurrentUser_textContent := headerCurrentUser_textContent a;
     onlineStatus_textContent := onlineStatus_textContent a;
     userDropdown_hidden := v;
     headerDropdown_hidden := headerDropdown_hidden a;
     registerForm_reset := registerForm_reset a;
     loginUsernameInput_value := loginUsernameInput_value a;
     chatMessages := chatMessages a; timers := timers a |}.

Definition set_headerDropdown_hidden (v : bool) (a : Account) : Account :=
  {| apiUrl := apiUrl a; token := token a; sessionId := sessionId a;
     workspaceId := workspaceId a; agentId := agentId a;
     currentUser := currentUser a; settings := settings a;
     localStorage := localStorage a; requests := requests a;
     authModal_display := authModal_display a; dialog := dialog a;
     authError_className := authError_className a;
     currentUserEl_textContent := currentUserEl_textContent a;
     headerCurrentUser_textContent := headerCurrentUser_textContent a;
     onlineStatus_textContent := onlineStatus_textContent a;
     userDropdown_hidden := userDropdown_hidden a; headerDropdown_hidden := v;
     registerForm_reset := registerForm_reset a;
     loginUsernameInput_value := loginUsernameInput_value a;
     chatMessages := chatMessages a; timers := timers a |}.

Definition set_registerForm_reset (v : bool) (a : Account) : Account :=
  {| apiUrl := apiUrl a; token := token a; sessionId := sessionId a;
     workspaceId := workspaceId a; agentId := agentId a;
     currentUser := currentUser a; settings := settings a;
     localStorage := localStorage a; requests := requests a;
     authModal_display := authModal_display a; dialog := dialog a;
     authError_className := authError_className a;
     currentUserEl_textContent := currentUserEl_textContent a;
     headerCurrentUser_textContent := headerCurrentUser_textContent a;
     onlineStatus_textContent := onlineStatus_textContent a;
     userDropdown_hidden := userDropdown_hidden a;
     headerDropdown_hidden := headerDropdown_hidden a;
     registerForm_reset := v;
     loginUsernameInput_value := loginUsernameInput_value a;
     chatMessages := chatMessages a; timers := timers a |}.

Definition set_loginUsernameInput_value (v : string) (a : Account) : Account :=
  {| apiUrl := apiUrl a; token := token a; sessionId := sessionId a;
     workspaceId := workspaceId a; agentId := agentId a;
     currentUser := currentUser a; settings := settings a;
     localStorage := localStorage a; requests := requests a;
     authModal_display := authModal_display a; dialog := dialog a;
     authError_className := authError_className a;
     currentUserEl_textContent := currentUserEl_textContent a;
     headerCurrentUser_textContent := headerCurrentUser_textContent a;
     onlineStatus_textContent := onlineStatus_textContent a;
     userDropdown_hidden := userDropdown_hidden a;
     headerDropdown_hidden := headerDropdown_hidden a;
     registerForm_reset := registerForm_reset a;
     loginUsernameInput_value := v; chatMessages := chatMessages a;
     timers := timers a |}.

Definition set_chatMessages (v : list Item) (a : Account) : Account :=
  {| apiUrl := apiUrl a; token := token a; sessionId := sessionId a;
     workspaceId := workspaceId a; agentId := agentId a;
     currentUser := currentUser a; settings := settings a;
     localStorage := localStorage a; requests := requests a;
     authModal_display := authModal_display a; dialog := dialog a;
     authError_className := authError_className a;
     currentUserEl_textContent := currentUserEl_textContent a;
     headerCurrentUser_textContent := headerCurrentUser_textContent a;
     onlineStatus_textContent := onlineStatus_textContent a;
     userDropdown_hidden := userDropdown_hidden a;
     headerDropdown_hidden := headerDropdown_hidden a;
     registerForm_reset := registerForm_reset a;
     loginUsernameInput_value := loginUsernameInput_value a;
     chatMessages := v; timers := timers a |}.

Definition set_timers (v : list nat) (a : Account) : Account :=
  {| apiUrl := apiUrl a; token := token a; sessionId := sessionId a;
     workspaceId := workspaceId a; agentId := agentId a;
     currentUser := currentUser a; settings := settings a;
     localStorage := localStorage a; requests := requests a;
     authModal_display := authModal_display a; dialog := dialog a;
     authError_className := authError_className a;
     currentUserEl_textContent := currentUserEl_textContent a;
     headerCurrentUser_textContent := headerCurrentUser_textContent a;
     onlineStatus_textContent := onlineStatus_textContent a;
     userDropdown_hidden := userDropdown_hidden a;
     headerDropdown_hidden := headerDropdown_hidden a;
     registerForm_reset := registerForm_reset a;
     loginUsernameInput_value := loginUsernameInput_value a;
     chatMessages := chatMessages a; timers := v |}.

Definition clear_session (a : Account) : Account :=
  {| apiUrl := apiUrl a; token := Null; sessionId := Null;
     workspaceId := Null; agentId := agentId a; currentUser := Null;
     settings := settings a; localStorage := localStorage a;
     requests := requests a; authModal_display := authModal_display a;
     dialog := dialog a; authError_className := authError_className a;
     currentUserEl_textContent := currentUserEl_textContent a;
     headerCurrentUser_textContent := headerCurrentUser_textContent a;
     onlineStatus_textContent := onlineStatus_textContent a;
     userDropdown_hidden := userDropdown_hidden a;
     headerDropdown_hidden := headerDropdown_hidden a;
     registerForm_reset := registerForm_reset a;
     loginUsernameInput_value := loginUsernameInput_value a;
     chatMessages := chatMessages a; timers := timers a |}.

Definition set_userInfo (name : string) (a : Account) : Account :=
  {| apiUrl := apiUrl a; token := token a; sessionId := sessionId a;
     workspaceId := workspaceId a; agentId := agentId a;
     currentUser := currentUser a; settings := settings a;
     localStorage := localStorage a; requests := requests a;
     authModal_display := authModal_display a; dialog := dialog a;
     authError_className := authError_className a;
     currentUserEl_textContent := name; headerCurrentUser_textContent := name;
     onlineStatus_textContent := "Online";
     userDropdown_hidden := userDropdown_hidden a;
     headerDropdown_hidden := headerDropdown_hidden a;
     registerForm_reset := registerForm_reset a;
     loginUsernameInput_value := loginUsernameInput_value a;
     chatMessages := chatMessages a; timers := timers a |}.

(** A stretch of code that runs without awaiting: the state it reaches, with
    its value, or with [None] when it threw there. *)
Definition Run (A : Type) : Type := Account -> Account * option A.

Definition ret {A : Type} (x : A) : Run A := fun a => (a, Some x).

Definition checked {A : Type} (o : option A) : Run A := fun a => (a, o).

Definition does (f : Account -> Account) : Run unit := fun a => (f a, Some tt).

Definition bind {A B : Type} (m : Run A) (f : A -> Run B) : Run B :=
  fun a =>
    match m a with
    | (a', Some x) => f x a'
    | (a', None) => (a', None)
    end.

Notation "x <- m ;; k" := (bind m (fun x => k))
  (at level 61, m at next level, right associativity).
Notation "m ;; k" := (bind m (fun _ => k))
  (at level 61, right associativity).

(** [try { m } catch { handler }] *)
Definition try_catch (m : Run unit) (handler : Account -> Account)
    (a : Account) : Account :=
  match m a with
  | (a', Some _) => a'
  | (a', None) => handler a'
  end.

(** What [await fetch(...)] followed by [await response.json()] gives: the
    parsed body with the [ok] flag of the response, an exception, or nothing
    as long as one of the two does not settle. *)
Inductive Awaited : Type :=
  | Stalls
  | Throws
  | Gives (ok : bool) (data : Value).

Definition json (response : PromaDashboard.Fetch) : Awaited :=
  match response with
  | PromaDashboard.FetchPending => Stalls
  | PromaDashboard.FetchRejected => Throws
  | PromaDashboard.Response _ _ PromaDashboard.BodyStalls => Stalls
  | PromaDashboard.Response _ _ PromaDashboard.BodyError => Throws
  | PromaDashboard.Response ok _ (PromaDashboard.BodyText text) =>
      match JSON.parse text with
      | Some data => Gives ok data
      | None => Throws
      end
  end.

(** [formData.get(name)] is a string, or [null] when the form has no such
    field. *)
Definition field (v : option string) : Value :=
  match v with
  | Some s => Str s
  | None => Null
  end.

(** The string an argument of [setItem] turns into when [JSON.stringify]
    gave it. *)
Definition stringified (t : option string) : string :=
  match t with
  | Some s => s
  | None => "undefined"
  end.

Definition same_field (p q : option string) : bool :=
  match p, q with
  | Some x, Some y => String.eqb x y
  | None, None => true
  | _, _ => false
  end.

Definition is_welcome (i : Item) : bool :=
  match i with
  | Welcome _ => true
  | Message => false
  end.

Definition red : string :=
  "mt-4 p-3 bg-red-100 border border-red-400 text-red-700 rounded".

Definition green : string :=
  "mt-4 p-3 bg-green-100 border border-green-400 text-green-700 rounded".

Definition login_refused : string := "Đăng nhập thất bại. Vui lòng thử lại.".

Definition login_error : string :=
  "Có lỗi xảy ra khi đăng nhập. Vui lòng thử lại.".

Definition passwords_differ : string := "Mật khẩu xác nhận không khớp.".

Definition password_short : string := "Mật khẩu phải có ít nhất 6 ký tự.".

Definition register_refused : string := "Đăng ký thất bại. Vui lòng thử lại.".

Definition register_error : string :=
  "Có lỗi xảy ra khi đăng ký. Vui lòng kiểm tra kết nối mạng và thử lại.".

Definition registered (username : string) : string :=
  ("🎉 Đăng ký thành công! Vui lòng đăng nhập với tài khoản "
   ++ String JSON.dquote (username ++ String JSON.dquote "."))%string.

Definition logged_out : string := "Đăng xuất thành công!".

Definition logged_out_offline : string :=
  "Đã đăng xuất (có lỗi kết nối server)".

(** The five items of a login. *)
Definition login_items : list string :=
  ["proma_token"; "proma_user"; "proma_workspace"; "proma_agent";
   "proma_user_data"].

(** The methods of the dialog (lines 735-815), on the instance. *)
Definition on_dialog (f : AuthDialog.Dialog -> AuthDialog.Dialog)
    (a : Account) : Account :=
  set_dialog (f (dialog a)) a.

Definition showAuthLoading : Account -> Account :=
  on_dialog AuthDialog.showAuthLoading.

Definition hideAuthLoading : Account -> Account :=
  on_dialog AuthDialog.hideAuthLoading.

Definition showLoginForm : Account -> Account :=
  on_dialog (AuthDialog.showLoginForm AuthDialog.dashboard_script_new).

Definition showRegisterForm : Account -> Account :=
  on_dialog AuthDialog.showRegisterForm.

Definition hideAuthError : Account -> Account :=
  on_dialog AuthDialog.hideAuthError.

(** [showAuthError] (lines 789-797) and [showAuthSuccess] (lines 799-807)
    with a string. *)
Definition showAuthError (message : string) (a : Account) : Account :=
  set_authError_className red (on_dialog (AuthDialog.showAuthError message) a).

Definition showAuthSuccess (message : string) (a : Account) : Account :=
  set_authError_className green
    (on_dialog (AuthDialog.showAuthError message) a).

(** [hideUserDropdown] (lines 636-644) and [hideHeaderDropdown]
    (lines 664-668) *)
Definition hideUserDropdown : Account -> Account :=
  set_userDropdown_hidden true.

Definition hideHeaderDropdown : Account -> Account :=
  set_headerDropdown_hidden true.

(** [toggleUserDropdown] (lines 615-634) and [toggleHeaderDropdown]
    (lines 647-662) *)
Definition toggleUserDropdown (a : Account) : Account :=
  set_userDropdown_hidden (negb (userDropdown_hidden a)) a.

Definition toggleHeaderDropdown (a : Account) : Account :=
  set_headerDropdown_hidden (negb (headerDropdown_hidden a)) a.

(** [fetch] is called: the request leaves. *)
Definition send (path : string) (authorization : option string)
    (body : option string) (a : Account) : Account :=
  set_requests
    (requests a
     ++ [{| url := (apiUrl a ++ path)%string; authorization := authorization;
            body := body |}])
    a.

Definition store (key value : string) (a : Account) : Account :=
  set_localStorage (setItem key value (localStorage a)) a.

(** [clearAuthData] (lines 717-732) *)
Definition clearAuthData (a : Account) : Account :=
  set_localStorage
    (fold_left (fun s key => removeItem key s) login_items (localStorage a))
    (clear_session a).

(** [clearChat] (lines 420-427): the chat is emptied, and a welcome message
    is due 100 ms later. *)
Definition clearChat (a : Account) : Account :=
  set_timers (timers a ++ [100]) (set_chatMessages [] a).

Section Methods.

Variable engine : Engine.

(** [localStorage.setItem(key, value)] with a field of the instance: the
    value is turned into a string. *)
Definition setItem_of (key : string) (value : Account -> Value) : Run unit :=
  text <- (fun a => checked (ToString engine (value a)) a) ;;
  does (store key text).

(** [showAuthError(message)] with a value: [textContent] takes its string. *)
Definition showAuthError_of (message : Value) : Run unit :=
  text <- checked (ToString engine message) ;;
  does (showAuthError text).

(** [updateUserInfo] (lines 590-612): the name shows in the side bar and
    in the header, and the status reads Online. *)
Definition updateUserInfo : Run unit :=
  name <- (fun a =>
             checked
               (ToString engine
                  (PromaDashboard.or_else engine (currentUser a) (Str "User")))
               a) ;;
  does (set_userInfo name).

(** [addWelcomeMessage] (lines 390-418), as a timer calls it: an exception
    of the greeting goes nowhere. *)
Definition addWelcomeMessage (a : Account) : Account :=
  if existsb is_welcome (chatMessages a) then a
  else
    match
      ToString engine
        (PromaDashboard.or_else engine (currentUser a) (Str "bạn"))
    with
    | Some name => set_chatMessages (chatMessages a ++ [Welcome name]) a
    | None => a
    end.

(** The timers that wait run, one after the other. *)
Definition elapse (a : Account) : Account :=
  fold_left (fun s _ => addWelcomeMessage s) (timers a) (set_timers [] a).

(** The [try] block of [handleLogin] after the response is read
    (lines 451-472) *)
Definition signIn (data : Value) : Run unit :=
  access_token <- checked (Get data "access_token") ;;
  if ToBoolean engine access_token then
    does (set_token access_token) ;;
    user <- checked (Get data "user") ;;
    user_name <- checked (Get user "user_name") ;;
    does (set_currentUser user_name) ;;
    workspace_id <- checked (Get user "workspace_id") ;;
    does (set_workspaceId workspace_id) ;;
    does (set_agentId "project_manager_agent") ;;
    setItem_of "proma_token" token ;;
    setItem_of "proma_user" currentUser ;;
    setItem_of "proma_workspace" workspaceId ;;
    does (fun a => store "proma_agent" (agentId a) a) ;;
    does (store "proma_user_data" (stringified (stringify engine user))) ;;
    does (set_authModal_display "none") ;;
    updateUserInfo ;;
    does clearChat
  else
    does hideAuthLoading ;;
    does showLoginForm ;;
    detail <- checked (Get data "detail") ;;
    showAuthError_of (PromaDashboard.or_else engine detail (Str login_refused)).

(** [handleLogin] (lines 430-478), with the two fields of the form and what
    the request meets. *)
Definition handleLogin (a : Account) (username password : option string)
    (response : PromaDashboard.Fetch) : Account * Promise unit :=
  let a1 :=
    send "/api/v1/auth/login" None
      (stringify engine
         (Object [("user_name", field username);
                  ("user_pass", field password)]))
      (showAuthLoading (hideAuthError a)) in
  let caught s :=
    showAuthError login_error (showLoginForm (hideAuthLoading s)) in
  match json response with
  | Stalls => (a1, Pending)
  | Throws => (caught a1, Fulfilled tt)
  | Gives _ data => (try_catch (signIn data) caught a1, Fulfilled tt)
  end.

(** The [try] block of [handleRegister] after the response is read
    (lines 526-556) *)
Definition signUp (username : option string) (ok : bool) (data : Value)
  : Run unit :=
  accepted <-
    (if ok then
       access_token <- checked (Get data "access_token") ;;
       ret (ToBoolean engine access_token)
     else ret false) ;;
  if accepted : bool then
    does (set_registerForm_reset true) ;;
    does hideAuthLoading ;;
    does showLoginForm ;;
    does (showAuthSuccess
            (registered
               (match username with Some name => name | None => "null" end))) ;;
    does (set_loginUsernameInput_value
            (match username with Some name => name | None => "" end))
  else
    detail <- checked (Get data "detail") ;;
    does hideAuthLoading ;;
    does showRegisterForm ;;
    showAuthError_of
      (PromaDashboard.or_else engine detail (Str register_refused)).

(** [handleRegister] (lines 480-563): the two checks of the password come
    before the request; the length of a password that is not there cannot
    be read. *)
Definition handleRegister (a : Account)
    (username password confirmPassword : option string)
    (response : PromaDashboard.Fetch) : Account * Promise unit :=
  let a1 := showAuthLoading (hideAuthError a) in
  let refuse message :=
    (showAuthError message (showRegisterForm (hideAuthLoading a1)),
     Fulfilled tt) in
  if negb (same_field password confirmPassword) then refuse passwords_differ
  else
    match password with
    | None => (a1, Rejected)
    | Some p =>
        if (utf16_length p <? 6)%nat then refuse password_short
        else
          let a2 :=
            send "/api/v1/auth/register" None
              (stringify engine
                 (Object [("user_name", field username);
                          ("user_pass", field password);
                          ("confirm_password", field confirmPassword)]))
              a1 in
          let caught s :=
            showAuthError register_error
              (showRegisterForm (hideAuthLoading s)) in
          match json response with
          | Stalls => (a2, Pending)
          | Throws => (caught a2, Fulfilled tt)
          | Gives ok data =>
              (try_catch (signUp username ok data) caught a2, Fulfilled tt)
          end
    end.

(** [checkAuthentication] (lines 565-588) *)
Definition checkAuthentication : Run unit :=
  fun a =>
    match getItem "proma_token" (localStorage a),
          getItem "proma_user" (localStorage a) with
    | Some saved_token, Some saved_user =>
        if truthy (Some saved_token) && truthy (Some saved_user) then
          (does (set_token (Str saved_token)) ;;
           does (set_currentUser (Str saved_user)) ;;
           does (set_workspaceId
                   (Str (match getItem "proma_workspace" (localStorage a) with
                         | Some w => if String.eqb w "" then "default" else w
                         | None => "default"
                         end))) ;;
           does (set_agentId
                   (match getItem "proma_agent" (localStorage a) with
                    | Some g =>
                        if String.eqb g "" then "project_manager_agent" else g
                    | None => "project_manager_agent"
                    end)) ;;
           does (set_authModal_display "none") ;;
           updateUserInfo ;;
           does (fun s => set_timers (timers s ++ [500]) s)) a
        else (showLoginForm (set_authModal_display "flex" a), Some tt)
    | _, _ => (showLoginForm (set_authModal_display "flex" a), Some tt)
    end.

(** [loadSettings] (lines 817-822) *)
Definition loadSettings : Run unit :=
  fun a =>
    match getItem "proma_settings" (localStorage a) with
    | Some text =>
        if String.eqb text "" then (a, Some tt)
        else
          match JSON.parse text with
          | Some saved =>
              (set_settings
                 (settings a ++ FaramexAccount.own_enumerable saved) a,
               Some tt)
          | None => (a, None)
          end
    | None => (a, Some tt)
    end.

(** [handleLogout] (lines 671-715): the header of the request is built from
    the token before [fetch] is called. *)
Definition handleLogout (a : Account) (response : PromaDashboard.Fetch)
  : Account * Promise unit :=
  let caught s :=
    showAuthError logged_out_offline
      (showLoginForm (set_authModal_display "flex" (clearAuthData s))) in
  match ToString engine (token a) with
  | None => (caught a, Fulfilled tt)
  | Some text =>
      let a1 :=
        send "/api/v1/auth/logout" (Some ("Bearer " ++ text)%string) None a in
      match json response with
      | Stalls => (a1, Pending)
      | Throws => (caught a1, Fulfilled tt)
      | Gives _ _ =>
          (showAuthSuccess logged_out
             (showLoginForm
                (set_authModal_display "flex"
                   (clearChat
                      (hideHeaderDropdown
                         (hideUserDropdown (clearAuthData a1)))))),
           Fulfilled tt)
      end
  end.

End Methods.

(** The assignments of the constructor (lines 3-18), on the page it finds. *)
Definition initialize (page : Account) : Account :=
  {| apiUrl := "http://localhost:8002"; token := Null; sessionId := Null;
     workspaceId := Null; agentId := "project_manager_agent";
     currentUser := Null;
     settings := [("autoScroll", Boolean true);
                  ("soundNotifications", Boolean false)];
     localStorage := localStorage page; requests := requests page;
     authModal_display := authModal_display page; dialog := dialog page;
     authError_className := authError_className page;
     currentUserEl_textContent := currentUserEl_textContent page;
     headerCurrentUser_textContent := headerCurrentUser_textContent page;
     onlineStatus_textContent := onlineStatus_textContent page;
     userDropdown_hidden := userDropdown_hidden page;
     headerDropdown_hidden := headerDropdown_hidden page;
     registerForm_reset := registerForm_reset page;
     loginUsernameInput_value := loginUsernameInput_value page;
     chatMessages := chatMessages page; timers := timers page |}.

(** The constructor (lines 3-24): [None] when [loadSettings] or
    [checkAuthentication] throws, and no instance is made. *)
Definition construct (engine : Engine) (page : Account) : option Account :=
  match (loadSettings ;; checkAuthentication engine) (initialize page) with
  | (a, Some _) => Some a
  | (_, None) => None
  end.

(** What a login sets and a logout clears is the same in two states. *)
Definition same_session (a b : Account) : Prop :=
  token a = token b /\ currentUser a = currentUser b
  /\ workspaceId a = workspaceId b /\ agentId a = agentId b
  /\ localStorage a = localStorage b
  /\ authModal_display a = authModal_display b.

(** The dialog shows the login form alone, under a message. *)
Definition asks_to_login (a : Account) : Prop :=
  AuthDialog.shown (dialog a) = 1
  /\ AuthDialog.loginFormContainer_hidden (dialog a) = false
  /\ AuthDialog.authError_hidden (dialog a) = false.

(** A page as it is loaded: the dialog with its login form, an empty chat,
    and the storage found. *)
Definition page (storage : Store) : Account :=
  {| apiUrl := ""; token := Undefined; sessionId := Undefined;
     workspaceId := Undefined; agentId := ""; currentUser := Undefined;
     settings := []; localStorage := storage; requests := [];
     authModal_display := "";
     dialog :=
       {| AuthDialog.authLoading_hidden := true;
          AuthDialog.loginFormContainer_hidden := false;
          AuthDialog.registerFormContainer_hidden := true;
          AuthDialog.authError_hidden := true;
          AuthDialog.authError_textContent := "" |};
     authError_className := ""; currentUserEl_textContent := "";
     headerCurrentUser_textContent := ""; onlineStatus_textContent := "";
     userDropdown_hidden := true; headerDropdown_hidden := true;
     registerForm_reset := false; loginUsernameInput_value := "";
     chatMessages := []; timers := [] |}.

(** An answer of the server with a body, and the instance after a login
    at a first visit. *)
Definition answer (ok : bool) (status : nat) (data : Value)
  : PromaDashboard.Fetch :=
  PromaDashboard.Response ok status
    (PromaDashboard.BodyText (stringified (stringify canonical_numbers data))).

Definition granted : Value :=
  Object [("access_token", Str "t0k3n");
          ("user", Object [("user_name", Str "ann");
                           ("workspace_id", Str "w1")])].

Definition signed_in : Account :=
  fst (handleLogin canonical_numbers (initialize (page [])) (Some "ann")
         (Some "secret") (answer true 200 granted)).

End DashboardAccount.

(** * Properties *)

(** ** Strings, [split] and [join] *)

Section Strings.

Import JS.

Lemma append_empty_r (s : string) : (s ++ "")%string = s.
Proof. induction s as [|c s IH]; simpl; [reflexivity | now rewrite IH]. Qed.

Lemma append_assoc (a b c : string) :
  ((a ++ b) ++ c)%string = (a ++ (b ++ c))%string.
Proof. induction a as [|x a IH]; simpl; [reflexivity | now rewrite IH]. Qed.

Lemma split_not_nil (sep : ascii) (s : string) : split sep s <> [].
Proof.
  destruct s as [|c s]; simpl; [discriminate|].
  destruct (Ascii.eqb c sep); [discriminate|].
  destruct (split sep s); discriminate.
Qed.

(** Joining the pieces with the separator gives the string back. *)
Lemma join_split (sep : ascii) (s : string) :
  join (String sep "") (split sep s) = s.
Proof.
  unfold join.
  induction s as [|c s IH]; simpl; [reflexivity|].
  destruct (Ascii.eqb_spec c sep) as [->|Hc].
  - pose proof (split_not_nil sep s) as Hne.
    destruct (split sep s) as [|w ws] eqn:E; [congruence|].
    change (String.concat (String sep "") ("" :: w :: ws))
      with (String sep (String.concat (String sep "") (w :: ws))).
    now rewrite IH.
  - pose proof (split_not_nil sep s) as Hne.
    destruct (split sep s) as [|w ws] eqn:E; [congruence|].
    destruct ws as [|w' ws]; simpl in *; now rewrite IH.
Qed.

(** A separator in the text separates the pieces on its two sides. *)
Lemma split_app (sep : ascii) (a b : string) :
  split sep (a ++ String sep b)%string = split sep a ++ split sep b.
Proof.
  induction a as [|c a IH]; simpl.
  - now rewrite Ascii.eqb_refl.
  - destruct (Ascii.eqb c sep); rewrite IH; [reflexivity|].
    pose proof (split_not_nil sep a) as Hne.
    destruct (split sep a); [congruence | reflexivity].
Qed.

(** A text without the separator is one piece. *)
Lemma split_without (sep : ascii) (s : string) :
  forallb (fun c => negb (Ascii.eqb c sep)) (list_ascii_of_string s) = true ->
  split sep s = [s].
Proof.
  induction s as [|c s IH]; [reflexivity|].
  cbn [list_ascii_of_string forallb]. intros H.
  apply andb_true_iff in H as [Hc Hs]. apply negb_true_iff in Hc.
  cbn [split]. rewrite Hc. now rewrite (IH Hs).
Qed.

Lemma join_snoc (sep : string) (pre : list string) (w : string) :
  pre <> [] ->
  join sep (pre ++ [w]) = (join sep pre ++ sep ++ w)%string.
Proof.
  unfold join. induction pre as [|x pre IH]; [congruence|]; intros _.
  destruct pre as [|y pre].
  - reflexivity.
  - change (String.concat sep ((x :: y :: pre) ++ [w]))
      with (x ++ sep ++ String.concat sep ((y :: pre) ++ [w]))%string.
    rewrite IH by discriminate.
    change (String.concat sep (x :: y :: pre))
      with (x ++ sep ++ String.concat sep (y :: pre))%string.
    now rewrite !append_assoc.
Qed.

End Strings.

(** ** The parser always answers *)

Module JSONFacts.

Import JS JSON.

Lemma skip_ws_length (s : list ascii) :
  List.length (skip_ws s) <= List.length s.
Proof.
  induction s as [|c s IH]; [reflexivity|].
  cbn [skip_ws]. destruct (is_ws c); cbn [List.length]; lia.
Qed.

Lemma digits_length (s : list ascii) :
  List.length (snd (digits s)) <= List.length s.
Proof.
  induction s as [|c s IH]; [reflexivity|].
  cbn [digits]. destruct (is_digit c); [|reflexivity].
  destruct (digits s) as [ds r]. cbn [snd List.length] in *. lia.
Qed.

Lemma expect_length (p s r : list ascii) :
  expect p s = Some r -> List.length r + List.length p = List.length s.
Proof.
  revert s. induction p as [|a p IH]; intros [|b s] H; cbn in *;
    try discriminate; try (injection H as <-; cbn; lia).
  destruct (Ascii.eqb a b); [|discriminate]. apply IH in H. lia.
Qed.

Lemma digits_then {A : Type} (k : list ascii -> A) (r1 s : list ascii) :
  List.length r1 <= List.length s ->
  consumes 0 s
    (match digits r1 with
     | ([], _) => SyntaxError
     | (ds, r2) => Parsed (k ds) r2
     end).
Proof.
  intros Hr. pose proof (digits_length r1) as Hd.
  destruct (digits r1) as [[|d ds] r2]; cbn in *; [exact I | lia].
Qed.

Lemma parse_exp_consumes (acc s : list ascii) :
  consumes 0 s (parse_exp acc s).
Proof.
  unfold parse_exp. destruct s as [|c r]; [cbn; lia|].
  destruct (Ascii.eqb c "e" || Ascii.eqb c "E"); [|cbn; lia].
  destruct r as [|d r'].
  - apply (digits_then (fun ds => text (acc ++ c :: [] ++ ds))). cbn. lia.
  - destruct (Ascii.eqb d "+" || Ascii.eqb d "-").
    + apply (digits_then (fun ds => text (acc ++ c :: [d] ++ ds))). cbn. lia.
    + apply (digits_then (fun ds => text (acc ++ c :: [] ++ ds))). cbn. lia.
Qed.

Lemma consumes_weaken {A : Type} (k k' : nat) (s s' : list ascii) (p : Parse A) :
  consumes k s p -> List.length s + k' <= List.length s' + k ->
  consumes k' s' p.
Proof. destruct p; cbn; intros; [lia | exact I | contradiction]. Qed.

Lemma parse_frac_consumes (acc s : list ascii) :
  consumes 0 s (parse_frac acc s).
Proof.
  unfold parse_frac. destruct s as [|c r]; [apply parse_exp_consumes|].
  destruct (Ascii.eqb c "."); [|apply parse_exp_consumes].
  pose proof (digits_length r) as Hd.
  destruct (digits r) as [[|d ds] r1]; [exact I|].
  eapply consumes_weaken; [apply parse_exp_consumes|]. cbn in *. lia.
Qed.

Lemma parse_number_consumes (s : list ascii) :
  consumes 1 s (parse_number s).
Proof.
  unfold parse_number.
  assert (H : forall sign s1, List.length s1 <= List.length s ->
            consumes 1 s
              (match s1 with
               | [] => SyntaxError
               | c :: r =>
                   if Ascii.eqb c "0" then parse_frac (sign ++ [c]) r
                   else if is_digit c
                        then let (ds, r1) := digits s1 in parse_frac (sign ++ ds) r1
                        else SyntaxError
               end)).
  { intros sign [|c r] Hs; [exact I|].
    destruct (Ascii.eqb c "0").
    - eapply consumes_weaken; [apply parse_frac_consumes|]. cbn in *. lia.
    - destruct (is_digit c) eqn:Hc; [|exact I].
      pose proof (digits_length r) as Hd.
      cbn [digits]. rewrite Hc. destruct (digits r) as [ds r1].
      eapply consumes_weaken; [apply parse_frac_consumes|]. cbn in *. lia. }
  destruct s as [|c r]; [exact I|].
  destruct (Ascii.eqb c "-").
  - apply (H [c] r). cbn. lia.
  - apply (H [] (c :: r)). cbn. lia.
Qed.

Lemma parse_units_consumes (s : list ascii) :
  consumes 1 s (parse_units s).
Proof.
  remember (List.length s) as n eqn:Hn.
  revert s Hn. induction n as [n IH] using lt_wf_ind. intros s ->.
  destruct s as [|c r]; [exact I|]. cbn [parse_units].
  destruct (Ascii.eqb c dquote); [cbn; lia|].
  destruct (Ascii.eqb c backslash).
  - destruct r as [|e r1]; [exact I|].
    destruct (Ascii.eqb e "u").
    + destruct r1 as [|h1 [|h2 [|h3 [|h4 r2]]]]; try exact I.
      destruct (hex4 h1 h2 h3 h4); [|exact I].
      specialize (IH (List.length r2) ltac:(cbn; lia) r2 eq_refl).
      destruct (parse_units r2); cbn in *; try lia; exact I.
    + destruct (simple_escape e).
      * specialize (IH (List.length r1) ltac:(cbn; lia) r1 eq_refl).
        destruct (parse_units r1); cbn in *; try lia; exact I.
      * exact I.
  - destruct (N_of_ascii c <? 32)%N; [exact I|].
    specialize (IH (List.length r) ltac:(cbn; lia) r eq_refl).
    destruct (parse_units r); cbn in *; try lia; exact I.
Qed.

Lemma parse_string_consumes (s : list ascii) :
  consumes 1 s (parse_string s).
Proof.
  unfold parse_string. pose proof (parse_units_consumes s) as H.
  destruct (parse_units s); exact H.
Qed.


Lemma skip_ws_cons (s r : list ascii) (c : ascii) :
  skip_ws s = c :: r -> List.length r + 1 <= List.length s.
Proof.
  intros H. pose proof (skip_ws_length s) as Hl. rewrite H in Hl.
  cbn in Hl. lia.
Qed.

(** With fuel above twice the length of the text, the parser never runs out:
    every call on the way down has read at least one character for every two
    units spent. *)
Lemma parse_fuel (f : nat) :
  (forall s, 2 * List.length s + 1 <= f -> consumes 1 s (parse_value f s))
  /\ (forall s acc, 2 * List.length s + 2 <= f ->
        consumes 1 s (parse_elements f s acc))
  /\ (forall s acc, 2 * List.length s + 2 <= f ->
        consumes 1 s (parse_members f s acc)).
Proof.
  induction f as [|f (IHv & IHe & IHm)].
  - repeat split; intros; lia.
  - split; [|split].
    + intros s Hf. cbn [parse_value].
      destruct (skip_ws s) as [|c r] eqn:Es; [exact I|].
      apply skip_ws_cons in Es.
      destruct (Ascii.eqb c "{").
      { destruct (skip_ws r) as [|c' r'] eqn:Er; [exact I|].
        apply skip_ws_cons in Er.
        destruct (Ascii.eqb c' "}"); [cbn; lia|].
        eapply consumes_weaken; [apply (IHm r []); lia | lia]. }
      destruct (Ascii.eqb c "[").
      { destruct (skip_ws r) as [|c' r'] eqn:Er; [exact I|].
        apply skip_ws_cons in Er.
        destruct (Ascii.eqb c' "]"); [cbn; lia|].
        eapply consumes_weaken; [apply (IHe r []); lia | lia]. }
      destruct (Ascii.eqb c dquote).
      { pose proof (parse_string_consumes r) as H.
        destruct (parse_string r); cbn in *; try lia; exact H. }
      destruct (Ascii.eqb c "-" || is_digit c).
      { pose proof (parse_number_consumes (c :: r)) as H.
        destruct (parse_number (c :: r)); cbn in *; try lia; exact H. }
      destruct (expect (chars "true") (c :: r)) as [r'|] eqn:E1;
        [apply expect_length in E1; cbn in *; lia|].
      destruct (expect (chars "false") (c :: r)) as [r'|] eqn:E2;
        [apply expect_length in E2; cbn in *; lia|].
      destruct (expect (chars "null") (c :: r)) as [r'|] eqn:E3;
        [apply expect_length in E3; cbn in *; lia | exact I].
    + intros s acc Hf. cbn [parse_elements].
      pose proof (IHv s ltac:(lia)) as Hv.
      destruct (parse_value f s) as [v r| |]; cbn [consumes] in Hv;
        [|exact I|contradiction].
      destruct (skip_ws r) as [|c r'] eqn:Er; [exact I|].
      apply skip_ws_cons in Er.
      destruct (Ascii.eqb c ",").
      { eapply consumes_weaken; [apply (IHe r' (v :: acc)); lia | lia]. }
      destruct (Ascii.eqb c "]"); [cbn; lia | exact I].
    + intros s acc Hf. cbn [parse_members].
      destruct (skip_ws s) as [|q r] eqn:Es; [exact I|].
      apply skip_ws_cons in Es.
      destruct (Ascii.eqb q dquote); [|exact I].
      pose proof (parse_string_consumes r) as Hk.
      destruct (parse_string r) as [key r1| |]; cbn [consumes] in Hk;
        [|exact I|contradiction].
      destruct (skip_ws r1) as [|c r2] eqn:E1; [exact I|].
      apply skip_ws_cons in E1.
      destruct (Ascii.eqb c ":"); [|exact I].
      pose proof (IHv r2 ltac:(lia)) as Hv.
      destruct (parse_value f r2) as [v r3| |]; cbn [consumes] in Hv;
        [|exact I|contradiction].
      destruct (skip_ws r3) as [|d r4] eqn:E3; [exact I|].
      apply skip_ws_cons in E3.
      destruct (Ascii.eqb d ",").
      { eapply consumes_weaken; [apply (IHm r4 ((key, v) :: acc)); lia | lia]. }
      destruct (Ascii.eqb d "}"); [cbn; lia | exact I].
Qed.

Lemma chars_length (s : string) : List.length (chars s) = String.length s.
Proof. induction s as [|c s IH]; cbn; [reflexivity | now rewrite IH]. Qed.

(** [JSON.parse] never gives up for lack of fuel: when it returns [None], the
    text is not JSON. *)
Theorem parse_never_out_of_fuel (s : string) :
  parse_value (2 * String.length s + 1) (chars s) <> OutOfFuel.
Proof.
  pose proof (proj1 (parse_fuel (2 * String.length s + 1)) (chars s)) as H.
  rewrite chars_length in H. specialize (H (le_n _)).
  intros E. rewrite E in H. exact H.
Qed.

End JSONFacts.

(** ** [trim] strips both ends completely *)

Section Trim.

Import JS.

Lemma prefix_slice (w s : string) :
  String.prefix w s = true ->
  String.length (slice (String.length w) s) + String.length w = String.length s.
Proof.
  revert s. induction w as [|a w IH]; intros s H; cbn [String.length slice].
  - cbn. lia.
  - destruct s as [|b s]; [discriminate|]. cbn [String.prefix] in H.
    destruct (ascii_dec a b); [|discriminate].
    cbn [String.length slice]. specialize (IH s H). lia.
Qed.

Lemma strip_one_shorter (ws : list string) (s s' : string) :
  Forall (fun w => w <> "") ws ->
  strip_one ws s = Some s' -> String.length s' < String.length s.
Proof.
  intros Hws. unfold strip_one.
  destruct (find (fun w => String.prefix w s) ws) as [w|] eqn:E; [|discriminate].
  intros H. injection H as <-. apply find_some in E as [Hin Hp].
  pose proof (prefix_slice w s Hp) as Hl.
  rewrite Forall_forall in Hws. specialize (Hws w Hin).
  destruct w; [congruence|]. cbn [String.length] in *. lia.
Qed.

(** With fuel for every character, stripping stops only when no white space
    is left at the front. *)
Lemma strip_complete (ws : list string) (fuel : nat) (s : string) :
  Forall (fun w => w <> "") ws ->
  String.length s <= fuel ->
  strip_one ws (strip fuel ws s) = None.
Proof.
  intros Hws. revert s. induction fuel as [|fuel IH]; intros s Hl.
  - destruct s; [|cbn in Hl; lia]. cbn [strip].
    destruct (strip_one ws "") as [s'|] eqn:E; [|reflexivity].
    apply (strip_one_shorter ws _ _ Hws) in E. cbn in E. lia.
  - cbn [strip]. destruct (strip_one ws s) as [s'|] eqn:E; [|exact E].
    apply IH. apply (strip_one_shorter ws _ _ Hws) in E. lia.
Qed.

Lemma white_space_nonempty : Forall (fun w => w <> "") white_space.
Proof. repeat constructor; discriminate. Qed.

Lemma trimStart_complete (s : string) :
  strip_one white_space (trimStart s) = None.
Proof.
  apply strip_complete; [apply white_space_nonempty | apply le_n].
Qed.

Lemma strip_length (ws : list string) (fuel : nat) (s : string) :
  Forall (fun w => w <> "") ws ->
  String.length (strip fuel ws s) <= String.length s.
Proof.
  intros Hws. revert s. induction fuel as [|fuel IH]; intros s; [reflexivity|].
  cbn [strip]. destruct (strip_one ws s) as [s'|] eqn:E; [|reflexivity].
  apply (strip_one_shorter ws _ _ Hws) in E. specialize (IH s'). lia.
Qed.

Lemma string_of_list_length (l : list ascii) :
  String.length (string_of_list_ascii l) = List.length l.
Proof. induction l as [|c l IH]; cbn; [reflexivity | now rewrite IH]. Qed.

Lemma rev_string_length (s : string) :
  String.length (rev_string s) = String.length s.
Proof.
  unfold rev_string.
  rewrite string_of_list_length, length_rev. apply JSONFacts.chars_length.
Qed.

Lemma rev_string_involutive (s : string) : rev_string (rev_string s) = s.
Proof.
  unfold rev_string.
  now rewrite list_ascii_of_string_of_list_ascii, rev_involutive,
    string_of_list_ascii_of_string.
Qed.

Lemma rev_white_space_nonempty :
  Forall (fun w => w <> "") (map rev_string white_space).
Proof. repeat constructor; discriminate. Qed.

(** [trim] leaves no white space at either end. *)
Lemma trim_complete (s : string) :
  strip_one (map rev_string white_space) (rev_string (trim s)) = None
  /\ String.length (trim s) <= String.length s.
Proof.
  unfold trim. rewrite rev_string_involutive. split.
  - apply strip_complete; [apply rev_white_space_nonempty|].
    rewrite rev_string_length. apply strip_length, white_space_nonempty.
  - rewrite rev_string_length.
    etransitivity; [apply strip_length, rev_white_space_nonempty|].
    rewrite rev_string_length. apply strip_length, white_space_nonempty.
Qed.

End Trim.

(** ** The typing renderer *)

Module TypingRenderer.

Import JS PromaDashboard.

Lemma rendered_app (a b : list Event) :
  rendered (a ++ b) = rendered a ++ rendered b.
Proof. apply flat_map_app. Qed.

Lemma waited_app (a b : list Event) : waited (a ++ b) = waited a ++ waited b.
Proof. apply flat_map_app. Qed.

Section Loop.

Variable variant : Variant.

Lemma events_step (d : Dashboard) (node : nat) (t : string) :
  events (log (Waited (delay_base variant) (delay_span variant))
            (log (Rendered t) (set_content node t d)))
  = events d ++ [Rendered t; Waited (delay_base variant) (delay_span variant)].
Proof. simpl. now rewrite <- app_assoc. Qed.

(** What the loop renders after the words [pre] have been typed. *)
Lemma type_words_rendered (rest pre : list string) (d : Dashboard) (node : nat) :
  pre <> [] ->
  rendered (events (type_words variant d node (join " " pre) false rest))
  = rendered (events d)
    ++ map (fun n => join " " (pre ++ firstn n rest)) (seq 1 (List.length rest)).
Proof.
  revert pre d. induction rest as [|w rest IH]; intros pre d Hpre.
  - simpl. now rewrite app_nil_r.
  - cbn [type_words].
    replace (join " " pre ++ String space "" ++ w)%string
      with (join " " (pre ++ [w])) by (now rewrite join_snoc).
    rewrite IH by (destruct pre; discriminate).
    rewrite events_step, rendered_app. cbn [rendered flat_map app].
    rewrite <- app_assoc. f_equal.
    cbn [List.length seq map firstn app]. f_equal.
    rewrite <- (seq_shift _ 1), !map_map.
    apply map_ext. intros n. cbn [firstn]. now rewrite <- app_assoc.
Qed.

Lemma type_words_rendered_all (words : list string) (d : Dashboard) (node : nat) :
  rendered (events (type_words variant d node "" true words))
  = rendered (events d) ++ cumulative words.
Proof.
  destruct words as [|w rest].
  - simpl. now rewrite app_nil_r.
  - cbn [type_words]. change ("" ++ "" ++ w)%string with (join " " [w]).
    rewrite (type_words_rendered rest [w]) by discriminate.
    rewrite events_step, rendered_app. cbn [rendered flat_map app].
    rewrite <- app_assoc. f_equal.
    unfold cumulative. cbn [List.length seq map firstn app]. f_equal.
    rewrite <- (seq_shift _ 1), !map_map. reflexivity.
Qed.

End Loop.




Lemma update_nth_last {A : Type} (f : A -> A) (l : list A) (x : A) :
  update_nth (List.length l) f (l ++ [x]) = l ++ [f x].
Proof. induction l as [|y l IH]; simpl; [reflexivity | now rewrite IH]. Qed.

Section Bubble.

Variable variant : Variant.

(** The bubble the loop writes to ends up showing all the words. *)
Lemma type_words_chat (rest pre : list string) (d : Dashboard)
    (above : list Node) (who : Sender) (shown : string) :
  pre <> [] ->
  chatMessages d = above ++ [MessageNode who shown] ->
  chatMessages
    (type_words variant d (List.length above) (join " " pre) false rest)
  = above ++ [MessageNode who (match rest with
                               | [] => shown
                               | _ :: _ => join " " (pre ++ rest)
                               end)].
Proof.
  revert pre d shown. induction rest as [|w rest IH]; intros pre d shown Hpre Hd.
  - exact Hd.
  - cbn [type_words].
    replace (join " " pre ++ String space "" ++ w)%string
      with (join " " (pre ++ [w])) by (now rewrite join_snoc).
    rewrite (IH (pre ++ [w]) _ (join " " (pre ++ [w]))).
    + rewrite <- app_assoc. cbn [app]. now destruct rest.
    + destruct pre; discriminate.
    + cbn. rewrite Hd. now rewrite update_nth_last.
Qed.

Lemma type_words_waited (words : list string) (d : Dashboard) (node : nat)
    (cur : string) (first : bool) :
  waited (events (type_words variant d node cur first words))
  = waited (events d)
    ++ repeat (delay_base variant, delay_span variant) (List.length words).
Proof.
  revert d cur first. induction words as [|w rest IH]; intros d cur first.
  - simpl. now rewrite app_nil_r.
  - cbn [type_words]. rewrite IH, events_step, waited_app.
    cbn [waited flat_map app List.length repeat].
    now rewrite <- app_assoc.
Qed.

End Bubble.

(** Only the space character separates words: a text without one, whatever
    tabs or line breaks it holds, is rendered once, whole. *)
Lemma text_without_space_renders_once
    (variant : Variant) (d : Dashboard) (text : string) :
  forallb (fun c => negb (Ascii.eqb c space)) (list_ascii_of_string text)
  = true ->
  rendered (events (fst (typeAIResponse variant d (Str text))))
  = rendered (events d) ++ [text].
Proof.
  intros H. unfold typeAIResponse, addMessage. cbn [fst].
  rewrite (split_without space text H), type_words_rendered_all. f_equal.
  destruct (settle variant); cbn; [|reflexivity].
  rewrite rendered_app. cbn. now rewrite app_nil_r.
Qed.


(** C8, as the code has it.  On the empty string the renderer adds an empty
    agent bubble, renders the empty text into it once, and awaits one
    inter-word timer (after the opening pause, in the copies that have one):
    splitting the empty string gives one empty word. *)
Theorem C8_empty_text_renders_once (variant : Variant) (d : Dashboard) :
  let r := typeAIResponse variant d (Str "") in
  snd r = Fulfilled tt
  /\ rendered (events (fst r)) = rendered (events d) ++ [""]
  /\ waited (events (fst r))
     = waited (events d)
       ++ match settle variant with Some ms => [(ms, 0)] | None => [] end
       ++ [(delay_base variant, delay_span variant)]
  /\ chatMessages (fst r) = chatMessages d ++ [MessageNode agent ""].
Proof.
  cbv zeta. unfold typeAIResponse, addMessage. cbn [fst snd split].
  repeat split.
  - rewrite type_words_rendered_all. cbn.
    destruct (settle variant); cbn; [|reflexivity].
    rewrite rendered_app. cbn. now rewrite app_nil_r.
  - rewrite type_words_waited. cbn.
    destruct (settle variant); cbn; [|reflexivity].
    fold (waited (events d ++ [Waited n 0])).
    rewrite waited_app. cbn. now rewrite <- app_assoc.
  - cbn. destruct (settle variant); cbn; now rewrite update_nth_last.
Qed.

(** C8, as the claim has it, fails: on the empty string the first copy of the
    renderer emits one render and awaits one timer of 50 to 150 ms. *)
Lemma C8_empty_text_counterexample :
  let r := typeAIResponse dashboard_script idle (Str "") in
  rendered (events (fst r)) = [""]
  /\ rendered (events (fst r)) <> []
  /\ waited (events (fst r)) = [(50, 100)].
Proof. cbv zeta. repeat split. discriminate. Qed.

End TypingRenderer.

(** ** The streaming consumer *)

Module StreamingConsumer.

Import JS FaramexChat.

Section Lines.

Variable engine : Engine.

(** The accumulator only enters the [try] block as the left operand of [+=]. *)
Lemma try_append_acc (acc data : string) :
  try_append engine acc data
  = option_map (append acc) (try_append engine "" data).
Proof.
  unfold try_append.
  destruct (JSON.parse data) as [v|]; [|reflexivity].
  destruct (Get v "content") as [c|]; [|reflexivity].
  destruct (ToBoolean engine c).
  - destruct (ToString engine c); reflexivity.
  - simpl. now rewrite append_empty_r.
Qed.

Lemma render_agentMessage (c : Chat) (el : option nat) (t : string) :
  agentMessage (render c el t) = t.
Proof. now destruct el. Qed.

(** A line adds its [appended] text to the accumulator, whatever the state. *)
Lemma process_line_agentMessage (st : Loop) (line : string) :
  agentMessage (process_line engine st line)
  = (agentMessage st ++ appended engine line)%string.
Proof.
  unfold process_line, appended.
  destruct (startsWith line "data: "); [|now rewrite append_empty_r].
  destruct (slice 6 line =? "[DONE]")%string; [now rewrite append_empty_r|].
  rewrite try_append_acc.
  destruct (try_append engine "" (slice 6 line)); simpl;
    now rewrite render_agentMessage.
Qed.

Lemma concat_empty_app (a b : list string) :
  String.concat "" (a ++ b)
  = (String.concat "" a ++ String.concat "" b)%string.
Proof.
  induction a as [|x a IH]; [reflexivity|].
  destruct a as [|y a].
  - destruct b; simpl; [now rewrite append_empty_r | reflexivity].
  - change (String.concat "" ((x :: y :: a) ++ b))
      with (x ++ String.concat "" ((y :: a) ++ b))%string.
    rewrite IH. change (String.concat "" (x :: y :: a))
      with (x ++ String.concat "" (y :: a))%string.
    now rewrite append_assoc.
Qed.

Lemma concat_empty_cons (x : string) (l : list string) :
  String.concat "" (x :: l) = (x ++ String.concat "" l)%string.
Proof. destruct l; simpl; [now rewrite append_empty_r | reflexivity]. Qed.

Lemma process_lines_agentMessage (lines : list string) (st : Loop) :
  agentMessage (fold_left (process_line engine) lines st)
  = (agentMessage st ++ String.concat "" (map (appended engine) lines))%string.
Proof.
  revert st. induction lines as [|l lines IH]; intros st.
  - simpl. now rewrite append_empty_r.
  - cbn [fold_left map]. rewrite IH, process_line_agentMessage.
    now rewrite concat_empty_cons, append_assoc.
Qed.

Lemma read_loop_agentMessage (reads : list Read) (st : Loop) :
  agentMessage (fst (read_loop engine st reads))
  = (agentMessage st
     ++ String.concat "" (map (appended engine) (lines_read reads)))%string.
Proof.
  revert st. induction reads as [|r reads IH]; intros st;
    [simpl; now rewrite append_empty_r|].
  destruct r as [text| | |ms]; cbn [read_loop lines_read fst map];
    try (simpl; now rewrite append_empty_r); [|apply IH].
  rewrite IH. unfold process_chunk.
  now rewrite process_lines_agentMessage, map_app, concat_empty_app, append_assoc.
Qed.

(** A line without the prefix, the empty line among them, changes nothing. *)
Lemma process_line_empty (st : Loop) : process_line engine st "" = st.
Proof. reflexivity. Qed.

(** The end of a read acts as a line break. *)
Lemma process_chunk_boundary (st : Loop) (a b : string) :
  process_chunk engine (process_chunk engine st a) b
  = process_chunk engine st (a ++ String newline b).
Proof.
  unfold process_chunk. now rewrite split_app, fold_left_app.
Qed.

Lemma ends_with_inv (c : ascii) (s : string) :
  ends_with c s = true -> exists a, s = (a ++ String c "")%string.
Proof.
  induction s as [|x s IH]; [discriminate|].
  destruct s as [|y s].
  - simpl. intros H. apply Ascii.eqb_eq in H. subst. now exists "".
  - intros H. destruct (IH H) as [a Ha]. exists (String x a).
    simpl. now rewrite <- Ha.
Qed.

Lemma process_chunk_newline (st : Loop) (a : string) :
  process_chunk engine st (a ++ String newline "")
  = process_chunk engine st a.
Proof.
  unfold process_chunk. rewrite split_app, fold_left_app. reflexivity.
Qed.

(** Reads that each end with a newline are processed like their
    concatenation in one read. *)
Lemma process_whole_lines (chunks : list string) (st : Loop) :
  forallb (ends_with newline) chunks = true ->
  fold_left (process_chunk engine) chunks st
  = process_chunk engine st (String.concat "" chunks).
Proof.
  revert st. induction chunks as [|x chunks IH]; intros st H; [reflexivity|].
  cbn [forallb] in H. apply andb_true_iff in H as [Hx H].
  cbn [fold_left]. rewrite IH by exact H.
  rewrite concat_empty_cons.
  destruct (ends_with_inv _ _ Hx) as [a ->].
  rewrite append_assoc. cbn [append].
  rewrite process_chunk_newline. apply process_chunk_boundary.
Qed.

Lemma read_loop_chunks (chunks : list string) (rest : list Read) (st : Loop) :
  read_loop engine st (map Chunk chunks ++ rest)
  = read_loop engine (fold_left (process_chunk engine) chunks st) rest.
Proof.
  revert st. induction chunks as [|x chunks IH]; intros st; [reflexivity|].
  cbn [map app read_loop fold_left]. apply IH.
Qed.

(** The loop ends normally only when a read reports the end of the stream. *)
Lemma read_loop_fulfilled (reads : list Read) (st : Loop) :
  snd (read_loop engine st reads) = Fulfilled tt -> In Done reads.
Proof.
  revert st. induction reads as [|r reads IH]; intros st; [discriminate|].
  destruct r; cbn [read_loop snd In]; intros H;
    try discriminate; try (now left); right; eapply IH; exact H.
Qed.

(** Time without data changes nothing, wherever it falls. *)
Lemma read_loop_silence (before after : list Read) (ms : N) (st : Loop) :
  read_loop engine st (before ++ Silence ms :: after)
  = read_loop engine st (before ++ after).
Proof.
  revert st. induction before as [|r before IH]; intros st; [reflexivity|].
  destruct r; cbn [app read_loop]; try reflexivity; apply IH.
Qed.

Lemma read_loop_only_silence (reads : list Read) (st : Loop) :
  forallb is_silence reads = true ->
  read_loop engine st reads = (st, Pending).
Proof.
  induction reads as [|r reads IH]; [reflexivity|].
  destruct r; cbn [forallb is_silence andb]; try discriminate.
  exact IH.
Qed.

(** While no read reports the end or fails, the loop is still waiting. *)
Lemma read_loop_still_open (reads : list Read) (st : Loop) :
  forallb still_open reads = true ->
  snd (read_loop engine st reads) = Pending.
Proof.
  revert st. induction reads as [|r reads IH]; intros st; [reflexivity|].
  destruct r; cbn [forallb still_open andb read_loop]; try discriminate;
    apply IH.
Qed.

Lemma render_frame (c : Chat) (el : option nat) (t : string) :
  same_frame c (this (render c el t)).
Proof. destruct el; repeat split. Qed.

Lemma process_line_frame (st : Loop) (line : string) :
  same_frame (this st) (this (process_line engine st line)).
Proof.
  unfold process_line.
  destruct (startsWith line "data: "); [|repeat split].
  destruct (slice 6 line =? "[DONE]")%string; [repeat split|].
  destruct (try_append engine (agentMessage st) (slice 6 line));
    apply render_frame.
Qed.

Lemma same_frame_trans (a b c : Chat) :
  same_frame a b -> same_frame b c -> same_frame a c.
Proof.
  unfold same_frame. intros (H1 & H2 & H3 & H4 & H5) (G1 & G2 & G3 & G4 & G5).
  repeat split; congruence.
Qed.

Lemma process_chunk_frame (text : string) (st : Loop) :
  same_frame (this st) (this (process_chunk engine st text)).
Proof.
  unfold process_chunk. generalize (split newline text) as lines.
  intros lines. revert st. induction lines as [|l lines IH]; intros st.
  - repeat split.
  - cbn [fold_left]. eapply same_frame_trans; [apply process_line_frame|apply IH].
Qed.

Lemma read_loop_frame (reads : list Read) (st : Loop) :
  same_frame (this st) (this (fst (read_loop engine st reads))).
Proof.
  revert st. induction reads as [|r reads IH]; intros st; [repeat split|].
  destruct r; cbn [read_loop fst]; try (repeat split; fail); [|apply IH].
  eapply same_frame_trans; [apply process_chunk_frame|apply IH].
Qed.

(** The page shows the accumulated text, all along. *)
Lemma nth_error_update_nth {A : Type} (f : A -> A) (l : list A) (n : nat) (x : A) :
  nth_error l n = Some x ->
  nth_error (update_nth n f l) n = Some (f x).
Proof.
  revert n. induction l as [|y l IH]; intros [|n] H; simpl in *;
    try discriminate; [congruence | now apply IH].
Qed.

Lemma render_displayed (st : Loop) (t : string) :
  displayed st -> displayed (render (this st) (messageElement st) t).
Proof.
  unfold displayed, render. destruct (messageElement st) as [node|]; intros H.
  - cbn. rewrite (nth_error_update_nth _ _ _ _ H). reflexivity.
  - cbn. rewrite nth_error_app2, Nat.sub_diag by reflexivity. reflexivity.
Qed.

Lemma render_element (c : Chat) (el : option nat) (t : string) :
  messageElement (render c el t) <> None.
Proof. destruct el; discriminate. Qed.

Lemma process_line_displayed (st : Loop) (line : string) :
  displayed st -> displayed (process_line engine st line).
Proof.
  intros H. unfold process_line.
  destruct (startsWith line "data: "); [|exact H].
  destruct (slice 6 line =? "[DONE]")%string; [exact H|].
  destruct (try_append engine (agentMessage st) (slice 6 line));
    now apply render_displayed.
Qed.

Lemma data_line (data : string) :
  startsWith ("data: " ++ data) "data: " = true
  /\ slice 6 ("data: " ++ data) = data.
Proof.
  split; [|reflexivity].
  unfold startsWith. cbn. now destruct data.
Qed.

End Lines.


(** *** Content frames *)

Section Frames.

Import JSON.

Lemma chars_app (a b : string) :
  JSON.chars (a ++ b) = JSON.chars a ++ JSON.chars b.
Proof. induction a as [|c a IH]; cbn; [reflexivity | now rewrite IH]. Qed.

Lemma text_chars (s : string) : text (chars s) = s.
Proof. apply string_of_list_ascii_of_string. Qed.

Lemma parse_units_plain (l rest : list ascii) :
  forallb plain_char l = true ->
  parse_units (l ++ dquote :: rest) = Parsed (map Raw l) rest.
Proof.
  induction l as [|c l IH]; intros H.
  - cbn [app parse_units]. now rewrite Ascii.eqb_refl.
  - cbn [forallb] in H. apply andb_true_iff in H as [Hc Hl].
    unfold plain_char in Hc.
    apply andb_true_iff in Hc as [Hc Hb]. apply andb_true_iff in Hc as [Hc Hq].
    apply negb_true_iff in Hc, Hb, Hq.
    cbn [app parse_units map]. rewrite Hq, Hb, Hc, IH by exact Hl. reflexivity.
Qed.

Lemma encode_raw (l : list ascii) : encode (map Raw l) = l.
Proof. induction l as [|c l IH]; cbn; [reflexivity | now rewrite IH]. Qed.

Lemma parse_string_plain (t : string) (rest : list ascii) :
  plain t = true ->
  parse_string (chars t ++ dquote :: rest) = Parsed t rest.
Proof.
  intros H. unfold parse_string. rewrite parse_units_plain by exact H.
  now rewrite encode_raw, text_chars.
Qed.

(** The payload of a content frame parses to the object it writes. *)
Lemma parse_content (t : string) :
  plain t = true ->
  JSON.parse (member "content" (quoted t))
  = Some (Object [("content", Str t)]).
Proof.
  intros H. unfold JSON.parse.
  remember (2 * String.length (member "content" (quoted t)) + 1) as f eqn:Hf.
  assert (Hlen : 3 <= f) by (subst f; cbn; lia).
  destruct f as [|[|[|f]]]; try lia. clear Hf Hlen.
  assert (E : chars (member "content" (quoted t))
              = "{"%char :: dquote
                :: chars "content"
                ++ dquote :: ":"%char :: dquote :: chars t ++ dquote :: ["}"%char]).
  { unfold member, quoted. cbn [append]. cbn [chars list_ascii_of_string].
    change list_ascii_of_string with chars. rewrite !chars_app.
    rewrite <- app_assoc. reflexivity. }
  rewrite E. cbn -[parse_string chars app].
  rewrite (parse_string_plain "content") by reflexivity.
  cbn -[parse_string chars app].
  rewrite parse_string_plain by exact H. reflexivity.
Qed.


Section Deltas.

Variable engine : Engine.

(** A content frame appends its content. *)
Lemma appended_content (t : string) :
  plain t = true -> appended engine (content_frame t) = t.
Proof.
  intros H. unfold appended, content_frame.
  destruct (data_line (member "content" (quoted t)))
    as [H1 H2].
  rewrite H1, H2. change (member "content" (quoted t) =? "[DONE]")%string with false.
  unfold try_append. rewrite parse_content by exact H.
  cbn [Get lookup]. cbn [String.eqb Ascii.eqb Bool.eqb ToBoolean ToString].
  destruct (String.eqb_spec t ""); cbn [negb]; [now subst | reflexivity].
Qed.

Lemma split_no_newline (s : string) :
  no_newline (chars s) = true -> split newline s = [s].
Proof. apply split_without. Qed.

Lemma plain_no_newline (t : string) :
  plain t = true -> no_newline (chars t) = true.
Proof.
  unfold plain, no_newline. rewrite !forallb_forall. intros H c Hc.
  specialize (H c Hc). unfold plain_char in H.
  apply andb_true_iff in H as [H _]. apply andb_true_iff in H as [H _].
  apply negb_true_iff. destruct (Ascii.eqb_spec c newline) as [->|]; [|reflexivity].
  discriminate.
Qed.

Lemma content_frame_lines (t : string) :
  plain t = true ->
  split newline (content_frame t ++ lf) = [content_frame t; ""].
Proof.
  intros H. unfold lf. rewrite split_app. cbn [split app].
  rewrite split_no_newline; [reflexivity|].
  unfold content_frame, member, quoted. cbn [append].
  cbn [chars list_ascii_of_string]. change list_ascii_of_string with chars.
  rewrite !chars_app. unfold no_newline. cbn [forallb].
  rewrite !forallb_app. fold (no_newline (chars t)).
  rewrite (plain_no_newline t H). reflexivity.
Qed.

(** A stream of deltas appends the deltas, in order. *)
Lemma delta_stream_appended (deltas : list string) :
  forallb plain deltas = true ->
  String.concat "" (map (appended engine) (lines_read (delta_stream deltas)))
  = String.concat "" deltas.
Proof.
  unfold delta_stream. induction deltas as [|t deltas IH]; intros H.
  - reflexivity.
  - cbn [forallb] in H. apply andb_true_iff in H as [Ht H].
    cbn [map app lines_read]. rewrite content_frame_lines by exact Ht.
    cbn [app map]. rewrite appended_content by exact Ht.
    rewrite !concat_empty_cons. rewrite IH by exact H.
    reflexivity.
Qed.

Lemma delta_stream_fulfilled (deltas : list string) (st : Loop) :
  snd (read_loop engine st (delta_stream deltas)) = Fulfilled tt.
Proof.
  unfold delta_stream. revert st.
  induction deltas as [|t deltas IH]; intros st; [reflexivity|].
  cbn [map app read_loop]. apply IH.
Qed.

End Deltas.

End Frames.

Section Claims.

Variable engine : Engine.

Lemma sendToAPI_loop_ok (c : Chat) (message : string) (imgs : list string)
    (status : nat) (reads : list Read) :
  let r := read_loop engine (started c message imgs) reads in
  let r' := sendToAPI_loop engine c message imgs
              (Response true status (Some reads)) in
  agentMessage (fst r') = agentMessage (fst r)
  /\ messageElement (fst r') = messageElement (fst r)
  /\ chatMessages (this (fst r')) = chatMessages (this (fst r))
  /\ typingIndicator_display (this (fst r'))
     = typingIndicator_display (this (fst r))
  /\ snd r' = snd r.
Proof.
  cbv zeta. unfold sendToAPI_loop. fold (started c message imgs).
  destruct (read_loop engine (started c message imgs) reads) as [st [[]| |]];
    cbn [fst snd agentMessage messageElement this]; repeat split.
  - now destruct (soundNotifications (settings (this st))).
  - now destruct (soundNotifications (settings (this st))).
Qed.

Lemma read_loop_displayed (reads : list Read) (st : Loop) :
  displayed st -> displayed (fst (read_loop engine st reads)).
Proof.
  revert st. induction reads as [|r reads IH]; intros st H; [exact H|].
  destruct r; cbn [read_loop fst]; try exact H; apply IH; [|exact H].
  unfold process_chunk. generalize (split newline text) as lines.
  intros lines. revert st H. induction lines as [|l lines IHl]; intros st H.
  - exact H.
  - cbn [fold_left]. apply IHl. now apply process_line_displayed.
Qed.

(** C1.  The accumulated agent message is the concatenation, in arrival
    order, of the text appended for every line the loop processes, and the
    agent message on the page shows it.  A stream of content frames, each
    line arriving whole, followed by the sentinel and the end of the stream,
    leaves the concatenation of the contents and ends the call normally; the
    stream of the two deltas [A] and [B] followed by the sentinel leaves the
    accumulated text [AB], whether the three lines come in three reads, with
    or without their newlines, or in one read. *)
Theorem C1_accumulated_text_is_concatenation :
  (forall (c : Chat) (message : string) (imgs : list string) (status : nat)
          (reads : list Read),
      let st := fst (sendToAPI_loop engine c message imgs
                       (Response true status (Some reads))) in
      agentMessage st
      = String.concat "" (map (appended engine) (lines_read reads))
      /\ displayed st)
  /\ (forall (c : Chat) (message : string) (imgs : list string) (status : nat)
             (deltas : list string),
         forallb plain deltas = true ->
         let r := sendToAPI_loop engine c message imgs
                    (Response true status (Some (delta_stream deltas))) in
         agentMessage (fst r) = String.concat "" deltas
         /\ snd r = Fulfilled tt)
  /\ (forall (c : Chat) (message : string) (imgs : list string) (status : nat)
             (reads : list Read),
         In reads [round_trip; round_trip_bare; round_trip_one_read] ->
         let r := sendToAPI_loop engine c message imgs
                    (Response true status (Some reads)) in
         agentMessage (fst r) = "AB" /\ snd r = Fulfilled tt).
Proof.
  split; [|split].
  - intros c message imgs status reads st.
    destruct (sendToAPI_loop_ok c message imgs status reads)
      as (Ha & He & Hc & _ & _).
    pose proof (read_loop_displayed reads (started c message imgs)
                  eq_refl) as Hd.
    subst st. split.
    + rewrite Ha, read_loop_agentMessage. reflexivity.
    + unfold displayed in *. rewrite He, Hc, Ha. exact Hd.
  - intros c message imgs status deltas Hp r.
    destruct (sendToAPI_loop_ok c message imgs status (delta_stream deltas))
      as (Ha & _ & _ & _ & Hs).
    subst r. split.
    + rewrite Ha, read_loop_agentMessage.
      now rewrite delta_stream_appended.
    + rewrite Hs. apply delta_stream_fulfilled.
  - intros c message imgs status reads Hin r.
    destruct (sendToAPI_loop_ok c message imgs status reads)
      as (Ha & _ & _ & _ & Hs).
    subst r. rewrite Ha, Hs, read_loop_agentMessage.
    destruct Hin as [<-|[<-|[<-|[]]]]; split;
      first [reflexivity | vm_compute; reflexivity].
Qed.

(** C2, as the code has it.  Nothing is kept from one read to the next: the
    end of a read ends the line, so two consecutive reads are processed as
    one read of the first text, a newline and the second text.  Reads that
    each end with a newline are processed as their concatenation in one
    read.  The frame cut in the middle of its key therefore appends the
    fragment before the cut as literal text, and the rest of the frame is an
    ordinary line without the prefix. *)
Theorem C2_read_boundary_is_line_break :
  (forall (st : Loop) (a b : string) (rest : list Read),
      read_loop engine st (Chunk a :: Chunk b :: rest)
      = read_loop engine st (Chunk (a ++ String newline b) :: rest))
  /\ (forall (st : Loop) (chunks : list string) (rest : list Read),
         forallb (ends_with newline) chunks = true ->
         read_loop engine st (map Chunk chunks ++ rest)
         = read_loop engine st (Chunk (String.concat "" chunks) :: rest))
  /\ (forall (c : Chat) (message : string) (imgs : list string) (status : nat),
         agentMessage
           (fst (sendToAPI_loop engine c message imgs
                   (Response true status
                      (Some [Chunk first_half; Chunk second_half; Done]))))
         = ("{" ++ String JSON.dquote "cont")%string).
Proof.
  split; [|split].
  - intros st a b rest. cbn [read_loop]. now rewrite process_chunk_boundary.
  - intros st chunks rest H. rewrite read_loop_chunks. cbn [read_loop].
    now rewrite process_whole_lines.
  - intros c message imgs status.
    destruct (sendToAPI_loop_ok c message imgs status
                [Chunk first_half; Chunk second_half; Done]) as (Ha & _).
    rewrite Ha, read_loop_agentMessage. vm_compute. reflexivity.
Qed.

(** C4, as the code has it.  A line with the prefix whose payload is not the
    sentinel and fails to parse has its whole payload appended as literal
    text, and the agent message on the page is created or updated to show the
    result. *)
Theorem C4_unparsable_payload_is_appended (st : Loop) (data : string) :
  displayed st ->
  data <> "[DONE]" ->
  JSON.parse data = None ->
  let st' := process_line engine st ("data: " ++ data) in
  agentMessage st' = (agentMessage st ++ data)%string
  /\ displayed st'
  /\ messageElement st' <> None.
Proof.
  intros Hd Hs Hp st'. subst st'.
  destruct (data_line data) as [H1 H2].
  assert (Hstep : process_line engine st ("data: " ++ data)
                  = render (this st) (messageElement st)
                      (agentMessage st ++ data)).
  { unfold process_line. rewrite H1, H2.
    apply String.eqb_neq in Hs. rewrite Hs.
    unfold try_append. now rewrite Hp. }
  rewrite Hstep. repeat split.
  - apply render_agentMessage.
  - now apply render_displayed.
  - apply render_element.
Qed.

(** C6.  The sentinel line changes nothing and does not end the loop: the
    lines after it in the same read and the reads after it are processed as
    if it were not there, and the loop ends only when a read reports the end
    of the stream.  A delta that follows the sentinel is still appended; a
    stream that stops answering after the sentinel leaves the call pending. *)
Theorem C6_sentinel_does_not_end_the_loop :
  (forall (st : Loop), process_line engine st "data: [DONE]" = st)
  /\ (forall (st : Loop) (before after : string),
         process_chunk engine st
           (before ++ String newline ("data: [DONE]" ++ String newline after))
         = process_chunk engine st (before ++ String newline after))
  /\ (forall (st : Loop) (rest : list Read),
         read_loop engine st (Chunk ("data: [DONE]" ++ lf) :: rest)
         = read_loop engine st rest)
  /\ (forall (st : Loop) (reads : list Read),
         snd (read_loop engine st reads) = Fulfilled tt -> In Done reads)
  /\ (forall (c : Chat) (message : string) (imgs : list string) (status : nat),
         let after := sendToAPI_loop engine c message imgs
                        (Response true status
                           (Some [Chunk ("data: [DONE]" ++ lf);
                                  Chunk (content_frame "X" ++ lf); Done])) in
         let silent := sendToAPI_loop engine c message imgs
                         (Response true status
                            (Some [Chunk ("data: [DONE]" ++ lf)])) in
         agentMessage (fst after) = "X" /\ snd after = Fulfilled tt
         /\ snd silent = Pending).
Proof.
  split; [|split; [|split; [|split]]].
  - reflexivity.
  - intros st before after.
    rewrite <- !process_chunk_boundary. reflexivity.
  - reflexivity.
  - intros st reads. apply read_loop_fulfilled.
  - intros c message imgs status after silent. subst after silent.
    split; [|split].
    + destruct (sendToAPI_loop_ok c message imgs status
                  [Chunk ("data: [DONE]" ++ lf);
                   Chunk (content_frame "X" ++ lf); Done]) as (Ha & _).
      rewrite Ha, read_loop_agentMessage. vm_compute. reflexivity.
    + destruct (sendToAPI_loop_ok c message imgs status
                  [Chunk ("data: [DONE]" ++ lf);
                   Chunk (content_frame "X" ++ lf); Done])
        as (_ & _ & _ & _ & Hs).
      rewrite Hs. reflexivity.
    + destruct (sendToAPI_loop_ok c message imgs status
                  [Chunk ("data: [DONE]" ++ lf)]) as (_ & _ & _ & _ & Hs).
      rewrite Hs. reflexivity.
Qed.

(** C10.  A line with the prefix whose payload parses as a JSON object with
    no truthy [content] member appends nothing: the accumulator is unchanged,
    the text the line contributes is empty, and the agent message on the page
    still shows the unchanged accumulated text. *)
Theorem C10_object_without_content_appends_nothing
    (st : Loop) (data : string) (members : list (string * Value)) :
  JSON.parse data = Some (Object members) ->
  ToBoolean engine
    (match lookup "content" members with Some x => x | None => Undefined end)
  = false ->
  let st' := process_line engine st ("data: " ++ data) in
  agentMessage st' = agentMessage st
  /\ appended engine ("data: " ++ data) = ""
  /\ (displayed st -> displayed st').
Proof.
  intros Hp Hc st'. subst st'.
  destruct (data_line data) as [H1 H2].
  assert (Hs : (data =? "[DONE]")%string = false).
  { apply String.eqb_neq. intros ->. vm_compute in Hp. discriminate. }
  assert (Ht : forall acc, try_append engine acc data = Some acc).
  { intros acc. unfold try_append. rewrite Hp. cbn [Get]. now rewrite Hc. }
  repeat split.
  - unfold process_line. rewrite H1, H2, Hs, Ht. apply render_agentMessage.
  - unfold appended. now rewrite H1, H2, Hs, Ht.
  - intros Hd. now apply process_line_displayed.
Qed.

End Claims.

(** The round trip, by the rule for streams of deltas. *)
Lemma C1_round_trip_witness :
  let r := sendToAPI_loop canonical_numbers idle "hello" []
             (Response true 200 (Some (delta_stream ["A"; "B"]))) in
  agentMessage (fst r) = "AB" /\ snd r = Fulfilled tt.
Proof.
  cbv zeta.
  apply (proj1 (proj2 (C1_accumulated_text_is_concatenation canonical_numbers))
           idle "hello" []
           200 ["A"; "B"]).
  reflexivity.
Defined.

(** C2, as the claim has it, fails: the frame delivered in two reads leaves
    the fragment before the cut as the accumulated text, where the same bytes
    in one read leave [hi]. *)
Lemma C2_split_frame_counterexample :
  let run reads :=
    agentMessage
      (fst (sendToAPI_loop canonical_numbers idle "hello" []
              (Response true 200 (Some reads)))) in
  (first_half ++ second_half)%string = (content_frame "hi" ++ lf)%string
  /\ run [Chunk (first_half ++ second_half); Done] = "hi"
  /\ run [Chunk first_half; Chunk second_half; Done]
     = ("{" ++ String JSON.dquote "cont")%string
  /\ run [Chunk first_half; Chunk second_half; Done] <> "hi".
Proof. cbv zeta. repeat split. vm_compute. discriminate. Qed.

(** Two reads that each hold a whole line with its newline are processed as
    one read of the two lines. *)
Lemma C2_whole_lines_witness :
  let chunks := [content_frame "A" ++ lf; content_frame "B" ++ lf]%string in
  read_loop canonical_numbers (started idle "hello" [])
    (map Chunk chunks ++ [Done])
  = read_loop canonical_numbers (started idle "hello" [])
      [Chunk (String.concat "" chunks); Done].
Proof.
  cbv zeta.
  apply (proj1 (proj2 (C2_read_boundary_is_line_break canonical_numbers))).
  reflexivity.
Defined.

(** The round trip ends normally, and it holds the end of the stream. *)
Lemma C6_normal_end_witness : In Done round_trip.
Proof.
  apply (proj1 (proj2 (proj2 (proj2
           (C6_sentinel_does_not_end_the_loop canonical_numbers))))
           (started idle "hello" []) round_trip).
  reflexivity.
Defined.

(** C4, as the claim has it, fails on the sentinel: [[DONE]] is not JSON, and
    the line that carries it appends nothing. *)
Lemma C4_sentinel_counterexample :
  let st := started idle "hello" [] in
  JSON.parse "[DONE]" = None
  /\ agentMessage (process_line canonical_numbers st "data: [DONE]") = ""
  /\ agentMessage (process_line canonical_numbers st "data: [DONE]")
     <> (agentMessage st ++ "[DONE]")%string.
Proof. cbv zeta. repeat split. vm_compute. discriminate. Qed.

(** The frame [data: not-json] is appended as the text [not-json]. *)
Lemma C4_not_json_witness :
  let st := started idle "hello" [] in
  let st' := process_line canonical_numbers st "data: not-json" in
  agentMessage st' = "not-json" /\ displayed st' /\ messageElement st' <> None.
Proof.
  cbv zeta.
  apply (C4_unparsable_payload_is_appended canonical_numbers
           (started idle "hello" []) "not-json").
  - reflexivity.
  - discriminate.
  - vm_compute. reflexivity.
Defined.

(** The frames whose payload is the object with the one member [done], set
    to [true], and the object whose [content] is the empty string, append
    nothing. *)
Lemma C10_done_frame_witness :
  let st := started idle "hello" [] in
  let done := member "done" "true" in
  let empty := member "content" (quoted "") in
  (agentMessage (process_line canonical_numbers st ("data: " ++ done)) = ""
   /\ appended canonical_numbers ("data: " ++ done) = ""
   /\ (displayed st ->
       displayed (process_line canonical_numbers st ("data: " ++ done))))
  /\ (agentMessage (process_line canonical_numbers st ("data: " ++ empty)) = ""
      /\ appended canonical_numbers ("data: " ++ empty) = ""
      /\ (displayed st ->
          displayed (process_line canonical_numbers st ("data: " ++ empty)))).
Proof.
  cbv zeta. split.
  - apply (C10_object_without_content_appends_nothing canonical_numbers
             (started idle "hello" []) (member "done" "true")
             [("done", Boolean true)]).
    + vm_compute. reflexivity.
    + reflexivity.
  - apply (C10_object_without_content_appends_nothing canonical_numbers
             (started idle "hello" []) (member "content" (quoted ""))
             [("content", Str "")]).
    + vm_compute. reflexivity.
    + reflexivity.
Defined.

End StreamingConsumer.

(** ** [sendMessage] *)

Module SendMessage.

Import JS.

Section Faramex.

Import FaramexChat StreamingConsumer.

Variable engine : Engine.


Lemma faramex_silence (c : Chat) (status : nat) (reads : list Read) :
  nothing_to_send c = false ->
  forallb is_silence reads = true ->
  let r := sendMessage engine c (Response true status (Some reads)) in
  snd r = Pending
  /\ typingIndicator_display (fst r) = none
  /\ chatMessages (fst r)
     = chatMessages c
       ++ [{| sender := user; content := trim (messageInput_value c);
              images := uploadImages c |}]
  /\ List.length (requests (fst r)) = S (List.length (requests c)).
Proof.
  intros Hg Hs. unfold nothing_to_send in Hg. cbv zeta.
  unfold sendMessage. rewrite Hg. unfold sendToAPI, sendToAPI_loop.
  rewrite (read_loop_only_silence engine reads _ Hs). cbn.
  repeat split. rewrite length_app. cbn. lia.
Qed.

Lemma faramex_still_open (c : Chat) (status : nat) (reads : list Read) :
  nothing_to_send c = false ->
  forallb still_open reads = true ->
  let r := sendMessage engine c (Response true status (Some reads)) in
  snd r = Pending /\ typingIndicator_display (fst r) = none.
Proof.
  intros Hg Hs. unfold nothing_to_send in Hg. cbv zeta.
  unfold sendMessage. rewrite Hg. unfold sendToAPI, sendToAPI_loop.
  match goal with
  | |- context [read_loop engine ?st0 reads] =>
      pose proof (read_loop_frame engine reads st0) as (Ht & _);
      pose proof (read_loop_still_open engine reads st0 Hs) as Hp;
      destruct (read_loop engine st0 reads) as [st p]
  end.
  cbn [fst snd this] in *. subst p. cbn [fst snd]. split; [reflexivity|].
  exact Ht.
Qed.

(** While [fetch] has not answered, the indicator put up by [sendMessage]
    stays up. *)
Lemma faramex_no_answer (c : Chat) :
  nothing_to_send c = false ->
  let r := sendMessage engine c FetchPending in
  snd r = Pending /\ typingIndicator_display (fst r) = flex.
Proof.
  intros Hg. unfold nothing_to_send in Hg. cbv zeta.
  unfold sendMessage. rewrite Hg. split; reflexivity.
Qed.

Lemma faramex_nothing_to_send (c : Chat) (response : Fetch) :
  trim (messageInput_value c) = "" ->
  attachedImages c = [] ->
  sendMessage engine c response = (c, Fulfilled tt).
Proof. intros Hm Hi. unfold sendMessage. now rewrite Hm, Hi. Qed.

End Faramex.

Section Proma.

Import PromaDashboard.

Variable engine : Engine.
Variable variant : Variant.

Lemma count_typing_app (a b : list Node) :
  count_typing (a ++ b) = count_typing a + count_typing b.
Proof. unfold count_typing. now rewrite filter_app, length_app. Qed.

Lemma count_typing_remove (l : list Node) :
  count_typing (remove_typing l) = pred (count_typing l).
Proof.
  unfold count_typing. induction l as [|n l IH]; [reflexivity|].
  cbn [remove_typing filter]. destruct (is_typing n) eqn:E; [reflexivity|].
  cbn [filter]. now rewrite E.
Qed.






(** While [fetch] has not answered, the indicators put up by [sendMessage]
    stay up. *)
Lemma proma_no_answer (d : Dashboard) :
  nothing_to_send d = false ->
  count_typing (chatMessages d) <= 1 ->
  let r := sendMessage engine variant d FetchPending in
  snd r = Pending
  /\ count_typing (chatMessages (fst r)) = 1
  /\ aiThinking_hidden (fst r) = false.
Proof.
  intros Hg Hc. unfold nothing_to_send in Hg. cbv zeta.
  unfold sendMessage. rewrite Hg. cbn -[count_typing].
  split; [reflexivity|]. split; [|reflexivity].
  rewrite count_typing_app, count_typing_remove, count_typing_app.
  cbn. lia.
Qed.

Lemma proma_nothing_to_send (d : Dashboard) (response : Fetch) :
  trim (messageInput_value d) = "" ->
  attachedImages d = [] ->
  sendMessage engine variant d response = (d, Fulfilled tt).
Proof. intros Hm Hi. unfold sendMessage. now rewrite Hm, Hi. Qed.

End Proma.


Import FaramexChat.

(** C3, as the code has it.  Once the response has arrived the typing
    indicator is hidden, before the body is read, and time without data then
    changes nothing wherever it falls in the stream.  A body that stays
    silent, for 30 seconds or for any other length of time, leaves the call
    pending: the request has been sent, the user message is the only one
    added and no failure is shown.  The same holds after any number of
    chunks: as long as no read reports the end of the stream or fails, the
    call is pending and the indicator hidden. *)
Theorem C3_silence_leaves_the_call_pending (engine : Engine) :
  (forall (st : Loop) (before after : list Read) (ms : N),
      read_loop engine st (before ++ Silence ms :: after)
      = read_loop engine st (before ++ after))
  /\ (forall (c : Chat) (status : nat) (reads : list Read),
         nothing_to_send c = false ->
         forallb is_silence reads = true ->
         let r := sendMessage engine c (Response true status (Some reads)) in
         snd r = Pending
         /\ typingIndicator_display (fst r) = none
         /\ chatMessages (fst r)
            = chatMessages c
              ++ [{| sender := user; content := trim (messageInput_value c);
                     images := uploadImages c |}]
         /\ List.length (requests (fst r)) = S (List.length (requests c)))
  /\ (forall (c : Chat) (status : nat) (reads : list Read),
         nothing_to_send c = false ->
         forallb still_open reads = true ->
         let r := sendMessage engine c (Response true status (Some reads)) in
         snd r = Pending /\ typingIndicator_display (fst r) = none).
Proof.
  split; [|split].
  - intros st before after ms. apply StreamingConsumer.read_loop_silence.
  - intros c status reads Hg Hs. now apply faramex_silence.
  - intros c status reads Hg Hs. now apply faramex_still_open.
Qed.

Lemma C3_silence_witness :
  let r := sendMessage canonical_numbers idle
             (Response true 200 (Some [Silence 30000; Silence 30000])) in
  snd r = Pending
  /\ typingIndicator_display (fst r) = none
  /\ chatMessages (fst r)
     = [{| sender := user; content := "hello"; images := [] |}]
  /\ List.length (requests (fst r)) = 1.
Proof.
  cbv zeta.
  apply (proj1 (proj2 (C3_silence_leaves_the_call_pending canonical_numbers))
           idle 200 [Silence 30000; Silence 30000]); reflexivity.
Defined.

(** C3, as the claim has it, fails: after 30 seconds without a byte of the
    body the call is still pending and the chat holds the user message only,
    no failure message. *)
Lemma C3_timeout_counterexample :
  let r := sendMessage canonical_numbers idle
             (Response true 200 (Some [Silence 30000])) in
  snd r = Pending
  /\ snd r <> Fulfilled tt
  /\ chatMessages (fst r)
     = [{| sender := user; content := "hello"; images := [] |}].
Proof. cbv zeta. repeat split. discriminate. Qed.



(** C7.  When the trimmed input is empty and no image is attached,
    [sendMessage] returns at once and leaves the whole state as it was: no
    request is logged, no message is added, no indicator is shown and the
    input is untouched.  This holds in FaramexChat and in every copy of
    PromaDashboard. *)
Theorem C7_nothing_to_send_changes_nothing (engine : Engine) :
  (forall (c : Chat) (response : Fetch),
      trim (messageInput_value c) = "" ->
      attachedImages c = [] ->
      sendMessage engine c response = (c, Fulfilled tt))
  /\ (forall (variant : PromaDashboard.Variant) (d : PromaDashboard.Dashboard)
             (response : PromaDashboard.Fetch),
         trim (PromaDashboard.messageInput_value d) = "" ->
         PromaDashboard.attachedImages d = [] ->
         PromaDashboard.sendMessage engine variant d response
         = (d, Fulfilled tt)).
Proof.
  split.
  - intros c response. apply faramex_nothing_to_send.
  - intros variant d response. apply proma_nothing_to_send.
Qed.

Lemma C7_blank_input_witness :
  sendMessage canonical_numbers blank (Response true 200 (Some round_trip))
  = (blank, Fulfilled tt)
  /\ PromaDashboard.sendMessage canonical_numbers
       PromaDashboard.dashboard_script PromaDashboard.blank
       PromaDashboard.FetchRejected
     = (PromaDashboard.blank, Fulfilled tt).
Proof.
  destruct (C7_nothing_to_send_changes_nothing canonical_numbers) as [F P].
  split.
  - apply F; reflexivity.
  - apply P; reflexivity.
Defined.

End SendMessage.

(** ** [formatMessage] *)

Module FormattingFacts.

Import JS Formatting.

Lemma prefix_split (p s : string) :
  String.prefix p s = true -> s = (p ++ slice (String.length p) s)%string.
Proof.
  revert s; induction p as [|a p IH]; intros [|c s]; cbn; try congruence.
  destruct (ascii_dec a c) as [->|]; [|congruence].
  intros H; f_equal; auto.
Qed.

Lemma prefix_app (p s : string) : String.prefix p (p ++ s) = true.
Proof.
  induction p as [|a p IH]; cbn; [now destruct s|].
  destruct (ascii_dec a a); [exact IH | congruence].
Qed.

Lemma slice_app (p s : string) : slice (String.length p) (p ++ s) = s.
Proof. induction p; cbn; auto. Qed.

Lemma prefix_cons (a c : ascii) (p r : string) :
  String.prefix (String a p) (String c r) = Ascii.eqb a c && String.prefix p r.
Proof.
  cbn [String.prefix]. destruct (ascii_dec a c) as [->|n].
  - now rewrite Ascii.eqb_refl.
  - apply Ascii.eqb_neq in n. now rewrite n.
Qed.

Lemma prefix_empty (r : string) : String.prefix "" r = true.
Proof. now destruct r. Qed.

Lemma prefix_head (o c : ascii) (p r : string) :
  Ascii.eqb c o = false -> String.prefix (String o p) (String c r) = false.
Proof.
  intros H; cbn. destruct (ascii_dec o c) as [->|]; [|reflexivity].
  now rewrite Ascii.eqb_refl in H.
Qed.

(** A character that does not occur in [t] cannot complete a match of [t]. *)
Lemma prefix_before (t s z : string) (x : ascii) :
  without x t = true ->
  String.prefix t (s ++ String x z) = String.prefix t s.
Proof.
  revert s; induction t as [|a t IH]; intros s H.
  - now destruct s.
  - cbn in H. apply andb_true_iff in H as [Ha Ht].
    destruct s as [|c s]; cbn.
    + destruct (ascii_dec a x) as [->|]; [|reflexivity].
      now rewrite Ascii.eqb_refl in Ha.
    + destruct (ascii_dec a c); [|reflexivity]. now apply IH.
Qed.

Lemma without_app (x : ascii) (a b : string) :
  without x (a ++ b) = without x a && without x b.
Proof.
  unfold without. induction a as [|c a IH]; cbn; [reflexivity|].
  fold (list_ascii_of_string (a ++ b)). rewrite IH. apply andb_assoc.
Qed.

Lemma without_slice (x : ascii) (n : nat) (s : string) :
  without x s = true -> without x (slice n s) = true.
Proof.
  revert s; induction n as [|n IH]; intros [|c s]; cbn; auto.
  intros H. apply andb_true_iff in H as [_ H]. now apply IH.
Qed.

Lemma slice_length (n : nat) (s : string) :
  String.length (slice n s) <= String.length s.
Proof.
  revert s; induction n as [|n IH]; intros [|c s]; cbn; auto.
Qed.

Lemma append_length (a b : string) :
  String.length (a ++ b) = String.length a + String.length b.
Proof. induction a; cbn; auto. Qed.

Lemma lazy_until_parts (close s inner after : string) :
  lazy_until close s = Some (inner, after) ->
  s = (inner ++ close ++ after)%string.
Proof.
  revert inner; induction s as [|c r IH]; intros inner; cbn [lazy_until].
  - destruct (String.prefix close "") eqn:P; [|discriminate].
    intros [= <- <-]. now apply prefix_split.
  - destruct (String.prefix close (String c r)) eqn:P.
    + intros [= <- <-]. now apply prefix_split.
    + destruct (at_line_terminator (String c r)); [discriminate|].
      destruct (lazy_until close r) as [[i a]|]; [|discriminate].
      intros [= <- <-]. cbn. f_equal. now apply IH.
Qed.

Lemma lazy_until_step (close : string) (c : ascii) (r inner after : string) :
  String.prefix close (String c r) = false ->
  at_line_terminator (String c r) = false ->
  lazy_until close r = Some (inner, after) ->
  lazy_until close (String c r) = Some (String c inner, after).
Proof. intros P T L. cbn [lazy_until]. now rewrite P, T, L. Qed.

Lemma at_line_terminator_before (s z : string) (x : ascii) :
  forallb (without x) line_terminators = true ->
  at_line_terminator (s ++ String x z) = at_line_terminator s.
Proof.
  unfold at_line_terminator. induction line_terminators as [|t l IH]; cbn.
  - reflexivity.
  - intros H. apply andb_true_iff in H as [Ht Hl].
    now rewrite prefix_before, IH.
Qed.

(** The lazy group stops at the first closing delimiter when the text before
    it has neither its first character nor a line terminator. *)
Lemma lazy_until_found (x : ascii) (close inner after : string) :
  forallb (without x) line_terminators = true ->
  inline inner = true ->
  without x inner = true ->
  lazy_until (String x close) (inner ++ String x close ++ after)
  = Some (inner, after).
Proof.
  intros Hx. induction inner as [|c r IH]; intros Hi Hw.
  - change ("" ++ String x close ++ after)%string
      with (String x close ++ after)%string.
    assert (P := prefix_app (String x close) after).
    assert (E := slice_app (String x close) after).
    cbn [append] in *. cbn [lazy_until]. destruct after; cbn [lazy_until];
      rewrite P, E; reflexivity.
  - cbn [inline] in Hi. apply andb_true_iff in Hi as [Ht Hi].
    apply negb_true_iff in Ht.
    cbn in Hw. apply andb_true_iff in Hw as [Hc Hw].
    apply negb_true_iff in Hc.
    cbn [append lazy_until].
    rewrite (prefix_head x c close _ Hc).
    change (String c (r ++ String x (close ++ after)))
      with (String c r ++ String x (close ++ after))%string.
    rewrite (at_line_terminator_before _ _ _ Hx), Ht.
    cbn [append]. cbn [append] in IH. now rewrite (IH Hi Hw).
Qed.

Section Replace.

Variables (o : ascii) (open' close pre post : string).

Let open := String o open'.

Let rd (f : nat) := replace_delimited f open close pre post.

Lemma replace_fuel (f1 f2 : nat) (s : string) :
  String.length s <= f1 -> String.length s <= f2 -> rd f1 s = rd f2 s.
Proof.
  revert f2 s; induction f1 as [|f1 IH]; intros f2 s H1 H2.
  - destruct s; [|cbn in H1; lia]. now destruct f2.
  - destruct f2 as [|f2]; [destruct s; [reflexivity | cbn in H2; lia]|].
    destruct s as [|c r]; [reflexivity|].
    cbn in H1, H2. unfold rd. cbn [replace_delimited].
    fold (rd f1) (rd f2).
    rewrite (IH f2 r) by lia.
    destruct (String.prefix open (String c r)); [|reflexivity].
    destruct (lazy_until close _) as [[inner after]|] eqn:L; [|reflexivity].
    apply lazy_until_parts in L.
    assert (String.length after <= String.length r).
    { assert (E := f_equal String.length L).
      rewrite !append_length in E.
      unfold open in E. cbn [String.length slice] in E.
      assert (S := slice_length (String.length open') r). lia. }
    rewrite (IH f2 after) by lia. reflexivity.
Qed.

Let rp (s : string) := rd (String.length s) s.

Lemma replace_keep (c : ascii) (r : string) :
  Ascii.eqb c o = false -> rp (String c r) = String c (rp r).
Proof.
  intros H. unfold rp, rd. cbn [String.length replace_delimited].
  unfold open. now rewrite (prefix_head o c open' r H).
Qed.

Lemma replace_skip (a s : string) :
  without o a = true -> rp (a ++ s) = (a ++ rp s)%string.
Proof.
  induction a as [|c a IH]; intros H; [reflexivity|].
  cbn in H. apply andb_true_iff in H as [Hc Ha].
  apply negb_true_iff in Hc.
  cbn [append]. rewrite (replace_keep _ _ Hc). f_equal. now apply IH.
Qed.

Lemma replace_match (s inner after : string) :
  String.prefix open s = true ->
  lazy_until close (slice (String.length open) s) = Some (inner, after) ->
  rp s = (pre ++ inner ++ post ++ rp after)%string.
Proof.
  intros P L. unfold rp, rd. destruct s as [|c r]; [discriminate|].
  cbn [String.length replace_delimited]. rewrite P, L.
  do 3 f_equal. apply replace_fuel; [|lia].
  apply lazy_until_parts in L.
  assert (E := f_equal String.length L). rewrite !append_length in E.
  unfold open in E. cbn [String.length slice] in E.
  assert (S := slice_length (String.length open') r). lia.
Qed.

Lemma replace_without (z : ascii) (f : nat) (s : string) :
  without z pre = true -> without z post = true ->
  without z s = true -> without z (rd f s) = true.
Proof.
  intros Hpre Hpost. revert s; induction f as [|f IH]; intros s H; [exact H|].
  destruct s as [|c r]; [reflexivity|].
  unfold rd. cbn [replace_delimited]. fold (rd f).
  assert (Hr : without z (String c (rd f r)) = true).
  { cbn in H |- *. apply andb_true_iff in H as [Hc Hr].
    fold (list_ascii_of_string (rd f r)). fold (without z (rd f r)).
    rewrite Hc. cbn. now apply IH. }
  destruct (String.prefix open (String c r)); [|exact Hr].
  destruct (lazy_until close _) as [[inner after]|] eqn:L; [|exact Hr].
  apply lazy_until_parts in L.
  assert (W := without_slice z (String.length open) _ H).
  rewrite L, !without_app in W.
  apply andb_true_iff in W as [Wi W]. apply andb_true_iff in W as [_ Wa].
  rewrite !without_app, Hpre, Wi, Hpost. cbn. now apply IH.
Qed.

End Replace.

Lemma replace_char_without (c : ascii) (by_ s : string) :
  without c by_ = true -> without c (replace_char c by_ s) = true.
Proof.
  intros H. induction s as [|x r IH]; [reflexivity|].
  cbn [replace_char]. destruct (Ascii.eqb x c) eqn:E.
  - now rewrite without_app, H.
  - cbn. rewrite E. exact IH.
Qed.

Lemma replace_char_skip (c : ascii) (by_ a s : string) :
  without c a = true ->
  replace_char c by_ (a ++ s) = (a ++ replace_char c by_ s)%string.
Proof.
  induction a as [|x a IH]; intros H; [reflexivity|].
  cbn in H. apply andb_true_iff in H as [Hx Ha]. apply negb_true_iff in Hx.
  cbn [append replace_char]. rewrite Hx. f_equal. now apply IH.
Qed.

End FormattingFacts.

Module FormatMessage.

Import JS Formatting FormattingFacts.

Lemma markers_are_no_terminators :
  forallb (without star) line_terminators = true
  /\ forallb (without backtick) line_terminators = true.
Proof. split; reflexivity. Qed.

Lemma pairs_skip (o : ascii) (d pre post a s : string) :
  without o a = true ->
  replace_pairs (String o d) pre post (a ++ s)
  = (a ++ replace_pairs (String o d) pre post s)%string.
Proof. apply replace_skip. Qed.

Lemma pairs_keep (o : ascii) (d pre post : string) (c : ascii) (r : string) :
  String.prefix (String o d) (String c r) = false ->
  replace_pairs (String o d) pre post (String c r)
  = String c (replace_pairs (String o d) pre post r).
Proof.
  intros P. unfold replace_pairs.
  cbn [String.length replace_delimited]. now rewrite P.
Qed.

Lemma pairs_match (o : ascii) (d pre post inner s : string) :
  forallb (without o) line_terminators = true ->
  inline inner = true ->
  without o inner = true ->
  replace_pairs (String o d) pre post
    (String o d ++ inner ++ String o d ++ s)
  = (pre ++ inner ++ post ++ replace_pairs (String o d) pre post s)%string.
Proof.
  intros Ho Hi Hw. unfold replace_pairs.
  apply (replace_match o d (String o d) pre post).
  - apply prefix_app.
  - rewrite slice_app. now apply lazy_until_found.
Qed.

Section Passes.

Variable code : string.

Let strong := replace_pairs "**" "<strong>" "</strong>".
Let em := replace_pairs "*" "<em>" "</em>".
Let in_code := replace_pairs (String backtick "") code "</code>".
Let br := replace_char (byte 10) "<br>".

Lemma format_passes (text : string) :
  formatMessage_with code text = in_code (em (strong (br text))).
Proof. reflexivity. Qed.

Lemma markup_free_inv (a : string) :
  markup_free a = true ->
  without (byte 10) a = true /\ without star a = true
  /\ without backtick a = true.
Proof.
  unfold markup_free. intros H.
  apply andb_true_iff in H as [H H3]. apply andb_true_iff in H as [H1 H2].
  auto.
Qed.

Lemma format_plain (a b : string) :
  markup_free a = true ->
  formatMessage_with code (a ++ b) = (a ++ formatMessage_with code b)%string.
Proof.
  intros H. apply markup_free_inv in H as (H1 & H2 & H3).
  unfold star, backtick in *.
  rewrite !format_passes. unfold br, strong, em, in_code.
  rewrite replace_char_skip by exact H1.
  now rewrite !pairs_skip.
Qed.

Lemma format_newline (rest : string) :
  formatMessage_with code (String (byte 10) rest)
  = ("<br>" ++ formatMessage_with code rest)%string.
Proof.
  rewrite !format_passes. unfold br at 1. cbn [replace_char].
  rewrite Ascii.eqb_refl. fold br. unfold strong, em, in_code.
  now rewrite !pairs_skip.
Qed.

Lemma format_strong (inner rest : string) :
  markup_free inner = true -> inline inner = true ->
  formatMessage_with code ("**" ++ inner ++ "**" ++ rest)
  = ("<strong>" ++ inner ++ "</strong>" ++ formatMessage_with code rest)%string.
Proof.
  intros H Hi. apply markup_free_inv in H as (H1 & H2 & H3).
  unfold star, backtick in *.
  rewrite !format_passes. unfold br.
  rewrite (replace_char_skip _ _ "**") by reflexivity.
  rewrite replace_char_skip by exact H1.
  rewrite (replace_char_skip _ _ "**") by reflexivity.
  fold br. unfold strong.
  rewrite pairs_match by (auto; reflexivity).
  fold strong. unfold em.
  rewrite <- !append_assoc.
  rewrite pairs_skip by (now rewrite !without_app, H2).
  fold em. unfold in_code.
  rewrite pairs_skip by (now rewrite !without_app, H3).
  now rewrite !append_assoc.
Qed.

Lemma format_code (inner rest : string) :
  markup_free inner = true -> inline inner = true ->
  formatMessage_with code
    (String backtick inner ++ String backtick rest)
  = (code ++ inner ++ "</code>" ++ formatMessage_with code rest)%string.
Proof.
  intros H Hi. apply markup_free_inv in H as (H1 & H2 & H3).
  unfold star, backtick in *.
  rewrite !format_passes. unfold br.
  rewrite replace_char_skip
    by (cbn; fold (list_ascii_of_string inner); exact H1).
  cbn [replace_char]. change (Ascii.eqb "`"%char (byte 10)) with false.
  cbv iota. fold br. unfold strong, em.
  rewrite !pairs_skip
    by (cbn; fold (list_ascii_of_string inner); exact H2).
  rewrite (pairs_keep "*"%char "*") by reflexivity.
  rewrite (pairs_keep "*"%char "") by reflexivity.
  fold strong em. unfold in_code.
  change (String "`" inner ++ String "`" (em (strong (br rest))))%string
    with ("`" ++ inner ++ "`" ++ em (strong (br rest)))%string.
  now rewrite pairs_match.
Qed.

Lemma br_head (rest : string) :
  String.prefix "*" rest = false -> String.prefix "*" (br rest) = false.
Proof.
  destruct rest as [|c r]; [reflexivity|].
  unfold br; cbn [replace_char]. destruct (Ascii.eqb c (byte 10)); auto.
  now rewrite !prefix_cons, !prefix_empty.
Qed.

Lemma format_em (inner rest : string) :
  markup_free inner = true -> inline inner = true ->
  inner <> "" -> String.prefix "*" rest = false ->
  formatMessage_with code ("*" ++ inner ++ "*" ++ rest)
  = ("<em>" ++ inner ++ "</em>" ++ formatMessage_with code rest)%string.
Proof.
  intros H Hi Hne Hrest. apply markup_free_inv in H as (H1 & H2 & H3).
  unfold star, backtick in *.
  rewrite !format_passes. unfold br.
  rewrite (replace_char_skip _ _ "*") by reflexivity.
  rewrite replace_char_skip by exact H1.
  rewrite (replace_char_skip _ _ "*") by reflexivity.
  fold br. apply br_head in Hrest.
  assert (E : strong ("*" ++ inner ++ "*" ++ br rest)
              = ("*" ++ inner ++ "*" ++ strong (br rest))%string).
  { unfold strong. destruct inner as [|i r]; [congruence|].
    cbn in H2. apply andb_true_iff in H2 as [Hc H2].
    apply negb_true_iff in Hc.
    cbn [append]. rewrite pairs_keep.
    2:{ now rewrite !prefix_cons, (Ascii.eqb_sym _ i), Hc. }
    f_equal.
    change (String i (r ++ String "*"%char (br rest)))
      with (String i r ++ String "*"%char (br rest))%string.
    rewrite pairs_skip.
    2:{ cbn. now rewrite Hc. }
    f_equal. rewrite pairs_keep; [reflexivity|].
    now rewrite prefix_cons, Hrest. }
  rewrite E. unfold em. rewrite pairs_match by (auto; reflexivity).
  fold em. unfold in_code.
  rewrite <- !append_assoc.
  rewrite pairs_skip by (now rewrite !without_app, H3).
  now rewrite !append_assoc.
Qed.

(** Three stars on each side of a text give tags that are not nested
    (script.js, lines 327-334; dashboard-script.js, lines 327-333): the
    strong pair takes the outer two stars on each side, and the emphasis pair
    then runs from the star left inside to the star left after the closing
    tag, so the strong element is closed before the emphasis element opened
    inside it.  The inner text is not empty and has no newline, star,
    backtick or line terminator, and no star follows. *)
Theorem formatMessage_three_stars_cross_the_tags (inner rest : string) :
  markup_free inner = true -> inline inner = true ->
  inner <> "" -> String.prefix "*" rest = false ->
  formatMessage_with code ("***" ++ inner ++ "***" ++ rest)
  = ("<strong><em>" ++ inner ++ "</strong></em>"
     ++ formatMessage_with code rest)%string.
Proof.
  intros H Hi Hne Hrest. apply markup_free_inv in H as (H1 & H2 & H3).
  unfold star, backtick in *.
  rewrite !format_passes. unfold br.
  rewrite (replace_char_skip _ _ "***") by reflexivity.
  rewrite replace_char_skip by exact H1.
  rewrite (replace_char_skip _ _ "***") by reflexivity.
  fold br. apply br_head in Hrest.
  assert (E : strong ("***" ++ inner ++ "***" ++ br rest)
              = ("<strong>*" ++ inner ++ "</strong>*" ++ strong (br rest))%string).
  { unfold strong, replace_pairs at 1.
    rewrite (replace_match "*"%char "*" "**" "<strong>" "</strong>" _
               ("*" ++ inner) ("*" ++ br rest)).
    - fold (replace_pairs "**" "<strong>" "</strong>" ("*" ++ br rest)).
      cbn [append]. rewrite pairs_keep; [reflexivity|].
      now rewrite prefix_cons, Hrest.
    - reflexivity.
    - cbn [String.length slice append].
      apply lazy_until_step.
      + destruct inner as [|i r]; [congruence|].
        cbn in H2. apply andb_true_iff in H2 as [Hc H2].
        apply negb_true_iff in Hc.
        cbn [append]. now rewrite !prefix_cons, (Ascii.eqb_sym _ i), Hc.
      + reflexivity.
      + change (inner ++ String "*" (String "*" (String "*" (br rest))))%string
          with (inner ++ String "*" "*" ++ String "*" (br rest))%string.
        now apply lazy_until_found. }
  rewrite E. unfold em.
  change ("<strong>*" ++ inner ++ "</strong>*" ++ strong (br rest))%string
    with ("<strong>" ++ "*" ++ inner ++ "</strong>" ++ "*"
          ++ strong (br rest))%string.
  rewrite (pairs_skip "*"%char "" _ _ "<strong>") by reflexivity.
  rewrite <- (append_assoc inner).
  rewrite pairs_match.
  2: reflexivity.
  2:{ clear E. induction inner as [|i r IH]; [reflexivity|].
      cbn [inline append] in *.
      apply andb_true_iff in Hi as [Ht Hi]. apply andb_true_iff.
      cbn in H1, H2, H3.
      apply andb_true_iff in H1 as [_ H1]. apply andb_true_iff in H2 as [_ H2].
      apply andb_true_iff in H3 as [_ H3].
      split.
      - change (String i (r ++ "</strong>"))
          with (String i r ++ String "<" "/strong>")%string.
        rewrite at_line_terminator_before; [exact Ht | reflexivity].
      - destruct r as [|j r']; [reflexivity|].
        apply IH; auto. congruence. }
  2:{ now rewrite without_app, H2. }
  fold em. unfold in_code.
  rewrite <- !append_assoc.
  rewrite pairs_skip by (now rewrite !without_app, H3).
  now rewrite !append_assoc.
Qed.

Lemma format_without_newline (text : string) :
  without (byte 10) code = true ->
  without (byte 10) (formatMessage_with code text) = true.
Proof.
  intros H. rewrite format_passes. unfold in_code, em, strong, replace_pairs.
  repeat (apply replace_without; try reflexivity; try exact H).
  now apply replace_char_without.
Qed.

End Passes.

End FormatMessage.

Module FormatExtras.

Import JS Formatting FormattingFacts FormatMessage.

(** The text [formatMessage] returns (script.js, lines 327-334;
    dashboard-script.js, lines 327-333) holds no newline, whatever the text it
    is given: the first replacement turns every newline into a line-break
    tag, and no later replacement brings one back. *)
Theorem formatMessage_leaves_no_newline (text : string) :
  without (byte 10) (Faramex.formatMessage text) = true
  /\ without (byte 10) (Proma.formatMessage text) = true.
Proof.
  split; apply format_without_newline; reflexivity.
Qed.

(** [formatMessage] escapes nothing: a text without newline, star and
    backtick is returned as it is, angle brackets, ampersands and quotes
    included, and at the front of a longer text it is kept while the rest is
    formatted on its own.  The code tag is the one of either copy. *)
Theorem formatMessage_keeps_plain_text (code a b : string) :
  markup_free a = true ->
  formatMessage_with code (a ++ b) = (a ++ formatMessage_with code b)%string
  /\ formatMessage_with code a = a.
Proof.
  intros H. split; [now apply format_plain|].
  rewrite <- (append_empty_r a) at 1. rewrite format_plain by exact H.
  change (formatMessage_with code "") with "". apply append_empty_r.
Qed.

Lemma formatMessage_keeps_plain_text_witness :
  Faramex.formatMessage "<img src=x onerror=alert(1)>"
  = "<img src=x onerror=alert(1)>".
Proof.
  apply (formatMessage_keeps_plain_text "<code>"
           "<img src=x onerror=alert(1)>" "").
  reflexivity.
Defined.

(** The markup [formatMessage] understands, at the front of a text, for an
    inner text without newline, star, backtick and line terminator: a newline
    becomes a line break; two stars on each side give a strong element; a
    backtick on each side gives a code element with the opening tag of the
    copy; one star on each side gives an emphasis element when the inner text
    is not empty and no star follows.  The rest of the text is formatted on
    its own. *)
Theorem formatMessage_markup (code inner rest : string) :
  markup_free inner = true ->
  inline inner = true ->
  formatMessage_with code (String (byte 10) rest)
  = ("<br>" ++ formatMessage_with code rest)%string
  /\ formatMessage_with code ("**" ++ inner ++ "**" ++ rest)
     = ("<strong>" ++ inner ++ "</strong>"
        ++ formatMessage_with code rest)%string
  /\ formatMessage_with code (String backtick inner ++ String backtick rest)
     = (code ++ inner ++ "</code>" ++ formatMessage_with code rest)%string
  /\ (inner <> "" ->
      String.prefix "*" rest = false ->
      formatMessage_with code ("*" ++ inner ++ "*" ++ rest)
      = ("<em>" ++ inner ++ "</em>" ++ formatMessage_with code rest)%string).
Proof.
  intros H Hi. split; [apply format_newline|].
  split; [now apply format_strong|].
  split; [now apply format_code|].
  intros Hne Hr. now apply format_em.
Qed.

Lemma formatMessage_markup_witness :
  Faramex.formatMessage "**bold** move"
  = "<strong>bold</strong> move".
Proof.
  apply (formatMessage_markup "<code>" "bold" " move"); reflexivity.
Defined.

Lemma formatMessage_three_stars_cross_the_tags_witness :
  Proma.formatMessage "***now***"
  = "<strong><em>now</strong></em>".
Proof.
  apply (formatMessage_three_stars_cross_the_tags Proma.code_tag "now" "");
    [reflexivity | reflexivity | discriminate | reflexivity].
Defined.

End FormatExtras.

(** ** FaramexChat: the transcript and the composer *)

Module FaramexTranscript.

Import JS FaramexChat FaramexSession.

Section Loop.

Variable engine : Engine.

Lemma render_last_node (base : list Message) (st : Loop) (t : string) :
  last_node base st ->
  last_node base (render (this st) (messageElement st) t).
Proof.
  unfold last_node, render. destruct (messageElement st) as [node|].
  - intros [-> E]. cbn. split; [reflexivity|].
    rewrite E. now rewrite TypingRenderer.update_nth_last.
  - intros E. cbn. split; [now rewrite E | now rewrite E].
Qed.

Lemma process_line_last_node (base : list Message) (st : Loop) (line : string) :
  last_node base st -> last_node base (process_line engine st line).
Proof.
  intros H. unfold process_line.
  destruct (startsWith line "data: "); [|exact H].
  destruct (String.eqb (slice 6 line) "[DONE]"); [exact H|].
  destruct (try_append engine (agentMessage st) (slice 6 line));
    now apply render_last_node.
Qed.

Lemma process_line_element (st : Loop) (line : string) :
  has_element (process_line engine st line)
  = has_element st || renders line.
Proof.
  unfold process_line, renders, has_element.
  destruct (startsWith line "data: "); [|now rewrite orb_false_r].
  destruct (String.eqb (slice 6 line) "[DONE]"); [now rewrite orb_false_r|].
  cbn [andb negb].
  destruct (try_append engine (agentMessage st) (slice 6 line));
    unfold render; destruct (messageElement st); reflexivity.
Qed.

Lemma process_lines_last_node (base : list Message) (lines : list string)
    (st : Loop) :
  last_node base st ->
  last_node base (fold_left (process_line engine) lines st).
Proof.
  revert st; induction lines as [|l lines IH]; intros st H; [exact H|].
  cbn [fold_left]. apply IH. now apply process_line_last_node.
Qed.

Lemma process_lines_element (lines : list string) (st : Loop) :
  has_element (fold_left (process_line engine) lines st)
  = has_element st || existsb renders lines.
Proof.
  revert st; induction lines as [|l lines IH]; intros st.
  - cbn. now rewrite orb_false_r.
  - cbn [fold_left existsb]. rewrite IH, process_line_element.
    now rewrite orb_assoc.
Qed.

Lemma read_loop_last_node (base : list Message) (reads : list Read)
    (st : Loop) :
  last_node base st -> last_node base (fst (read_loop engine st reads)).
Proof.
  revert st; induction reads as [|[text| | |ms] reads IH]; intros st H;
    cbn [read_loop fst]; auto.
  apply IH. unfold process_chunk. now apply process_lines_last_node.
Qed.

Lemma read_loop_element (reads : list Read) (st : Loop) :
  has_element (fst (read_loop engine st reads))
  = has_element st || existsb renders (lines_read reads).
Proof.
  revert st; induction reads as [|[text| | |ms] reads IH]; intros st;
    cbn [read_loop fst lines_read existsb];
    try (now rewrite orb_false_r); auto.
  rewrite IH. unfold process_chunk. rewrite process_lines_element.
  now rewrite existsb_app, orb_assoc.
Qed.

Lemma read_loop_settles (reads : list Read) (st : Loop) :
  snd (read_loop engine st reads)
  = if read_fails reads then Rejected
    else if read_ends reads then Fulfilled tt else Pending.
Proof.
  revert st; induction reads as [|[text| | |ms] reads IH]; intros st;
    cbn [read_loop snd read_fails read_ends]; auto.
Qed.

(** The chat after the reader loop: the chat before it and the reply. *)
Lemma read_loop_chat (c : Chat) (message : string) (imgs : list string)
    (status : nat) (reads : list Read) :
  chatMessages
    (this (fst (read_loop engine (started c message imgs) reads)))
  = chatMessages c ++ reply engine (Response true status (Some reads)).
Proof.
  set (st := fst (read_loop engine (started c message imgs) reads)).
  assert (L : last_node (chatMessages c) st)
    by (apply read_loop_last_node; reflexivity).
  assert (E : has_element st = existsb renders (lines_read reads))
    by (unfold st; now rewrite read_loop_element).
  assert (A : agentMessage st
              = String.concat "" (map (appended engine) (lines_read reads))).
  { unfold st. now rewrite StreamingConsumer.read_loop_agentMessage. }
  unfold reply. rewrite <- E. unfold last_node, has_element in *.
  destruct (messageElement st).
  - destruct L as [_ L]. now rewrite L, A.
  - now rewrite L, app_nil_r.
Qed.

End Loop.

End FaramexTranscript.

Module FaramexSend.

Import JS FaramexChat FaramexSession FaramexTranscript.

Section Send.

Variable engine : Engine.

Lemma sendToAPI_chat (c : Chat) (message : string) (imgs : list string)
    (response : Fetch) :
  chatMessages (fst (sendToAPI engine c message imgs response))
  = chatMessages c ++ reply engine response.
Proof.
  unfold sendToAPI.
  destruct response as [| |[|] status [reads|]];
    try (cbn; now rewrite app_nil_r).
  destruct (StreamingConsumer.sendToAPI_loop_ok engine c message imgs status reads)
    as (_ & _ & E & _).
  destruct (sendToAPI_loop engine c message imgs
              (Response true status (Some reads))) as [st p].
  cbn [fst] in *. rewrite E. apply read_loop_chat.
Qed.

Lemma sendToAPI_settles (c : Chat) (message : string) (imgs : list string)
    (response : Fetch) :
  snd (sendToAPI engine c message imgs response)
  = if request_fails response then Rejected
    else if request_ends response then Fulfilled tt else Pending.
Proof.
  unfold sendToAPI.
  destruct response as [| |[|] status [reads|]]; try reflexivity.
  destruct (StreamingConsumer.sendToAPI_loop_ok engine c message imgs status reads)
    as (_ & _ & _ & _ & E).
  destruct (sendToAPI_loop engine c message imgs
              (Response true status (Some reads))) as [st p].
  cbn [snd] in *. rewrite E. apply read_loop_settles.
Qed.

Lemma render_composer (c : Chat) (el : option nat) (t : string) :
  same_composer c (this (render c el t)).
Proof. destruct el; cbn; repeat split. Qed.

Lemma same_composer_trans (a b c : Chat) :
  same_composer a b -> same_composer b c -> same_composer a c.
Proof.
  unfold same_composer.
  intros (A1 & A2 & A3 & A4 & A5) (B1 & B2 & B3 & B4 & B5).
  repeat split; congruence.
Qed.

Lemma same_composer_refl (c : Chat) : same_composer c c.
Proof. repeat split. Qed.

Lemma process_line_composer (st : Loop) (line : string) :
  same_composer (this st) (this (process_line engine st line)).
Proof.
  unfold process_line.
  destruct (startsWith line "data: "); [|apply same_composer_refl].
  destruct (String.eqb (slice 6 line) "[DONE]"); [apply same_composer_refl|].
  destruct (try_append engine (agentMessage st) (slice 6 line));
    apply render_composer.
Qed.

Lemma process_chunk_composer (text : string) (st : Loop) :
  same_composer (this st) (this (process_chunk engine st text)).
Proof.
  unfold process_chunk. generalize (split newline text) as lines.
  intros lines; revert st; induction lines as [|l lines IH]; intros st.
  - apply same_composer_refl.
  - cbn [fold_left]. eapply same_composer_trans; [|apply IH].
    apply process_line_composer.
Qed.

Lemma read_loop_composer (reads : list Read) (st : Loop) :
  same_composer (this st) (this (fst (read_loop engine st reads))).
Proof.
  revert st; induction reads as [|[text| | |ms] reads IH]; intros st;
    cbn [read_loop fst]; try apply same_composer_refl; auto.
  eapply same_composer_trans; [|apply IH]. apply process_chunk_composer.
Qed.

Lemma sendToAPI_composer (c : Chat) (message : string) (imgs : list string)
    (response : Fetch) :
  same_composer c (fst (sendToAPI engine c message imgs response))
  /\ requests (fst (sendToAPI engine c message imgs response))
     = requests c ++ [chat_request c message imgs].
Proof.
  unfold sendToAPI, sendToAPI_loop.
  destruct response as [| |[|] status [reads|]];
    try (split; [repeat split | reflexivity]).
  pose (st0 := {| this := hideTypingIndicator
                            (set_requests
                               (requests c ++ [chat_request c message imgs]) c);
                  agentMessage := ""; messageElement := None |}).
  assert (C := read_loop_composer reads st0).
  assert (F := StreamingConsumer.read_loop_frame engine reads st0).
  fold st0. destruct (read_loop engine st0 reads) as [st p].
  cbn [fst] in C, F. destruct F as (_ & R & _).
  assert (C0 : same_composer c (this st)).
  { eapply same_composer_trans; [|exact C]. repeat split. }
  destruct p as [[]| |]; cbn [fst this]; try (split; [exact C0 | exact R]).
  destruct (soundNotifications (settings (this st)));
    split; try exact C0; try exact R.
Qed.

Lemma faramex_sendMessage_unfold (c : Chat) (response : Fetch) :
  nothing_to_send c = false ->
  let message := trim (messageInput_value c) in
  let c4 :=
    showTypingIndicator
      (handleInputChange
         (renderAttachedImages
            (set_attachedImages []
               (set_messageInput_value ""
                  (fst (addMessage c user message (uploadImages c))))))) in
  let sent := sendToAPI engine c4 message (uploadImages c) response in
  sendMessage engine c response
  = match snd sent with
    | Rejected =>
        (fst (addMessage (hideTypingIndicator (fst sent)) agent apology []),
         Fulfilled tt)
    | _ => sent
    end.
Proof.
  intros H. unfold sendMessage. unfold nothing_to_send in H. rewrite H.
  cbv zeta.
  destruct (sendToAPI engine _ _ _ response) as [c5 [[]| |]]; reflexivity.
Qed.

Lemma render_sounds (c : Chat) (el : option nat) (t : string) :
  sounds (this (render c el t)) = sounds c.
Proof. now destruct el. Qed.

Lemma process_line_sounds (st : Loop) (line : string) :
  sounds (this (process_line engine st line)) = sounds (this st).
Proof.
  unfold process_line.
  destruct (startsWith line "data: "); [|reflexivity].
  destruct (String.eqb (slice 6 line) "[DONE]"); [reflexivity|].
  destruct (try_append engine (agentMessage st) (slice 6 line));
    apply render_sounds.
Qed.

Lemma process_chunk_sounds (text : string) (st : Loop) :
  sounds (this (process_chunk engine st text)) = sounds (this st).
Proof.
  unfold process_chunk. generalize (split newline text) as lines.
  intros lines; revert st; induction lines as [|l lines IH]; intros st.
  - reflexivity.
  - cbn [fold_left]. rewrite IH. apply process_line_sounds.
Qed.

Lemma read_loop_sounds (reads : list Read) (st : Loop) :
  sounds (this (fst (read_loop engine st reads))) = sounds (this st).
Proof.
  revert st; induction reads as [|[text| | |ms] reads IH]; intros st;
    cbn [read_loop fst]; auto.
  rewrite IH. apply process_chunk_sounds.
Qed.

Lemma read_ends_not_fails (reads : list Read) :
  read_ends reads = true -> read_fails reads = false.
Proof.
  induction reads as [|[text| | |ms] reads IH]; cbn; auto; discriminate.
Qed.

Lemma sendToAPI_sounds (c : Chat) (message : string) (imgs : list string)
    (response : Fetch) :
  sounds (fst (sendToAPI engine c message imgs response))
  = sounds c
    + (if soundNotifications (settings c) && request_ends response
       then 1 else 0).
Proof.
  unfold sendToAPI, sendToAPI_loop.
  destruct response as [| |[|] status [reads|]];
    try (cbn; rewrite andb_false_r; lia).
  pose (st0 := {| this := hideTypingIndicator
                            (set_requests
                               (requests c ++ [chat_request c message imgs]) c);
                  agentMessage := ""; messageElement := None |}).
  assert (S := read_loop_sounds reads st0).
  assert (F := StreamingConsumer.read_loop_frame engine reads st0).
  assert (P := FaramexTranscript.read_loop_settles engine reads st0).
  fold st0. destruct (read_loop engine st0 reads) as [st p].
  cbn [fst snd] in S, F, P. destruct F as (_ & _ & _ & _ & E).
  cbn [request_ends].
  destruct (read_fails reads) eqn:Hf.
  - subst p. cbn [fst this]. rewrite S.
    destruct (read_ends reads) eqn:He.
    + apply read_ends_not_fails in He. congruence.
    + cbn. rewrite andb_false_r. lia.
  - destruct (read_ends reads) eqn:He; subst p; cbn [fst this].
    + rewrite E. cbn [settings st0 this hideTypingIndicator
        set_typingIndicator_display set_requests].
      rewrite andb_true_r.
      destruct (soundNotifications (settings c)); cbn [sounds
        playNotificationSound set_sounds]; rewrite S; cbn; lia.
    + rewrite S. cbn. rewrite andb_false_r. lia.
Qed.

End Send.

End FaramexSend.

Module FaramexExtras.

Import JS FaramexChat FaramexSession FaramexTranscript FaramexSend.

(** The chat after [sendMessage] of FaramexChat (script.js, lines 179-282),
    when there is something to send: the chat before it, the message of the
    user, then the one agent message holding the text the data lines of the
    response append, if any such line arrived, and last the apology when the
    request fails.  Nothing that was in the chat is changed. *)
Theorem faramex_transcript (engine : Engine) (c : Chat) (response : Fetch) :
  nothing_to_send c = false ->
  chatMessages (fst (sendMessage engine c response))
  = chatMessages c
    ++ [{| sender := user; content := trim (messageInput_value c);
           images := uploadImages c |}]
    ++ reply engine response
    ++ (if request_fails response
        then [{| sender := agent; content := apology; images := [] |}]
        else []).
Proof.
  intros H. rewrite (faramex_sendMessage_unfold engine c response H). cbv zeta.
  rewrite sendToAPI_settles.
  destruct (request_fails response).
  - cbn [fst addMessage hideTypingIndicator set_typingIndicator_display
         set_chatMessages chatMessages].
    rewrite sendToAPI_chat. cbn [chatMessages showTypingIndicator
      set_typingIndicator_display handleInputChange set_input_state
      renderAttachedImages set_attachedImagesContainer set_attachedImages
      set_messageInput_value addMessage fst set_chatMessages].
    now rewrite <- !app_assoc.
  - assert (E : forall p : Promise unit,
               p <> Rejected ->
               forall a b : Chat * Promise unit,
               match p with Rejected => a | _ => b end = b)
      by (intros [[]| |]; congruence).
    rewrite E by (destruct (request_ends response); discriminate).
    rewrite sendToAPI_chat. cbn [chatMessages showTypingIndicator
      set_typingIndicator_display handleInputChange set_input_state
      renderAttachedImages set_attachedImagesContainer set_attachedImages
      set_messageInput_value addMessage fst set_chatMessages].
    now rewrite <- !app_assoc, app_nil_r.
Qed.

Lemma faramex_transcript_witness :
  chatMessages
    (fst (sendMessage canonical_numbers idle
            (Response true 200
               (Some [Chunk (content_frame "A" ++ lf); ReadError]))))
  = [{| sender := user; content := "hello"; images := [] |};
     {| sender := agent; content := "A"; images := [] |};
     {| sender := agent; content := apology; images := [] |}].
Proof.
  rewrite (faramex_transcript canonical_numbers idle) by reflexivity.
  reflexivity.
Defined.

(** The promise of [sendMessage] of FaramexChat (script.js, lines 179-205)
    never rejects: it is fulfilled when there is nothing to send, when the
    request fails, and when the stream ends, and stays pending otherwise. *)
Theorem sendMessage_never_rejects (engine : Engine) (c : Chat)
    (response : Fetch) :
  snd (sendMessage engine c response) <> Rejected
  /\ (nothing_to_send c = false ->
      snd (sendMessage engine c response)
      = if request_fails response || request_ends response
        then Fulfilled tt else Pending).
Proof.
  destruct (nothing_to_send c) eqn:H.
  - split; [|discriminate]. unfold sendMessage.
    unfold nothing_to_send in H. rewrite H. discriminate.
  - assert (E : snd (sendMessage engine c response)
                = if request_fails response || request_ends response
                  then Fulfilled tt else Pending).
    { rewrite (faramex_sendMessage_unfold engine c response H). cbv zeta.
      rewrite sendToAPI_settles.
      destruct (request_fails response) eqn:F; [reflexivity|].
      destruct (request_ends response) eqn:D; cbn [orb];
        now rewrite sendToAPI_settles, F, D. }
    split; [|intros _; exact E].
    rewrite E. destruct (request_fails response || request_ends response);
      discriminate.
Qed.

Lemma sendMessage_never_rejects_witness :
  snd (sendMessage canonical_numbers idle (Response false 500 None))
  = Fulfilled tt.
Proof.
  apply (proj2 (sendMessage_never_rejects canonical_numbers idle
                  (Response false 500 None))).
  reflexivity.
Defined.

(** After [sendMessage] of FaramexChat has passed its guard (script.js, lines
    179-205, with [handleInputChange], lines 82-92, and
    [renderAttachedImages], lines 135-148), whatever the response: the input
    is empty, no image is attached and no preview is left, the counter shows
    0, the send button is disabled, and exactly one request has been sent,
    carrying the trimmed text and the attached images. *)
Theorem sendMessage_resets_composer (engine : Engine) (c : Chat)
    (response : Fetch) :
  nothing_to_send c = false ->
  let c' := fst (sendMessage engine c response) in
  messageInput_value c' = ""
  /\ attachedImages c' = []
  /\ attachedImagesContainer c' = []
  /\ charCount c' = 0
  /\ sendBtn_disabled c' = true
  /\ requests c'
     = requests c
       ++ [{| req_url := (apiUrl c ++ "/api/v1/chat")%string;
              req_bearer := token c;
              req_message := trim (messageInput_value c);
              req_images := map url (attachedImages c) |}].
Proof.
  intros H. cbv zeta.
  rewrite (faramex_sendMessage_unfold engine c response H). cbv zeta.
  match goal with
  | |- context [sendToAPI engine ?c4 ?m ?i response] =>
      destruct (sendToAPI_composer engine c4 m i response)
        as [(C1 & C2 & C3 & C4 & C5) R];
      destruct (sendToAPI engine c4 m i response) as [c5 p]
  end.
  cbn [fst snd] in *.
  destruct p as [[]| |]; cbn [fst addMessage hideTypingIndicator
    set_typingIndicator_display set_chatMessages messageInput_value
    attachedImages attachedImagesContainer charCount sendBtn_disabled requests];
    rewrite ?C1, ?C2, ?C3, ?C4, ?C5, ?R; repeat split.
Qed.

Lemma sendMessage_resets_composer_witness :
  let c' := fst (sendMessage canonical_numbers idle FetchRejected) in
  messageInput_value c' = ""
  /\ attachedImages c' = []
  /\ attachedImagesContainer c' = []
  /\ charCount c' = 0
  /\ sendBtn_disabled c' = true
  /\ requests c'
     = [{| req_url := "http://localhost:8000/api/v1/chat";
           req_bearer := None; req_message := "hello"; req_images := [] |}].
Proof.
  apply (sendMessage_resets_composer canonical_numbers idle FetchRejected).
  reflexivity.
Defined.

(** The notification sound of FaramexChat (script.js, lines 207-282 and
    179-205): a run of [sendMessage] that has something to send plays it
    once when the setting asks for it and the stream reaches its end, and
    not at all otherwise; a failed or unfinished request is silent. *)
Theorem notification_sound_only_at_the_end
    (engine : Engine) (c : Chat) (response : Fetch) :
  nothing_to_send c = false ->
  sounds (fst (sendMessage engine c response))
  = sounds c
    + (if soundNotifications (settings c) && request_ends response
       then 1 else 0).
Proof.
  intros H. rewrite (faramex_sendMessage_unfold engine c response H).
  cbv zeta.
  match goal with
  | |- context [sendToAPI engine ?c4 ?m ?i response] =>
      assert (S := sendToAPI_sounds engine c4 m i response);
      destruct (sendToAPI engine c4 m i response) as [c5 p]
  end.
  cbn [fst snd] in *.
  destruct p as [[]| |]; cbn [fst addMessage hideTypingIndicator
    set_typingIndicator_display set_chatMessages sounds]; exact S.
Qed.

Lemma notification_sound_only_at_the_end_witness :
  sounds (fst (sendMessage canonical_numbers with_sound
                 (Response true 200 (Some round_trip)))) = 1.
Proof.
  apply (notification_sound_only_at_the_end canonical_numbers with_sound
           (Response true 200 (Some round_trip))).
  reflexivity.
Defined.

(** The send button and the guard of [sendMessage] disagree on blanks in
    FaramexChat (script.js, lines 82-101 and 179-181): an input that is not
    empty but trims to nothing, with nothing attached, enables the send
    button, and yet Enter or a click sends nothing and changes nothing, the
    default action of the key being prevented. *)
Theorem blank_input_enables_the_button
    (engine : Engine) (c : Chat) (response : Fetch) :
  0 < utf16_length (messageInput_value c) ->
  trim (messageInput_value c) = "" ->
  attachedImages c = [] ->
  let c' := handleInputChange c in
  sendBtn_disabled c' = false
  /\ handleKeyDown engine c' "Enter" false response = (c', true)
  /\ sendMessage engine c' response = (c', Fulfilled tt).
Proof.
  intros L T A. cbv zeta.
  assert (B : sendBtn_disabled (handleInputChange c) = false).
  { cbn. destruct (utf16_length (messageInput_value c)); [lia | reflexivity]. }
  assert (S : sendMessage engine (handleInputChange c) response
              = (handleInputChange c, Fulfilled tt))
    by (apply SendMessage.faramex_nothing_to_send; assumption).
  split; [exact B|]. split; [|exact S].
  unfold handleKeyDown. rewrite B, S. reflexivity.
Qed.

Lemma blank_input_enables_the_button_witness :
  sendBtn_disabled (handleInputChange blank) = false
  /\ handleKeyDown canonical_numbers (handleInputChange blank) "Enter" false
       FetchRejected
     = (handleInputChange blank, true)
  /\ sendMessage canonical_numbers (handleInputChange blank) FetchRejected
     = (handleInputChange blank, Fulfilled tt).
Proof.
  apply (blank_input_enables_the_button canonical_numbers blank FetchRejected).
  - vm_compute. lia.
  - reflexivity.
  - reflexivity.
Defined.

End FaramexExtras.

(** ** Lines that end with a carriage return *)

Module CarriageReturn.

Import JS JSON FaramexChat FaramexSession.

Lemma parse_content_cr (t : string) :
  plain t = true ->
  JSON.parse (member "content" (quoted t) ++ cr)
  = Some (Object [("content", Str t)]).
Proof.
  intros H. unfold JSON.parse.
  remember (2 * String.length (member "content" (quoted t) ++ cr) + 1) as f eqn:Hf.
  assert (Hlen : 3 <= f) by (subst f; cbn; lia).
  destruct f as [|[|[|f]]]; try lia. clear Hf Hlen.
  assert (E : chars (member "content" (quoted t) ++ cr)
              = "{"%char :: dquote
                :: chars "content"
                ++ dquote :: ":"%char :: dquote :: chars t
                ++ dquote :: "}"%char :: [byte 13]).
  { unfold member, quoted, cr. cbn [append]. cbn [chars list_ascii_of_string].
    change list_ascii_of_string with chars.
    rewrite !StreamingConsumer.chars_app.
    cbn [chars list_ascii_of_string app]. rewrite <- !app_assoc. reflexivity. }
  rewrite E. cbn -[parse_string chars app].
  rewrite (StreamingConsumer.parse_string_plain "content") by reflexivity.
  cbn -[parse_string chars app].
  rewrite StreamingConsumer.parse_string_plain by exact H. reflexivity.
Qed.

Section Stream.

Variable engine : Engine.

Lemma appended_content_cr (t : string) :
  plain t = true -> appended engine (content_frame t ++ cr) = t.
Proof.
  intros H. unfold appended, content_frame.
  rewrite append_assoc.
  destruct (StreamingConsumer.data_line (member "content" (quoted t) ++ cr))
    as [H1 H2].
  rewrite H1, H2.
  change (member "content" (quoted t) ++ cr =? "[DONE]")%string with false.
  unfold try_append. rewrite parse_content_cr by exact H.
  cbn [Get lookup]. cbn [String.eqb Ascii.eqb Bool.eqb ToBoolean ToString].
  destruct (String.eqb_spec t ""); cbn [negb]; [now subst | reflexivity].
Qed.

Lemma appended_sentinel_cr :
  appended engine ("data: [DONE]" ++ cr) = ("[DONE]" ++ cr)%string.
Proof. reflexivity. Qed.

Lemma content_frame_cr_lines (t : string) :
  plain t = true ->
  split newline (content_frame t ++ cr ++ lf) = [(content_frame t ++ cr)%string; ""].
Proof.
  intros H. unfold lf. rewrite <- append_assoc.
  rewrite split_app. cbn [split app].
  rewrite StreamingConsumer.split_no_newline; [reflexivity|].
  unfold content_frame, member, quoted, cr. cbn [append].
  cbn [chars list_ascii_of_string]. change list_ascii_of_string with chars.
  rewrite !StreamingConsumer.chars_app. unfold no_newline. cbn [forallb].
  rewrite !forallb_app. fold (no_newline (chars t)).
  rewrite (StreamingConsumer.plain_no_newline t H). reflexivity.
Qed.

Lemma crlf_stream_appended (deltas : list string) :
  forallb plain deltas = true ->
  String.concat "" (map (appended engine) (lines_read (crlf_stream deltas)))
  = (String.concat "" deltas ++ "[DONE]" ++ cr)%string.
Proof.
  unfold crlf_stream. induction deltas as [|t deltas IH]; intros H.
  - reflexivity.
  - cbn [forallb] in H. apply andb_true_iff in H as [Ht H].
    cbn [map app lines_read]. rewrite content_frame_cr_lines by exact Ht.
    cbn [app map]. rewrite appended_content_cr by exact Ht.
    rewrite !StreamingConsumer.concat_empty_cons. rewrite IH by exact H.
    cbn [append]. now rewrite append_assoc.
Qed.

Lemma crlf_stream_ends (deltas : list string) :
  read_fails (crlf_stream deltas) = false
  /\ read_ends (crlf_stream deltas) = true
  /\ existsb renders (lines_read (crlf_stream deltas)) = true.
Proof.
  unfold crlf_stream. induction deltas as [|t deltas (IH1 & IH2 & IH3)].
  - repeat split.
  - cbn [map app read_fails read_ends lines_read].
    split; [exact IH1|]. split; [exact IH2|].
    rewrite existsb_app, IH3. apply orb_true_r.
Qed.

End Stream.

(** A stream whose lines end with a carriage return and a newline (script.js,
    lines 236-277): the content frames append their contents as they do
    without the carriage return, but the sentinel line is no longer equal to
    the sentinel, so its payload, carriage return included, is appended to
    the message as text. *)
Theorem crlf_sentinel_reaches_the_message
    (engine : Engine) (c : Chat) (message : string) (imgs : list string)
    (status : nat) (deltas : list string) :
  forallb plain deltas = true ->
  let r := sendToAPI_loop engine c message imgs
             (Response true status (Some (crlf_stream deltas))) in
  agentMessage (fst r) = (String.concat "" deltas ++ "[DONE]" ++ cr)%string
  /\ chatMessages (this (fst r))
     = chatMessages c
       ++ [{| sender := agent;
              content := (String.concat "" deltas ++ "[DONE]" ++ cr)%string;
              images := [] |}]
  /\ snd r = Fulfilled tt.
Proof.
  intros H. cbv zeta.
  destruct (StreamingConsumer.sendToAPI_loop_ok engine c message imgs status
              (crlf_stream deltas)) as (A & _ & C & _ & S).
  destruct (crlf_stream_ends deltas) as (F & E & R).
  rewrite A, C, S. clear A C S.
  rewrite StreamingConsumer.read_loop_agentMessage.
  rewrite (FaramexTranscript.read_loop_chat engine c message imgs status).
  rewrite FaramexTranscript.read_loop_settles, F, E.
  unfold reply. rewrite R, crlf_stream_appended by exact H.
  repeat split.
Qed.

Lemma crlf_sentinel_reaches_the_message_witness :
  agentMessage
    (fst (sendToAPI_loop canonical_numbers idle "hello" []
            (Response true 200 (Some (crlf_stream ["A"; "B"])))))
  = ("AB[DONE]" ++ cr)%string.
Proof.
  apply (crlf_sentinel_reaches_the_message canonical_numbers idle "hello" []
           200 ["A"; "B"]).
  reflexivity.
Defined.

End CarriageReturn.

(** ** PromaDashboard: the answer, the transcript and the indicator *)

Module PromaTranscript.

Import JS PromaDashboard PromaSession.

Lemma split_length (sep : ascii) (s : string) :
  List.length (split sep s) = S (occurrences sep s).
Proof.
  induction s as [|c s IH]; [reflexivity|].
  cbn [split occurrences]. destruct (Ascii.eqb c sep).
  - cbn [List.length]. now rewrite IH.
  - destruct (split sep s) as [|w ws]; [discriminate|]. exact IH.
Qed.



Section Variant.

Variable variant : Variant.

Lemma waited_word_steps (l : list string) :
  waited (flat_map (word_step variant) l)
  = repeat (delay_base variant, delay_span variant) (List.length l).
Proof.
  induction l as [|t l IH]; [reflexivity|].
  cbn [flat_map]. rewrite TypingRenderer.waited_app, IH. reflexivity.
Qed.

Lemma cumulative_length (words : list string) :
  List.length (cumulative words) = List.length words.
Proof. unfold cumulative. now rewrite length_map, length_seq. Qed.

Lemma type_words_events (words : list string) (d : Dashboard) (node : nat)
    (pre : list string) :
  pre <> [] ->
  events (type_words variant d node (join " " pre) false words)
  = events d
    ++ flat_map (word_step variant)
         (map (fun n => join " " (pre ++ firstn n words))
            (seq 1 (List.length words))).
Proof.
  revert d pre. induction words as [|w rest IH]; intros d pre Hpre.
  - cbn. now rewrite app_nil_r.
  - cbn [type_words].
    replace (join " " pre ++ String space "" ++ w)%string
      with (join " " (pre ++ [w])) by (now rewrite join_snoc).
    rewrite IH by (destruct pre; discriminate).
    rewrite TypingRenderer.events_step.
    cbn [List.length seq map flat_map firstn]. rewrite <- app_assoc.
    f_equal. unfold word_step at 2. cbn [app]. do 2 f_equal.
    rewrite <- (seq_shift _ 1), map_map. f_equal.
    apply map_ext. intros n. now rewrite <- app_assoc.
Qed.

Lemma typeAIResponse_Str (d : Dashboard) (s : string) :
  let r := typeAIResponse variant d (Str s) in
  snd r = Fulfilled tt
  /\ chatMessages (fst r) = chatMessages d ++ [MessageNode agent s]
  /\ events (fst r)
     = events d ++ opening variant
       ++ flat_map (word_step variant) (cumulative (split space s)).
Proof.
  cbv zeta. unfold typeAIResponse, addMessage. cbn [fst snd].
  set (d0 := match settle variant with
             | Some ms => log (Waited ms 0) d
             | None => d
             end).
  assert (Hd0 : chatMessages d0 = chatMessages d)
    by (subst d0; now destruct (settle variant)).
  assert (He0 : events d0 = events d ++ opening variant).
  { subst d0. unfold opening.
    destruct (settle variant); cbn; [reflexivity | now rewrite app_nil_r]. }
  assert (Hjoin : join " " (split space s) = s) by apply (join_split space).
  split; [reflexivity|].
  destruct (split space s) as [|w rest] eqn:E;
    [now apply split_not_nil in E|].
  cbn [type_words].
  change ("" ++ "" ++ w)%string with (join " " [w]).
  split.
  - rewrite (TypingRenderer.type_words_chat variant rest [w] _
               (chatMessages d0) agent (join " " [w])).
    + rewrite Hd0. f_equal. f_equal. rewrite <- Hjoin. now destruct rest.
    + discriminate.
    + cbn. now rewrite TypingRenderer.update_nth_last.
  - rewrite type_words_events by discriminate.
    rewrite TypingRenderer.events_step. cbn [events set_chatMessages].
    rewrite He0, <- !app_assoc. do 2 f_equal.
    unfold cumulative. cbn [List.length seq map flat_map firstn].
    unfold word_step at 3. cbn [app]. do 2 f_equal.
    rewrite <- (seq_shift _ 1), map_map. reflexivity.
Qed.


End Variant.

End PromaTranscript.

Module PromaSend.

Import JS PromaDashboard PromaSession PromaTranscript.

Section Send.

Variable engine : Engine.
Variable variant : Variant.

Lemma or_else_truthy (a b : Value) :
  ToBoolean engine b = true -> ToBoolean engine (or_else engine a b) = true.
Proof.
  intros H. unfold or_else. now destruct (ToBoolean engine a) eqn:E.
Qed.

Lemma callAI_truthy (d : Dashboard) (message : string) (response : Fetch)
    (v : Value) :
  snd (callAI engine variant d message response) = Fulfilled v ->
  ToBoolean engine v = true.
Proof.
  unfold callAI.
  destruct response as [| |[|] status [text| |]]; try discriminate.
  destruct (JSON.parse text) as [data|]; [|discriminate].
  destruct (Get data "response") as [r|]; [|discriminate].
  destruct (Get data "message") as [m|]; [|discriminate].
  cbn [snd]. intros [= <-]. apply or_else_truthy, or_else_truthy.
  reflexivity.
Qed.

Lemma callAI_state (d : Dashboard) (message : string) (response : Fetch) :
  fst (callAI engine variant d message response)
  = set_requests (requests d ++ [chat_request variant d message]) d.
Proof.
  unfold callAI.
  destruct response as [| |[|] status [text| |]]; try reflexivity.
  destruct (JSON.parse text) as [data|]; [|reflexivity].
  destruct (Get data "response") as [r|]; [|reflexivity].
  destruct (Get data "message") as [m|]; reflexivity.
Qed.

Lemma callAI_answer (d d' : Dashboard) (message message' : string)
    (response : Fetch) :
  snd (callAI engine variant d message response)
  = snd (callAI engine variant d' message' response).
Proof.
  unfold callAI.
  destruct response as [| |[|] status [text| |]]; try reflexivity.
  destruct (JSON.parse text) as [data|]; [|reflexivity].
  destruct (Get data "response") as [r|]; [|reflexivity].
  destruct (Get data "message") as [m|]; reflexivity.
Qed.

Lemma dashboard_sendMessage_unfold (d : Dashboard) (response : Fetch) :
  nothing_to_send d = false ->
  let message := trim (messageInput_value d) in
  let d4 := set_requests
              (requests (submitted d)
               ++ [chat_request variant (submitted d) message])
              (submitted d) in
  sendMessage engine variant d response
  = match snd (callAI engine variant (submitted d) message response) with
    | Fulfilled answer =>
        match typeAIResponse variant (hideTypingIndicator (hideAIThinking d4))
                answer with
        | (d5, Rejected) => on_error d5
        | settled => settled
        end
    | Rejected => on_error d4
    | Pending => (d4, Pending)
    end.
Proof.
  intros H. unfold sendMessage. unfold nothing_to_send in H. rewrite H.
  cbv zeta. fold (submitted d).
  rewrite (surjective_pairing (callAI engine variant (submitted d) _ response)).
  rewrite callAI_state.
  destruct (snd (callAI engine variant (submitted d) _ response)); reflexivity.
Qed.


Lemma type_words_composer (words : list string) (d : Dashboard) (node : nat)
    (cur : string) (first : bool) :
  same_composer d (type_words variant d node cur first words).
Proof.
  revert d cur first. induction words as [|w rest IH]; intros d cur first.
  - repeat split.
  - cbn [type_words].
    match goal with
    | |- same_composer d (type_words variant ?d2 node ?t false rest) =>
        destruct (IH d2 t false) as (A1 & A2 & A3 & A4 & A5)
    end.
    repeat split; [rewrite A1|rewrite A2|rewrite A3|rewrite A4|rewrite A5];
      reflexivity.
Qed.

Lemma typeAIResponse_composer (d : Dashboard) (v : Value) :
  same_composer d (fst (typeAIResponse variant d v)).
Proof.
  unfold typeAIResponse, addMessage.
  set (d0 := match settle variant with
             | Some ms => log (Waited ms 0) d
             | None => d
             end).
  assert (H0 : same_composer d d0)
    by (subst d0; destruct (settle variant); repeat split).
  destruct H0 as (B1 & B2 & B3 & B4 & B5).
  destruct v; try (cbn [fst]; repeat split; assumption).
  cbn [fst].
  match goal with
  | |- same_composer d (type_words variant ?d2 ?n ?t ?f ?w) =>
      destruct (type_words_composer w d2 n t f) as (A1 & A2 & A3 & A4 & A5)
  end.
  repeat split; [rewrite A1|rewrite A2|rewrite A3|rewrite A4|rewrite A5];
    assumption.
Qed.

End Send.

End PromaSend.

Module PromaExtras.

Import JS PromaDashboard PromaSession PromaTranscript PromaSend.

(** The answer of [callAI] (dashboard-script.js, lines 212-233; 864-885;
    dashboard-script-new.js, lines 264-285) is never falsy: when the call is
    fulfilled its value is not the empty string, [null] or [undefined],
    whatever the body of the response holds, so the typing renderer is never
    handed an empty text. *)
Theorem callAI_answer_is_never_empty
    (engine : Engine) (variant : Variant) (d : Dashboard) (message : string)
    (response : Fetch) (v : Value) :
  snd (callAI engine variant d message response) = Fulfilled v ->
  ToBoolean engine v = true
  /\ v <> Str "" /\ v <> Null /\ v <> Undefined.
Proof.
  intros H. apply callAI_truthy in H.
  split; [exact H|]. repeat split; intros ->; discriminate.
Qed.

Lemma callAI_answer_is_never_empty_witness :
  ToBoolean canonical_numbers (Str fallback) = true
  /\ Str fallback <> Str "" /\ Str fallback <> Null
  /\ Str fallback <> Undefined.
Proof.
  apply (callAI_answer_is_never_empty canonical_numbers dashboard_script idle
           "hello"
           (Response true 200
              (BodyText (FaramexChat.member "response"
                           (FaramexChat.quoted ""))))).
  reflexivity.
Defined.



(** What [typeAIResponse] does on a string (dashboard-script.js, lines
    235-250; 887-905; dashboard-script-new.js, lines 287-305): after the
    opening pause of the copies that have one, every word is rendered and
    followed by one pause, the last word included, so the number of pauses
    per answer is the number of its spaces plus one. *)
Theorem typeAIResponse_pauses_once_per_word
    (variant : Variant) (d : Dashboard) (text : string) :
  let d' := fst (typeAIResponse variant d (Str text)) in
  events d'
  = events d ++ opening variant
    ++ flat_map (word_step variant) (cumulative (split space text))
  /\ waited (events d')
     = waited (events d) ++ waited (opening variant)
       ++ repeat (delay_base variant, delay_span variant)
            (S (occurrences space text)).
Proof.
  cbv zeta. destruct (typeAIResponse_Str variant d text) as (_ & _ & E).
  split; [exact E|]. rewrite E, !TypingRenderer.waited_app. do 2 f_equal.
  now rewrite waited_word_steps, cumulative_length, split_length.
Qed.



(** After [sendMessage] of the dashboard has passed its guard
    (dashboard-script.js, lines 171-210, with [handleInputChange], lines
    152-169), whatever the response: the input is empty, the counter shows 0,
    the attachments are the ones it had, the send button is disabled exactly
    when nothing is attached, and exactly one request has been sent, to the
    endpoint of the copy, carrying the trimmed text. *)
Theorem sendMessage_resets_input
    (engine : Engine) (variant : Variant) (d : Dashboard) (response : Fetch) :
  nothing_to_send d = false ->
  let d' := fst (sendMessage engine variant d response) in
  messageInput_value d' = ""
  /\ charCount d' = 0
  /\ attachedImages d' = attachedImages d
  /\ sendBtn_disabled d' = Nat.eqb (List.length (attachedImages d)) 0
  /\ requests d'
     = requests d
       ++ [{| req_url := (apiUrl d ++ endpoint variant)%string;
              req_bearer := token d;
              req_message := trim (messageInput_value d);
              req_images := [] |}].
Proof.
  intros H. cbv zeta.
  rewrite (dashboard_sendMessage_unfold engine variant d response H). cbv zeta.
  set (d4 := set_requests _ (submitted d)).
  assert (F : forall x : Dashboard, same_composer d4 x ->
            messageInput_value x = ""
            /\ charCount x = 0
            /\ attachedImages x = attachedImages d
            /\ sendBtn_disabled x = Nat.eqb (List.length (attachedImages d)) 0
            /\ requests x
               = requests d
                 ++ [{| req_url := (apiUrl d ++ endpoint variant)%string;
                        req_bearer := token d;
                        req_message := trim (messageInput_value d);
                        req_images := [] |}]).
  { intros x (A1 & A2 & A3 & A4 & A5).
    rewrite A1, A2, A3, A4, A5. repeat split. }
  assert (Err : forall x : Dashboard, same_composer d4 x ->
              same_composer d4 (fst (on_error x))).
  { intros x (A1 & A2 & A3 & A4 & A5). repeat split; assumption. }
  destruct (snd (callAI engine variant (submitted d) _ response)) as [v| |].
  - set (d5 := hideTypingIndicator (hideAIThinking d4)).
    assert (C5 : same_composer d4 d5) by repeat split.
    assert (T := typeAIResponse_composer variant d5 v).
    destruct (typeAIResponse variant d5 v) as [d6 p]. cbn [fst] in T.
    assert (C6 : same_composer d4 d6).
    { destruct C5 as (A1 & A2 & A3 & A4 & A5).
      destruct T as (B1 & B2 & B3 & B4 & B5).
      repeat split; congruence. }
    destruct p as [[]| |]; apply F; auto.
  - apply F, Err. repeat split.
  - apply F. repeat split.
Qed.

Lemma sendMessage_resets_input_witness :
  let d' := fst (sendMessage canonical_numbers dashboard_script_new idle
                   FetchRejected) in
  messageInput_value d' = ""
  /\ charCount d' = 0
  /\ attachedImages d' = []
  /\ sendBtn_disabled d' = true
  /\ requests d'
     = [{| req_url := "http://localhost:8000/api/v1/chat";
           req_bearer := None; req_message := "hello"; req_images := [] |}].
Proof.
  apply (sendMessage_resets_input canonical_numbers dashboard_script_new idle
           FetchRejected).
  reflexivity.
Defined.

End PromaExtras.

(** ** The sign-in dialog *)

Module AuthDialogFacts.

Import AuthDialog.

(** The sign-in dialog of the dashboard (dashboard-script.js, lines 518-554;
    dashboard-script-new.js, lines 735-815) shows one panel at a time:
    whatever showed before, [showAuthLoading], [showLoginForm] and
    [showRegisterForm] leave exactly one of the loading panel and the two
    forms showing; [hideAuthLoading] never shows a panel and the two message
    methods touch none.  The failure path of the handlers, which hides the
    loading panel, shows a form and then the message, ends with that form and
    the message showing.  In dashboard-script.js a message shown before the
    login form is hidden by it; in dashboard-script-new.js it stays. *)
Theorem dialog_shows_one_panel :
  (forall (copy : Copy) (u : Dialog),
      shown (showAuthLoading u) = 1
      /\ shown (showLoginForm copy u) = 1
      /\ shown (showRegisterForm u) = 1)
  /\ (forall (u : Dialog) (message : string),
         shown (hideAuthLoading u) <= shown u
         /\ shown (showAuthError message u) = shown u
         /\ shown (hideAuthError u) = shown u)
  /\ (forall (copy : Copy) (u : Dialog) (message : string),
         let u' := showAuthError message
                     (showLoginForm copy (hideAuthLoading u)) in
         loginFormContainer_hidden u' = false
         /\ shown u' = 1
         /\ authError_hidden u' = false
         /\ authError_textContent u' = message)
  /\ (forall (u : Dialog) (message : string),
         authError_hidden
           (showLoginForm dashboard_script (showAuthError message u)) = true
         /\ authError_hidden
              (showLoginForm dashboard_script_new (showAuthError message u))
            = false
         /\ authError_textContent
              (showLoginForm dashboard_script_new (showAuthError message u))
            = message).
Proof.
  split; [|split; [|split]].
  - intros [|] u; repeat split.
  - intros [[|] [|] [|] e t] message; cbn; repeat split; lia.
  - intros [|] u message; repeat split.
  - intros u message; repeat split.
Qed.

End AuthDialogFacts.

(** ** [JSON.parse] reads back what [JSON.stringify] writes *)

Module StringifyFacts.

Import JS JSON Stringify.

Lemma quote_chars_cons (c : ascii) (r : list ascii) :
  well_formed (c :: r) = true ->
  quote_chars (c :: r) = quote_one c ++ quote_chars r.
Proof.
  intros H. cbn [well_formed] in H. apply andb_true_iff in H as [H _].
  apply negb_true_iff in H.
  cbn [quote_chars]. unfold quote_one. cbv zeta.
  destruct (short_escape (N_of_ascii c)); [reflexivity|].
  destruct (N_of_ascii c <? 32)%N; [reflexivity|].
  destruct r as [|a [|b r']]; try reflexivity.
  now rewrite H.
Qed.

Lemma parse_units_one (c : ascii) (tail : list ascii) :
  parse_units (quote_one c ++ tail)
  = match parse_units tail with
    | Parsed us r => Parsed (unit_of c :: us) r
    | _ => SyntaxError
    end.
Proof.
  destruct c as [[|] [|] [|] [|] [|] [|] [|] [|]];
    cbn; destruct (parse_units tail); reflexivity.
Qed.

Lemma encode_unit (c : ascii) (us : list StringUnit) :
  encode (unit_of c :: us) = c :: encode us.
Proof.
  destruct c as [[|] [|] [|] [|] [|] [|] [|] [|]];
    destruct us as [|[x|v] us]; reflexivity.
Qed.

Lemma well_formed_tail (c : ascii) (r : list ascii) :
  well_formed (c :: r) = true -> well_formed r = true.
Proof. cbn [well_formed]. intros H. now apply andb_true_iff in H. Qed.

Lemma parse_units_quote (l rest : list ascii) :
  well_formed l = true ->
  parse_units (quote_chars l ++ dquote :: rest) = Parsed (map unit_of l) rest.
Proof.
  induction l as [|c l IH]; intros H.
  - cbn [quote_chars app parse_units map]. now rewrite Ascii.eqb_refl.
  - rewrite quote_chars_cons by exact H. rewrite <- app_assoc.
    rewrite parse_units_one, IH by (apply (well_formed_tail c); exact H).
    reflexivity.
Qed.

Lemma encode_units (l : list ascii) : encode (map unit_of l) = l.
Proof.
  induction l as [|c l IH]; [reflexivity|].
  cbn [map]. now rewrite encode_unit, IH.
Qed.

(** A quoted string is read back as the string. *)
Lemma parse_string_quote (s : string) (rest : list ascii) :
  well_formed (chars s) = true ->
  parse_string (quote_chars (chars s) ++ dquote :: rest) = Parsed s rest.
Proof.
  intros H. unfold parse_string. rewrite parse_units_quote by exact H.
  now rewrite encode_units, StreamingConsumer.text_chars.
Qed.

Lemma chars_text (l : list ascii) : chars (text l) = l.
Proof. apply list_ascii_of_string_of_list_ascii. Qed.

Lemma chars_quote (s : string) :
  chars (quote s) = dquote :: quote_chars (chars s) ++ [dquote].
Proof.
  unfold quote. cbn [chars list_ascii_of_string].
  change list_ascii_of_string with chars.
  now rewrite StreamingConsumer.chars_app, chars_text.
Qed.

End StringifyFacts.

(** ** FaramexChat: what the storage keeps *)

Module AccountFacts.

Import JS Storage Stringify StringifyFacts FaramexAccount.

Lemma getItem_removeItem_same (key : string) (s : Store) :
  getItem key (removeItem key s) = None.
Proof.
  unfold removeItem. induction s as [|[k v] s IH]; [reflexivity|].
  cbn [filter fst]. destruct (String.eqb k key) eqn:E; cbn [negb].
  - exact IH.
  - cbn [getItem]. rewrite E. exact IH.
Qed.

Lemma getItem_removeItem_other (key other : string) (s : Store) :
  String.eqb other key = false ->
  getItem key (removeItem other s) = getItem key s.
Proof.
  intros H. unfold removeItem. induction s as [|[k v] s IH]; [reflexivity|].
  cbn [filter fst getItem].
  destruct (String.eqb k other) eqn:E; cbn [negb].
  - apply String.eqb_eq in E. subst k. rewrite H. exact IH.
  - cbn [getItem]. now rewrite IH.
Qed.

Lemma getItem_setItem_same (key value : string) (s : Store) :
  getItem key (setItem key value s) = Some value.
Proof. unfold setItem. cbn [getItem]. now rewrite String.eqb_refl. Qed.

Lemma getItem_setItem_other (key other value : string) (s : Store) :
  String.eqb other key = false ->
  getItem key (setItem other value s) = getItem key s.
Proof.
  intros H. unfold setItem. cbn [getItem]. rewrite H.
  now apply getItem_removeItem_other.
Qed.

Lemma chars_cons (c : ascii) (s : string) :
  JSON.chars (String c s) = c :: JSON.chars s.
Proof. reflexivity. Qed.

Ltac chars_norm :=
  rewrite ?StreamingConsumer.chars_app, ?chars_quote, ?chars_cons;
  change (JSON.chars "") with (@nil ascii);
  repeat first [rewrite <- app_assoc | rewrite <- app_comm_cons
                | rewrite app_nil_l].

(** How the parser reads an object written by [stringify]. *)
Lemma parse_value_object (f : nat) (s : list ascii) :
  JSON.parse_value (S f) ("{"%char :: JSON.dquote :: s)
  = JSON.parse_members f (JSON.dquote :: s) [].
Proof. reflexivity. Qed.

Lemma parse_value_string (f : nat) (s : string) (rest : list ascii) :
  well_formed (JSON.chars s) = true ->
  JSON.parse_value (S f)
    (JSON.dquote :: quote_chars (JSON.chars s) ++ JSON.dquote :: rest)
  = JSON.Parsed (Str s) rest.
Proof.
  intros H. cbn -[JSON.parse_string JSON.chars app quote_chars].
  now rewrite parse_string_quote.
Qed.

Lemma parse_value_bool (f : nat) (b : bool) (rest : list ascii) :
  JSON.parse_value (S f)
    (JSON.chars (if b then "true" else "false") ++ rest)
  = JSON.Parsed (Boolean b) rest.
Proof. destruct b; reflexivity. Qed.

Lemma parse_members_more (f : nat) (key : string) (s r : list ascii)
    (acc : list (string * Value)) (v : Value) :
  well_formed (JSON.chars key) = true ->
  JSON.parse_value f s = JSON.Parsed v (","%char :: r) ->
  JSON.parse_members (S f)
    (JSON.dquote :: quote_chars (JSON.chars key)
     ++ JSON.dquote :: ":"%char :: s) acc
  = JSON.parse_members f r ((key, v) :: acc).
Proof.
  intros H V.
  cbn -[JSON.parse_string JSON.chars app quote_chars].
  rewrite parse_string_quote by exact H.
  cbn -[JSON.parse_string JSON.chars app quote_chars].
  rewrite V. reflexivity.
Qed.

Lemma parse_members_last (f : nat) (key : string) (s r : list ascii)
    (acc : list (string * Value)) (v : Value) :
  well_formed (JSON.chars key) = true ->
  JSON.parse_value f s = JSON.Parsed v ("}"%char :: r) ->
  JSON.parse_members (S f)
    (JSON.dquote :: quote_chars (JSON.chars key)
     ++ JSON.dquote :: ":"%char :: s) acc
  = JSON.Parsed (Object (rev ((key, v) :: acc))) r.
Proof.
  intros H V.
  cbn -[JSON.parse_string JSON.chars app quote_chars].
  rewrite parse_string_quote by exact H.
  cbn -[JSON.parse_string JSON.chars app quote_chars].
  rewrite V. reflexivity.
Qed.






Lemma stringify_first_save (engine : Engine) (url : string)
    (auto sound : bool) :
  stringify engine
    (Object (("apiUrl", Str url)
             :: default_settings
                ++ [("autoScroll", Boolean auto);
                    ("soundNotifications", Boolean sound)]))
  = Some (settings_text url auto sound).
Proof. destruct auto, sound; reflexivity. Qed.

Lemma stringify_later_save (engine : Engine) (url loaded : string)
    (auto0 sound0 auto sound : bool) :
  stringify engine
    (Object (("apiUrl", Str url)
             :: (default_settings
                 ++ [("apiUrl", Str loaded); ("autoScroll", Boolean auto0);
                     ("soundNotifications", Boolean sound0)])
                ++ [("autoScroll", Boolean auto);
                    ("soundNotifications", Boolean sound)]))
  = Some (settings_text loaded auto sound).
Proof. destruct auto0, sound0, auto, sound; reflexivity. Qed.

Lemma settings_text_chars (url : string) (auto sound : bool) :
  JSON.chars (settings_text url auto sound)
  = "{"%char :: JSON.dquote
    :: quote_chars (JSON.chars "apiUrl")
    ++ JSON.dquote :: ":"%char :: JSON.dquote
    :: quote_chars (JSON.chars url)
    ++ JSON.dquote :: ","%char :: JSON.dquote
    :: quote_chars (JSON.chars "autoScroll")
    ++ JSON.dquote :: ":"%char
    :: JSON.chars (if auto then "true" else "false")
    ++ ","%char :: JSON.dquote
    :: quote_chars (JSON.chars "soundNotifications")
    ++ JSON.dquote :: ":"%char
    :: JSON.chars (if sound then "true" else "false")
    ++ ["}"%char].
Proof.
  unfold settings_text, join. cbn [String.concat].
  destruct auto, sound; chars_norm; reflexivity.
Qed.

Lemma parse_value_settings (f : nat) (url : string) (auto sound : bool) :
  well_formed (JSON.chars url) = true ->
  JSON.parse_value (S (S (S (S (S f)))))
    (JSON.chars (settings_text url auto sound))
  = JSON.Parsed
      (Object [("apiUrl", Str url); ("autoScroll", Boolean auto);
               ("soundNotifications", Boolean sound)]) [].
Proof.
  intros Hu. rewrite settings_text_chars.
  rewrite parse_value_object.
  erewrite (parse_members_more _ "apiUrl");
    [|reflexivity | now apply parse_value_string].
  erewrite (parse_members_more _ "autoScroll");
    [|reflexivity | apply parse_value_bool].
  erewrite (parse_members_last _ "soundNotifications");
    [|reflexivity | apply parse_value_bool].
  reflexivity.
Qed.

Lemma settings_text_length (url : string) (auto sound : bool) :
  5 <= String.length (settings_text url auto sound).
Proof.
  rewrite <- JSONFacts.chars_length, settings_text_chars.
  cbn [List.length]. rewrite length_app. cbn [List.length]. lia.
Qed.

Lemma parse_settings (url : string) (auto sound : bool) :
  well_formed (JSON.chars url) = true ->
  JSON.parse (settings_text url auto sound)
  = Some (Object [("apiUrl", Str url); ("autoScroll", Boolean auto);
                  ("soundNotifications", Boolean sound)]).
Proof.
  intros Hu. unfold JSON.parse.
  assert (L := settings_text_length url auto sound).
  destruct (String.length (settings_text url auto sound))
    as [|[|[|[|[|n]]]]]; try lia.
  replace (2 * S (S (S (S (S n)))) + 1)
    with (S (S (S (S (S (2 * n + 6)))))) by lia.
  now rewrite parse_value_settings.
Qed.

End AccountFacts.

Module AccountExtras.

Import JS Storage Stringify StringifyFacts FaramexAccount AccountFacts.

Section Account.

Variable engine : Engine.


Lemma loadSettings_only_settings (a x : App) :
  loadSettings engine a = Some x ->
  x = set_settings (settings x) (set_apiUrl (apiUrl x) a).
Proof.
  unfold loadSettings.
  destruct (truthy _); [|intros [= <-]; destruct a; reflexivity].
  destruct (getItem _ _) as [text|]; [|intros [= <-]; destruct a; reflexivity].
  destruct (JSON.parse text) as [saved|]; [|discriminate].
  destruct (Get saved "apiUrl") as [url|]; [|discriminate].
  intros [= <-]. destruct a; reflexivity.
Qed.


(** What [checkAuthentication] finds in the storage after [hideLogin]. *)
Lemma hideLogin_storage (a : App) :
  getItem "faramex_token" (localStorage (hideLogin engine a))
  = Some (match token a with Some t => t | None => "null" end)
  /\ getItem "faramex_user" (localStorage (hideLogin engine a))
     = Some (match stringify engine (currentUser a) with
             | Some t => t
             | None => "undefined"
             end)
  /\ getItem "faramex_settings" (localStorage (hideLogin engine a))
     = getItem "faramex_settings" (localStorage a).
Proof.
  unfold hideLogin. cbn [localStorage set_localStorage].
  split; [|split].
  - rewrite getItem_setItem_other by reflexivity.
    apply getItem_setItem_same.
  - apply getItem_setItem_same.
  - now rewrite !getItem_setItem_other by reflexivity.
Qed.

Lemma loadSettings_saved (a : App) (url : string) (auto sound : bool) :
  well_formed (JSON.chars url) = true ->
  getItem "faramex_settings" (localStorage a)
  = Some (settings_text url auto sound) ->
  loadSettings engine a
  = Some (set_settings
            (settings a
             ++ [("apiUrl", Str url); ("autoScroll", Boolean auto);
                 ("soundNotifications", Boolean sound)])
            (set_apiUrl
               (if String.eqb url "" then apiUrl a else Str url) a)).
Proof.
  intros W G. unfold loadSettings. rewrite G.
  change (truthy (Some (settings_text url auto sound))) with true.
  cbv iota. rewrite parse_settings by exact W.
  cbn [Get lookup String.eqb Ascii.eqb Bool.eqb ToBoolean own_enumerable].
  now destruct (String.eqb url "").
Qed.

Lemma saveSettings_storage (a : App) :
  getItem "faramex_settings" (localStorage (saveSettings engine a))
  = Some (match stringify engine
                  (Object (("apiUrl", Str (apiUrlInput_value a))
                           :: settings a
                              ++ [("autoScroll",
                                   Boolean (autoScrollCheckbox_checked a));
                                  ("soundNotifications",
                                   Boolean
                                     (soundNotificationsCheckbox_checked a))]))
          with
          | Some t => t
          | None => "undefined"
          end).
Proof. unfold saveSettings. cbn [localStorage hideSettings
  set_settingsModal_show set_localStorage]. apply getItem_setItem_same. Qed.

End Account.



(** A click on the backdrop of the login dialog while nobody is logged in,
    at the first visit or after [logout], breaks the next load of the page
    (script.js, lines 76-79, 442-447 and 423-436): [hideLogin] hides the
    dialog and writes the missing token and the missing user to the storage
    as the text null; the next constructor takes both for a saved login,
    parses the user to [null] and throws on the read of its workspace, so the
    login dialog is never shown again. *)
Theorem backdrop_click_breaks_the_next_load
    (engine : Engine) (a reloaded : App) (response : PromaDashboard.Fetch)
    (now : N) :
  token a = None ->
  currentUser a = Null ->
  localStorage reloaded = localStorage (click engine on_loginModal a) ->
  loginModal_show (click engine on_loginModal a) = false
  /\ getItem "faramex_token" (localStorage reloaded) = Some "null"
  /\ getItem "faramex_user" (localStorage reloaded) = Some "null"
  /\ construct engine reloaded response now = None.
Proof.
  intros T U L. cbn [click] in *.
  destruct (hideLogin_storage engine a) as (G1 & G2 & _).
  rewrite T in G1. rewrite U in G2. cbn [stringify] in G2.
  rewrite <- L in G1, G2.
  split; [reflexivity|]. split; [exact G1|]. split; [exact G2|].
  unfold construct.
  destruct (loadSettings engine (initialize reloaded)) as [x|] eqn:E;
    [|reflexivity].
  apply loadSettings_only_settings in E.
  assert (S : localStorage x = localStorage reloaded)
    by (rewrite E; reflexivity).
  unfold checkAuthentication. rewrite S, G1, G2. reflexivity.
Qed.

Lemma backdrop_click_breaks_the_next_load_witness :
  loginModal_show
    (click canonical_numbers on_loginModal
       (logout logged_in)) = false
  /\ getItem "faramex_token"
       (localStorage
          (reload (click canonical_numbers on_loginModal
                     (logout logged_in))))
     = Some "null"
  /\ getItem "faramex_user"
       (localStorage
          (reload (click canonical_numbers on_loginModal
                     (logout logged_in))))
     = Some "null"
  /\ construct canonical_numbers
       (reload (click canonical_numbers on_loginModal
                  (logout logged_in)))
       PromaDashboard.FetchRejected 5
     = None.
Proof.
  apply (backdrop_click_breaks_the_next_load canonical_numbers
           (logout logged_in));
    vm_compute; reflexivity.
Defined.

(** [logout] forgets the login (script.js, lines 449-457): on the storage it
    leaves, the next constructor, when its settings load, sets no token and
    shows the login dialog. *)
Theorem logout_forgets_the_login
    (engine : Engine) (a reloaded x : App) (response : PromaDashboard.Fetch)
    (now : N) :
  localStorage reloaded = localStorage (logout a) ->
  loadSettings engine (initialize reloaded) = Some x ->
  construct engine reloaded response now = Some (showLogin x)
  /\ token (showLogin x) = None
  /\ loginModal_show (showLogin x) = true
  /\ token (logout a) = None
  /\ currentUser (logout a) = Null.
Proof.
  intros L E. unfold construct. rewrite E.
  apply loadSettings_only_settings in E.
  assert (S : localStorage x = localStorage reloaded)
    by (rewrite E; reflexivity).
  assert (T : token x = None) by (rewrite E; reflexivity).
  assert (G : getItem "faramex_token" (localStorage x) = None).
  { rewrite S, L. unfold logout. cbn [localStorage clearChat showLogin
      set_chatMessages_welcome set_loginModal_show set_localStorage].
    rewrite getItem_removeItem_other by reflexivity.
    apply getItem_removeItem_same. }
  unfold checkAuthentication. rewrite G. cbn [truthy andb].
  repeat split. exact T.
Qed.

Lemma logout_forgets_the_login_witness :
  construct canonical_numbers
    (reload (logout logged_in))
    PromaDashboard.FetchRejected 5
  = Some (showLogin (initialize (reload (logout logged_in))))
  /\ token (showLogin
              (initialize (reload (logout logged_in))))
     = None
  /\ loginModal_show
       (showLogin (initialize (reload (logout logged_in))))
     = true
  /\ token (logout logged_in) = None
  /\ currentUser (logout logged_in) = Null.
Proof.
  apply (logout_forgets_the_login canonical_numbers logged_in);
    vm_compute; reflexivity.
Defined.

(** A changed API URL does not survive a reload once settings have been
    loaded (script.js, lines 491-511).  Settings saved for the first time are
    read back at the next load, an empty URL giving way to the default one.
    From then on the loaded settings hold the URL among their own keys, and
    [saveSettings] spreads them over the new URL: the instance uses the new
    URL until the page is reloaded, the storage keeps the first one, and the
    next load brings the first one back.  The two check boxes are saved and
    read back every time. *)
Theorem changed_api_url_is_lost_on_reload
    (engine : Engine) (x0 : App) (first_url second_url : string)
    (auto1 sound1 auto2 sound2 : bool) :
  settings x0 = default_settings ->
  well_formed (JSON.chars first_url) = true ->
  let kept := if String.eqb first_url "" then default_url else Str first_url in
  let saved1 :=
    saveSettings engine (set_controls first_url auto1 sound1 x0) in
  match loadSettings engine (initialize (reload saved1)) with
  | Some x1 =>
      apiUrl x1 = kept
      /\ member "autoScroll" (settings x1) = Boolean auto1
      /\ member "soundNotifications" (settings x1) = Boolean sound1
      /\ let saved2 :=
           saveSettings engine (set_controls second_url auto2 sound2 x1) in
         apiUrl saved2 = Str second_url
         /\ getItem "faramex_settings" (localStorage saved2)
            = Some (settings_text first_url auto2 sound2)
         /\ match loadSettings engine (initialize (reload saved2)) with
            | Some x2 =>
                apiUrl x2 = kept
                /\ member "autoScroll" (settings x2) = Boolean auto2
                /\ member "soundNotifications" (settings x2) = Boolean sound2
            | None => False
            end
  | None => False
  end.
Proof.
  intros H W. cbv zeta.
  assert (G1 := saveSettings_storage engine
                  (set_controls first_url auto1 sound1 x0)).
  cbn [apiUrlInput_value autoScrollCheckbox_checked
       soundNotificationsCheckbox_checked settings set_controls] in G1.
  rewrite H, stringify_first_save in G1.
  rewrite (loadSettings_saved engine _ first_url auto1 sound1 W)
    by exact G1.
  cbn [apiUrl settings set_settings set_apiUrl initialize].
  split; [reflexivity|]. split; [reflexivity|]. split; [reflexivity|].
  split; [reflexivity|].
  match goal with
  | |- context [saveSettings engine ?y] =>
      assert (G2 := saveSettings_storage engine y)
  end.
  cbn [apiUrlInput_value autoScrollCheckbox_checked
       soundNotificationsCheckbox_checked settings set_controls
       set_settings set_apiUrl initialize] in G2.
  rewrite stringify_later_save in G2.
  split; [exact G2|].
  rewrite (loadSettings_saved engine _ first_url auto2 sound2 W)
    by exact G2.
  cbn [apiUrl settings set_settings set_apiUrl initialize].
  repeat split.
Qed.

Lemma changed_api_url_is_lost_on_reload_witness :
  let kept := if String.eqb "http://a" "" then default_url
              else Str "http://a" in
  let saved1 :=
    saveSettings canonical_numbers (set_controls "http://a" false true visitor) in
  match loadSettings canonical_numbers (initialize (reload saved1)) with
  | Some x1 =>
      apiUrl x1 = kept
      /\ member "autoScroll" (settings x1) = Boolean false
      /\ member "soundNotifications" (settings x1) = Boolean true
      /\ let saved2 :=
           saveSettings canonical_numbers
             (set_controls "http://b" true true x1) in
         apiUrl saved2 = Str "http://b"
         /\ getItem "faramex_settings" (localStorage saved2)
            = Some (settings_text "http://a" true true)
         /\ match loadSettings canonical_numbers (initialize (reload saved2))
            with
            | Some x2 =>
                apiUrl x2 = kept
                /\ member "autoScroll" (settings x2) = Boolean true
                /\ member "soundNotifications" (settings x2) = Boolean true
            | None => False
            end
  | None => False
  end.
Proof.
  apply (changed_api_url_is_lost_on_reload canonical_numbers visitor
           "http://a" "http://b" false true true true);
    vm_compute; reflexivity.
Defined.

End AccountExtras.

(** ** The account of the dashboard *)

Module DashboardFacts.

Import JS Storage Stringify DashboardAccount.

Lemma same_session_refl (a : Account) : same_session a a.
Proof. repeat split. Qed.

Lemma same_session_trans (a b c : Account) :
  same_session a b -> same_session b c -> same_session a c.
Proof.
  unfold same_session. intros (?&?&?&?&?&?) (?&?&?&?&?&?).
  repeat split; congruence.
Qed.

Lemma getItem_removeItem_absent (key other : string) (s : Store) :
  getItem key s = None -> getItem key (removeItem other s) = None.
Proof.
  intros H. destruct (String.eqb other key) eqn:E.
  - apply String.eqb_eq in E. subst other.
    apply AccountFacts.getItem_removeItem_same.
  - now rewrite AccountFacts.getItem_removeItem_other.
Qed.

Lemma removed_stay_absent (keys : list string) (key : string) (s : Store) :
  getItem key s = None ->
  getItem key (fold_left (fun s k => removeItem k s) keys s) = None.
Proof.
  revert s. induction keys as [|k keys IH]; intros s H; [exact H|].
  cbn [fold_left]. apply IH. now apply getItem_removeItem_absent.
Qed.

Lemma removed_are_absent (keys : list string) (key : string) (s : Store) :
  In key keys ->
  getItem key (fold_left (fun s k => removeItem k s) keys s) = None.
Proof.
  revert s. induction keys as [|k keys IH]; intros s H; [destruct H|].
  cbn [fold_left]. destruct H as [H|H].
  - subst k. apply removed_stay_absent.
    apply AccountFacts.getItem_removeItem_same.
  - now apply IH.
Qed.

Lemma clearAuthData_items (a : Account) (key : string) :
  In key login_items -> getItem key (localStorage (clearAuthData a)) = None.
Proof.
  intros H. cbn [clearAuthData localStorage set_localStorage].
  now apply removed_are_absent.
Qed.

Ltac fields :=
  cbn [fst snd apiUrl token sessionId workspaceId agentId currentUser settings
       localStorage requests authModal_display dialog authError_className
       currentUserEl_textContent headerCurrentUser_textContent
       onlineStatus_textContent userDropdown_hidden headerDropdown_hidden
       registerForm_reset loginUsernameInput_value chatMessages timers
       set_token set_workspaceId set_agentId set_currentUser set_settings
       set_localStorage set_requests set_authModal_display set_dialog
       set_authError_className set_userDropdown_hidden
       set_headerDropdown_hidden set_registerForm_reset
       set_loginUsernameInput_value set_chatMessages set_timers clear_session
       set_userInfo store send on_dialog clearChat showAuthLoading
       hideAuthLoading showLoginForm showRegisterForm hideAuthError
       showAuthError showAuthSuccess initialize].

Ltac fields_in H :=
  cbn [fst snd apiUrl token sessionId workspaceId agentId currentUser settings
       localStorage requests authModal_display dialog authError_className
       currentUserEl_textContent headerCurrentUser_textContent
       onlineStatus_textContent userDropdown_hidden headerDropdown_hidden
       registerForm_reset loginUsernameInput_value chatMessages timers
       set_token set_workspaceId set_agentId set_currentUser set_settings
       set_localStorage set_requests set_authModal_display set_dialog
       set_authError_className set_userDropdown_hidden
       set_headerDropdown_hidden set_registerForm_reset
       set_loginUsernameInput_value set_chatMessages set_timers clear_session
       set_userInfo store send on_dialog clearChat showAuthLoading
       hideAuthLoading showLoginForm showRegisterForm hideAuthError
       showAuthError showAuthSuccess initialize] in H.

Section Methods.

Variable engine : Engine.

Lemma showAuthError_of_session (v : Value) (a : Account) :
  same_session (fst (showAuthError_of engine v a)) a.
Proof.
  unfold showAuthError_of, bind, checked, does.
  destruct (ToString engine v); repeat split.
Qed.

Lemma signUp_session (username : option string) (ok : bool) (data : Value)
    (a : Account) :
  same_session (fst (signUp engine username ok data a)) a.
Proof.
  unfold signUp, bind, checked, does, ret.
  destruct ok.
  - destruct (Get data "access_token") as [tok|]; [|repeat split].
    destruct (ToBoolean engine tok); [repeat split|].
    destruct (Get data "detail") as [detail|]; [|repeat split].
    eapply same_session_trans; [apply showAuthError_of_session|repeat split].
  - destruct (Get data "detail") as [detail|]; [|repeat split].
    eapply same_session_trans; [apply showAuthError_of_session|repeat split].
Qed.

Lemma try_catch_session (m : Run unit) (handler : Account -> Account)
    (a : Account) :
  same_session (fst (m a)) a ->
  (forall s, same_session (handler s) s) ->
  same_session (try_catch m handler a) a.
Proof.
  intros Hm Hh. unfold try_catch. destruct (m a) as [s [[]|]]; cbn in Hm.
  - exact Hm.
  - eapply same_session_trans; [apply Hh|exact Hm].
Qed.

Lemma signIn_granted (data tok user name ws : Value) (t n w : string)
    (a : Account) :
  Get data "access_token" = Some tok -> ToBoolean engine tok = true ->
  ToString engine tok = Some t ->
  Get data "user" = Some user -> Get user "user_name" = Some name ->
  ToString engine name = Some n ->
  Get user "workspace_id" = Some ws -> ToString engine ws = Some w ->
  signIn engine data a
  = (clearChat
       (set_userInfo (if ToBoolean engine name then n else "User")
          (set_authModal_display "none"
             (store "proma_user_data" (stringified (stringify engine user))
                (store "proma_agent" "project_manager_agent"
                   (store "proma_workspace" w
                      (store "proma_user" n
                         (store "proma_token" t
                            (set_agentId "project_manager_agent"
                               (set_workspaceId ws
                                  (set_currentUser name
                                     (set_token tok a))))))))))),
     Some tt).
Proof.
  intros H1 H2 H3 H4 H5 H6 H7 H8.
  unfold signIn, bind, checked, does, setItem_of, updateUserInfo, bind,
    checked, does.
  rewrite H1, H2, H4, H5, H7. fields.
  rewrite H3. fields. rewrite H6. fields. rewrite H8. fields.
  unfold PromaDashboard.or_else.
  destruct (ToBoolean engine name).
  - rewrite H6. reflexivity.
  - cbn [ToString]. reflexivity.
Qed.

Lemma checkAuthentication_stored (a : Account) (t n : string) :
  getItem "proma_token" (localStorage a) = Some t -> t <> "" ->
  getItem "proma_user" (localStorage a) = Some n -> n <> "" ->
  checkAuthentication engine a
  = (set_timers (timers a ++ [500])
       (set_userInfo n
          (set_authModal_display "none"
             (set_agentId
                (match getItem "proma_agent" (localStorage a) with
                 | Some g =>
                     if String.eqb g "" then "project_manager_agent" else g
                 | None => "project_manager_agent"
                 end)
                (set_workspaceId
                   (Str (match getItem "proma_workspace" (localStorage a) with
                         | Some w => if String.eqb w "" then "default" else w
                         | None => "default"
                         end))
                   (set_currentUser (Str n) (set_token (Str t) a)))))),
     Some tt).
Proof.
  intros H1 H2 H3 H4. unfold checkAuthentication. rewrite H1, H3.
  apply String.eqb_neq in H2, H4. unfold truthy. rewrite H2, H4.
  cbn [negb andb].
  unfold bind, checked, does, updateUserInfo, bind, checked, does. fields.
  unfold PromaDashboard.or_else. cbn [ToBoolean]. rewrite H4.
  cbn [negb ToString].
  reflexivity.
Qed.

Lemma stored_login (s : Store) (t n w g d : string) :
  let s' :=
    setItem "proma_user_data" d
      (setItem "proma_agent" g
         (setItem "proma_workspace" w
            (setItem "proma_user" n (setItem "proma_token" t s)))) in
  getItem "proma_token" s' = Some t /\ getItem "proma_user" s' = Some n
  /\ getItem "proma_workspace" s' = Some w /\ getItem "proma_agent" s' = Some g
  /\ getItem "proma_settings" s' = getItem "proma_settings" s.
Proof.
  cbv zeta.
  repeat split;
    repeat first
      [ rewrite AccountFacts.getItem_setItem_same
      | rewrite AccountFacts.getItem_setItem_other by reflexivity ];
    reflexivity.
Qed.


Lemma caught_asks_to_login (message : string) (s : Account) :
  let s' := showAuthError message (showLoginForm (hideAuthLoading s)) in
  asks_to_login s' /\ authError_className s' = red
  /\ authModal_display s' = authModal_display s
  /\ AuthDialog.authError_textContent (dialog s') = message.
Proof. repeat split. Qed.

Lemma signIn_ends (data : Value) (a : Account) :
  match signIn engine data a with
  | (s, Some _) =>
      (authModal_display s = "none" /\ chatMessages s = []
       /\ exists t n w d,
           ToString engine (token s) = Some t
           /\ ToString engine (currentUser s) = Some n
           /\ ToString engine (workspaceId s) = Some w
           /\ localStorage s
              = setItem "proma_user_data" d
                  (setItem "proma_agent" (agentId s)
                     (setItem "proma_workspace" w
                        (setItem "proma_user" n
                           (setItem "proma_token" t (localStorage a))))))
      \/ (asks_to_login s /\ authError_className s = red
          /\ same_session s a)
  | (s, None) => authModal_display s = authModal_display a
  end.
Proof.
  unfold signIn, bind, checked, does, setItem_of, updateUserInfo, bind,
    checked, does, showAuthError_of, bind, checked, does.
  destruct (Get data "access_token") as [tok|]; [|reflexivity].
  destruct (ToBoolean engine tok).
  - destruct (Get data "user") as [user|]; [|reflexivity].
    destruct (Get user "user_name") as [name|]; [|reflexivity].
    destruct (Get user "workspace_id") as [ws|]; [|reflexivity].
    fields.
    destruct (ToString engine tok) as [t|] eqn:Et; [|reflexivity]. fields.
    destruct (ToString engine name) as [n|] eqn:En; [|reflexivity]. fields.
    destruct (ToString engine ws) as [w|] eqn:Ew; [|reflexivity]. fields.
    assert (U : ToString engine
                  (PromaDashboard.or_else engine name (Str "User"))
                = Some (if ToBoolean engine name then n else "User")).
    { unfold PromaDashboard.or_else. now destruct (ToBoolean engine name). }
    rewrite U. left. fields. split; [reflexivity|]. split; [reflexivity|].
    exists t, n, w, (stringified (stringify engine user)).
    repeat split; assumption.
  - destruct (Get data "detail") as [detail|]; [|reflexivity].
    destruct (ToString engine _) as [m|]; [|reflexivity].
    right. repeat split.
Qed.

Lemma addWelcomeMessage_frame (a : Account) :
  currentUser (addWelcomeMessage engine a) = currentUser a
  /\ timers (addWelcomeMessage engine a) = timers a.
Proof.
  unfold addWelcomeMessage. destruct (existsb is_welcome (chatMessages a));
    [split; reflexivity|].
  destruct (ToString engine _); split; reflexivity.
Qed.

(** Once the welcome message is there, the timers that are left add
    nothing. *)
Lemma welcome_stays (delays : list nat) (name : string) (s : Account) :
  chatMessages s = [Welcome name] -> timers s = [] ->
  let s' := fold_left (fun s _ => addWelcomeMessage engine s) delays s in
  chatMessages s' = [Welcome name] /\ timers s' = [].
Proof.
  revert s. induction delays as [|d delays IH]; intros s Hc Ht;
    [split; assumption|].
  cbn [fold_left]. apply IH.
  - unfold addWelcomeMessage. rewrite Hc. cbn [existsb is_welcome orb].
    exact Hc.
  - now rewrite (proj2 (addWelcomeMessage_frame s)).
Qed.

Lemma welcome_comes (delays : list nat) (name : string) (s : Account) :
  ToString engine (PromaDashboard.or_else engine (currentUser s) (Str "bạn"))
  = Some name ->
  chatMessages s = [] -> timers s = [] -> delays <> [] ->
  let s' := fold_left (fun s _ => addWelcomeMessage engine s) delays s in
  chatMessages s' = [Welcome name] /\ timers s' = [].
Proof.
  intros H Hc Ht Hd. destruct delays as [|d delays]; [contradiction|].
  cbn [fold_left]. apply welcome_stays.
  - unfold addWelcomeMessage. rewrite Hc. cbn [existsb]. rewrite H.
    fields. reflexivity.
  - now rewrite (proj2 (addWelcomeMessage_frame s)).
Qed.

End Methods.

End DashboardFacts.

Module DashboardExtras.

Import JS Storage Stringify DashboardAccount DashboardFacts.

(** [handleRegister] of dashboard-script-new.js never signs in:
    whatever the form holds and whatever the server answers, an access token
    included, the token, the user, the workspace and the agent of the
    instance, the storage and the [display] style of the dialog are what they
    were. *)
Theorem register_never_signs_in (engine : Engine) (a : Account)
    (username password confirmPassword : option string)
    (response : PromaDashboard.Fetch) :
  same_session
    (fst (handleRegister engine a username password confirmPassword response))
    a.
Proof.
  unfold handleRegister.
  destruct (same_field password confirmPassword); cbn [negb];
    [|repeat split].
  destruct password as [p|]; [|repeat split].
  destruct (utf16_length p <? 6)%nat; [repeat split|].
  destruct (json response) as [| |ok data]; try (repeat split; fail).
  cbn [fst]. eapply same_session_trans.
  - apply try_catch_session; [apply signUp_session|].
    intros s. repeat split.
  - repeat split.
Qed.

(** The two checks of [handleRegister] come before the request: when
    the two passwords differ, or are the same with fewer than six code
    units, nothing is sent and nothing is stored, the handler ends, and the
    dialog shows the register form alone under a red message.  The message
    tells that the passwords differ whenever they do, also when they are
    short. *)
Theorem register_checks_come_before_the_request (engine : Engine)
    (a : Account) (username : option string) (p q : string)
    (response : PromaDashboard.Fetch) :
  p <> q \/ utf16_length p < 6 ->
  let r := handleRegister engine a username (Some p) (Some q) response in
  snd r = Fulfilled tt
  /\ requests (fst r) = requests a
  /\ localStorage (fst r) = localStorage a
  /\ AuthDialog.shown (dialog (fst r)) = 1
  /\ AuthDialog.registerFormContainer_hidden (dialog (fst r)) = false
  /\ AuthDialog.authError_hidden (dialog (fst r)) = false
  /\ AuthDialog.authError_textContent (dialog (fst r))
     = (if String.eqb p q then password_short else passwords_differ)
  /\ authError_className (fst r) = red.
Proof.
  intros H. unfold handleRegister. cbn [same_field].
  destruct (String.eqb p q) eqn:E; cbn [negb].
  - apply String.eqb_eq in E. destruct H as [H|H]; [contradiction|].
    apply Nat.ltb_lt in H. rewrite H. repeat split.
  - repeat split.
Qed.

Lemma register_checks_come_before_the_request_witness :
  let r :=
    handleRegister canonical_numbers (page []) (Some "ann") (Some "secret1")
      (Some "secret2")
      (PromaDashboard.Response true 200 (PromaDashboard.BodyText "{}")) in
  snd r = Fulfilled tt
  /\ requests (fst r) = requests (page [])
  /\ localStorage (fst r) = localStorage (page [])
  /\ AuthDialog.shown (dialog (fst r)) = 1
  /\ AuthDialog.registerFormContainer_hidden (dialog (fst r)) = false
  /\ AuthDialog.authError_hidden (dialog (fst r)) = false
  /\ AuthDialog.authError_textContent (dialog (fst r))
     = (if String.eqb "secret1" "secret2" then password_short
        else passwords_differ)
  /\ authError_className (fst r) = red.
Proof.
  apply (register_checks_come_before_the_request canonical_numbers (page [])
           (Some "ann") "secret1" "secret2"
           (PromaDashboard.Response true 200 (PromaDashboard.BodyText "{}"))).
  left. discriminate.
Defined.

(** [handleLogout] never fails, and whenever it ends the login is
    gone, whether the server answered or not: the token, the user, the
    session and the workspace are [null], none of the five items of a login
    is left in the storage, and the dialog is back with the login form alone
    under a message.  As long as the request does not settle, nothing is
    cleared. *)
Theorem logout_clears_the_login_whenever_it_ends (engine : Engine)
    (a : Account) (response : PromaDashboard.Fetch) :
  let r := handleLogout engine a response in
  snd r <> Rejected
  /\ (snd r = Fulfilled tt ->
      token (fst r) = Null /\ currentUser (fst r) = Null
      /\ sessionId (fst r) = Null /\ workspaceId (fst r) = Null
      /\ (forall key, In key login_items ->
                      getItem key (localStorage (fst r)) = None)
      /\ authModal_display (fst r) = "flex"
      /\ asks_to_login (fst r))
  /\ (snd r = Pending -> same_session (fst r) a).
Proof.
  unfold handleLogout.
  destruct (ToString engine (token a)) as [text|].
  - destruct (json response) as [| |ok data]; cbn [fst snd].
    + split; [discriminate|]. split; [discriminate|].
      intros _. repeat split.
    + split; [discriminate|]. split; [|discriminate].
      intros _. split; [reflexivity|]. split; [reflexivity|].
      split; [reflexivity|]. split; [reflexivity|].
      split; [intros key H; now apply removed_are_absent|].
      split; [reflexivity|]. repeat split.
    + split; [discriminate|]. split; [|discriminate].
      intros _. split; [reflexivity|]. split; [reflexivity|].
      split; [reflexivity|]. split; [reflexivity|].
      split; [intros key H; now apply removed_are_absent|].
      split; [reflexivity|]. repeat split.
  - cbn [fst snd]. split; [discriminate|]. split; [|discriminate].
    intros _. split; [reflexivity|]. split; [reflexivity|].
    split; [reflexivity|]. split; [reflexivity|].
    split; [intros key H; now apply removed_are_absent|].
    split; [reflexivity|]. repeat split.
Qed.

Lemma logout_clears_the_login_whenever_it_ends_witness :
  snd (handleLogout canonical_numbers signed_in PromaDashboard.FetchRejected)
  = Fulfilled tt
  /\ token
       (fst (handleLogout canonical_numbers signed_in
               PromaDashboard.FetchRejected))
     = Null
  /\ token signed_in = Str "t0k3n".
Proof.
  destruct (logout_clears_the_login_whenever_it_ends canonical_numbers
              signed_in PromaDashboard.FetchRejected) as (_ & H & _).
  split; [vm_compute; reflexivity|].
  split; [apply H; vm_compute; reflexivity|vm_compute; reflexivity].
Defined.

(** A login of the dashboard survives a reload, as strings.  When
    the answer to [handleLogin] carries an access token that counts as true
    and a user, whatever its [ok] flag, and the token and the user name turn
    into strings that are not empty, the dialog is hidden, and the
    constructor on any page that finds the storage this leaves signs in
    again: the token, the user and the workspace of the new instance are the
    strings of the values of the answer, the workspace [default] when its
    string is empty, the agent is the project manager, the dialog is hidden
    and the user name shows.  No settings are stored. *)
Theorem dashboard_login_survives_reload (engine : Engine) (a p : Account)
    (username password : option string) (response : PromaDashboard.Fetch)
    (ok : bool) (data tok user name ws : Value) (t n w : string) :
  json response = Gives ok data ->
  Get data "access_token" = Some tok -> ToBoolean engine tok = true ->
  ToString engine tok = Some t -> t <> "" ->
  Get data "user" = Some user -> Get user "user_name" = Some name ->
  ToString engine name = Some n -> n <> "" ->
  Get user "workspace_id" = Some ws -> ToString engine ws = Some w ->
  getItem "proma_settings" (localStorage a) = None ->
  localStorage p
  = localStorage (fst (handleLogin engine a username password response)) ->
  authModal_display (fst (handleLogin engine a username password response))
  = "none"
  /\ exists r : Account,
      construct engine p = Some r
      /\ token r = Str t /\ currentUser r = Str n
      /\ workspaceId r = Str (if String.eqb w "" then "default" else w)
      /\ agentId r = "project_manager_agent"
      /\ authModal_display r = "none"
      /\ currentUserEl_textContent r = n
      /\ localStorage r = localStorage p.
Proof.
  intros Hj H1 H2 H3 Ht H4 H5 H6 Hn H7 H8 Hs Hp.
  unfold handleLogin in *. rewrite Hj in *. unfold try_catch in *.
  rewrite (signIn_granted engine data tok user name ws t n w _ H1 H2 H3 H4 H5
             H6 H7 H8) in *.
  split; [reflexivity|].
  fields_in Hp.
  destruct (stored_login (localStorage a) t n w "project_manager_agent"
              (stringified (stringify engine user)))
    as (S1 & S2 & S3 & S4 & S5).
  rewrite <- Hp in S1, S2, S3, S4, S5.
  assert (L : loadSettings (initialize p) = (initialize p, Some tt)).
  { unfold loadSettings. fields. now rewrite S5, Hs. }
  unfold construct, bind. rewrite L.
  rewrite (checkAuthentication_stored engine (initialize p) t n) by
    (fields; assumption).
  eexists. split; [reflexivity|]. fields. rewrite S3, S4.
  repeat split.
Qed.

Lemma dashboard_login_survives_reload_witness :
  authModal_display
    (fst (handleLogin canonical_numbers (initialize (page [])) (Some "ann")
            (Some "secret") (answer false 401 granted)))
  = "none"
  /\ exists r : Account,
      construct canonical_numbers (page (localStorage signed_in)) = Some r
      /\ token r = Str "t0k3n" /\ currentUser r = Str "ann"
      /\ workspaceId r = Str (if String.eqb "w1" "" then "default" else "w1")
      /\ agentId r = "project_manager_agent"
      /\ authModal_display r = "none"
      /\ currentUserEl_textContent r = "ann"
      /\ localStorage r = localStorage (page (localStorage signed_in)).
Proof.
  apply (dashboard_login_survives_reload canonical_numbers
           (initialize (page [])) (page (localStorage signed_in))
           (Some "ann") (Some "secret") (answer false 401 granted) false
           granted (Str "t0k3n")
           (Object [("user_name", Str "ann"); ("workspace_id", Str "w1")])
           (Str "ann") (Str "w1") "t0k3n" "ann" "w1");
    first [discriminate | vm_compute; reflexivity].
Defined.

(** An answer to [handleLogin] with an access token and no user is
    refused half way: reading the name of the user throws after the token
    was taken, so the dialog asks to log in again under the message of a
    failed request and nothing is stored, but the instance keeps the token
    of the answer. *)
Theorem login_without_user_keeps_the_token (engine : Engine) (a : Account)
    (username password : option string) (response : PromaDashboard.Fetch)
    (ok : bool) (data tok user : Value) :
  json response = Gives ok data ->
  Get data "access_token" = Some tok -> ToBoolean engine tok = true ->
  Get data "user" = Some user -> Get user "user_name" = None ->
  let r := handleLogin engine a username password response in
  snd r = Fulfilled tt
  /\ token (fst r) = tok
  /\ currentUser (fst r) = currentUser a
  /\ localStorage (fst r) = localStorage a
  /\ authModal_display (fst r) = authModal_display a
  /\ asks_to_login (fst r)
  /\ AuthDialog.authError_textContent (dialog (fst r)) = login_error.
Proof.
  intros Hj H1 H2 H3 H4. unfold handleLogin. rewrite Hj.
  unfold try_catch, signIn, bind, checked, does.
  rewrite H1, H2, H3, H4. repeat split.
Qed.

Lemma login_without_user_keeps_the_token_witness :
  let r :=
    handleLogin canonical_numbers (initialize (page [])) (Some "ann")
      (Some "secret")
      (answer true 200 (Object [("access_token", Str "t0k3n")])) in
  snd r = Fulfilled tt
  /\ token (fst r) = Str "t0k3n"
  /\ currentUser (fst r) = currentUser (initialize (page []))
  /\ localStorage (fst r) = localStorage (initialize (page []))
  /\ authModal_display (fst r) = authModal_display (initialize (page []))
  /\ asks_to_login (fst r)
  /\ AuthDialog.authError_textContent (dialog (fst r)) = login_error.
Proof.
  apply (login_without_user_keeps_the_token canonical_numbers
           (initialize (page [])) (Some "ann") (Some "secret")
           (answer true 200 (Object [("access_token", Str "t0k3n")])) true
           (Object [("access_token", Str "t0k3n")]) (Str "t0k3n") Undefined);
    vm_compute; reflexivity.
Defined.

(** [handleLogin] never fails and ends in one of two ways.  Either
    the user is signed in: the dialog is hidden, the chat is emptied and the
    storage holds the token, the user, the workspace and the agent of the
    instance, as strings.  Or the dialog asks to log in again, with the login
    form alone under a red message, and keeps its [display] style.  As long
    as the request does not settle, the loading panel shows alone and the
    login of the instance is untouched. *)
Theorem login_ends_signed_in_or_asking_again (engine : Engine) (a : Account)
    (username password : option string) (response : PromaDashboard.Fetch) :
  let r := handleLogin engine a username password response in
  snd r <> Rejected
  /\ (snd r = Pending ->
      AuthDialog.shown (dialog (fst r)) = 1
      /\ AuthDialog.authLoading_hidden (dialog (fst r)) = false
      /\ same_session (fst r) a)
  /\ (snd r = Fulfilled tt ->
      (authModal_display (fst r) = "none" /\ chatMessages (fst r) = []
       /\ getItem "proma_token" (localStorage (fst r))
          = ToString engine (token (fst r))
       /\ getItem "proma_user" (localStorage (fst r))
          = ToString engine (currentUser (fst r))
       /\ getItem "proma_workspace" (localStorage (fst r))
          = ToString engine (workspaceId (fst r))
       /\ getItem "proma_agent" (localStorage (fst r))
          = Some (agentId (fst r)))
      \/ (asks_to_login (fst r) /\ authError_className (fst r) = red
          /\ authModal_display (fst r) = authModal_display a)).
Proof.
  unfold handleLogin.
  destruct (json response) as [| |ok data]; cbn [fst snd].
  - split; [discriminate|]. split; [|discriminate]. intros _. repeat split.
  - split; [discriminate|]. split; [discriminate|]. intros _. right.
    repeat split.
  - split; [discriminate|]. split; [discriminate|]. intros _.
    unfold try_catch.
    pose proof
      (signIn_ends engine data
         (send "/api/v1/auth/login" None
            (stringify engine
               (Object [("user_name", field username);
                        ("user_pass", field password)]))
            (showAuthLoading (hideAuthError a)))) as H.
    destruct (signIn engine data _) as [s [[]|]].
    + destruct H as [(Hd & Hc & t & n & w & d & Ht & Hn & Hw & Hs)
                    |(Hl & Hr & Hk)].
      * left. split; [exact Hd|]. split; [exact Hc|].
        destruct (stored_login
                    (localStorage
                       (send "/api/v1/auth/login" None
                          (stringify engine
                             (Object [("user_name", field username);
                                      ("user_pass", field password)]))
                          (showAuthLoading (hideAuthError a))))
                    t n w (agentId s) d) as (S1 & S2 & S3 & S4 & _).
        rewrite <- Hs in S1, S2, S3, S4. rewrite Ht, Hn, Hw.
        repeat split; assumption.
      * right. split; [exact Hl|]. split; [exact Hr|].
        destruct Hk as (_ & _ & _ & _ & _ & Hk). exact Hk.
    + right. split; [repeat split|]. split; [reflexivity|].
      fields. fields_in H. exact H.
Qed.

(** A registration the server accepts leads back to the login form:
    when the passwords agree and have six code units or more, and the answer
    is [ok] with an access token that counts as true, one request leaves,
    the register form is reset, and the dialog shows the login form alone
    under a green message that names the new account, with the name filled
    in already. *)
Theorem registration_leads_to_the_login_form (engine : Engine) (a : Account)
    (name p : string) (response : PromaDashboard.Fetch) (data tok : Value) :
  6 <= utf16_length p ->
  json response = Gives true data ->
  Get data "access_token" = Some tok -> ToBoolean engine tok = true ->
  let r := handleRegister engine a (Some name) (Some p) (Some p) response in
  snd r = Fulfilled tt
  /\ asks_to_login (fst r)
  /\ authError_className (fst r) = green
  /\ AuthDialog.authError_textContent (dialog (fst r)) = registered name
  /\ loginUsernameInput_value (fst r) = name
  /\ registerForm_reset (fst r) = true
  /\ List.length (requests (fst r)) = S (List.length (requests a)).
Proof.
  intros Hp Hj H1 H2. unfold handleRegister. cbn [same_field].
  rewrite String.eqb_refl. cbn [negb].
  destruct (utf16_length p <? 6)%nat eqn:E;
    [apply Nat.ltb_lt in E; lia|].
  rewrite Hj. unfold try_catch, signUp, bind, checked, does, ret.
  rewrite H1, H2. fields.
  repeat split. rewrite length_app. cbn [List.length]. lia.
Qed.

Lemma registration_leads_to_the_login_form_witness :
  let r :=
    handleRegister canonical_numbers (initialize (page [])) (Some "ann")
      (Some "secret") (Some "secret") (answer true 200 granted) in
  snd r = Fulfilled tt
  /\ asks_to_login (fst r)
  /\ authError_className (fst r) = green
  /\ AuthDialog.authError_textContent (dialog (fst r)) = registered "ann"
  /\ loginUsernameInput_value (fst r) = "ann"
  /\ registerForm_reset (fst r) = true
  /\ List.length (requests (fst r))
     = S (List.length (requests (initialize (page [])))).
Proof.
  apply (registration_leads_to_the_login_form canonical_numbers
           (initialize (page [])) "ann" "secret" (answer true 200 granted)
           granted (Str "t0k3n"));
    first [vm_compute; lia | vm_compute; reflexivity].
Defined.

(** After [clearChat] the chat ends with one welcome message: once
    the timers have run, however many calls of [addWelcomeMessage] were
    waiting, the chat holds the welcome message alone, greeting the user of
    the instance, or [bạn] when there is none. *)
Theorem clearChat_ends_with_one_welcome (engine : Engine) (a : Account)
    (name : string) :
  ToString engine (PromaDashboard.or_else engine (currentUser a) (Str "bạn"))
  = Some name ->
  let r := elapse engine (clearChat a) in
  chatMessages r = [Welcome name] /\ timers r = []
  /\ (currentUser a = Null -> name = "bạn").
Proof.
  intros H.
  destruct (welcome_comes engine (timers a ++ [100]) name
              (set_timers [] (clearChat a)) H eq_refl eq_refl) as [Hc Ht].
  { now destruct (timers a). }
  split; [exact Hc|]. split; [exact Ht|].
  intros Hn. rewrite Hn in H. cbn in H. congruence.
Qed.

Lemma clearChat_ends_with_one_welcome_witness :
  let r := elapse canonical_numbers (clearChat (initialize (page []))) in
  chatMessages r = [Welcome "bạn"] /\ timers r = []
  /\ (currentUser (initialize (page [])) = Null -> "bạn" = "bạn").
Proof.
  apply (clearChat_ends_with_one_welcome canonical_numbers
           (initialize (page [])) "bạn").
  vm_compute; reflexivity.
Defined.



End DashboardExtras.
